(** * gh_status: the aggregation pipeline, embedded and verified

    A shallow embedding of [gh_status/github_client.py], [gh_status/builder.py]
    and [gh_status/writers.py].

    Conventions of the embedding.
    - A Python [str] is a [string]; its characters are the code points 0..255.
    - A Python exception is a value of [exn]; a call that may raise returns an
      [outcome].  The pagination loop is bounded by a fuel argument, and
      [OutOfFuel] is the outcome of a loop that did not finish within it.
    - A [datetime] keeps its wall-clock reading and its UTC offset, which is
      absent for a naive datetime: Python refuses to order a naive and an
      aware datetime.
    - The decoded JSON objects of the REST API are records of the fields the
      code reads; a key that the code reads with [.get] or tests with [in] is
      an [option].
    - [Counter] is an association list in insertion order. *)

From Stdlib Require Import ZArith Lia Bool Ascii String Sorted Permutation.
From stdpp Require Import base tactics option list sorting strings gmap sets pretty.

Local Open Scope Z_scope.

(** * Exceptions and outcomes *)

Inductive exn : Type :=
| TypeError
| ValueError
| KeyError
| IndexError
| RuntimeError
| FileNotFoundError
| HTTPStatusError (status : Z)
| TransportError
| TemplateError
| UnknownTimeZoneError.

Global Instance exn_eq_dec : EqDecision exn.
Proof. solve_decision. Defined.

Inductive outcome (A : Type) : Type :=
| Return (a : A)
| Raise (e : exn)
| OutOfFuel.

Arguments Return {A} a.
Arguments Raise {A} e.
Arguments OutOfFuel {A}.

Global Instance outcome_ret : MRet outcome := fun A a => Return a.

Global Instance outcome_bind : MBind outcome := fun A B f m =>
  match m with
  | Return a => f a
  | Raise e => Raise e
  | OutOfFuel => OutOfFuel
  end.

(** [for x in l: f x], collecting the results; the first raise ends the loop. *)
Fixpoint for_each {A B : Type} (f : A -> outcome B) (l : list A) : outcome (list B) :=
  match l with
  | [] => Return []
  | x :: l' => y ← f x; ys ← for_each f l'; Return (y :: ys)
  end.

(** [[x for x in l if p x]] where the test may raise. *)
Fixpoint filter_raising {A : Type} (p : A -> outcome bool) (l : list A) : outcome (list A) :=
  match l with
  | [] => Return []
  | x :: l' =>
      p x ≫= λ b : bool, xs ← filter_raising p l'; Return (if b then x :: xs else xs)
  end.

(** * [sorted]: a stable sort *)

Section Sorting.
Context {A : Type} (le : A -> A -> bool).

Fixpoint insert_sorted (x : A) (l : list A) : list A :=
  match l with
  | [] => [x]
  | y :: l' => if le x y then x :: l else y :: insert_sorted x l'
  end.

(** [sorted l]: elements that compare equal keep their order. *)
Definition sorted (l : list A) : list A := foldr insert_sorted [] l.
End Sorting.

(** [sorted(l, key=key, reverse=True)] *)
Definition sorted_reverse_by {A : Type} (key : A -> Z) (l : list A) : list A :=
  sorted (fun x y => key y <=? key x) l.

(** * [collections.Counter] *)

(** A counter: its entries in the order of their first count. *)
Abbreviation Counter K := (list (K * nat)) (only parsing).

Section Counter.
Context {K : Type} `{EqDecision K}.

(** [c[k] += 1] *)
Fixpoint counter_incr (k : K) (c : Counter K) : Counter K :=
  match c with
  | [] => [(k, 1%nat)]
  | (k', n) :: c' =>
      if decide (k = k') then (k', S n) :: c' else (k', n) :: counter_incr k c'
  end.

(** [Counter K(l)] *)
Definition counter_of (l : list K) : Counter K :=
  foldl (fun c k => counter_incr k c) [] l.

(** [c.get(k, 0)] *)
Fixpoint counter_get (k : K) (c : Counter K) : nat :=
  match c with
  | [] => 0%nat
  | (k', n) :: c' => if decide (k = k') then n else counter_get k c'
  end.

(** [c.keys()] *)
Definition counter_keys (c : Counter K) : list K := c.*1.

(** [max(c.items(), key=itemgetter(1))]: the first entry with the highest count. *)
Fixpoint max_entry (best : K * nat) (c : Counter K) : K * nat :=
  match c with
  | [] => best
  | kn :: c' => max_entry (if (best.2 <? kn.2)%nat then kn else best) c'
  end.

(** [c.most_common(1)] *)
Definition most_common_1 (c : Counter K) : list (K * nat) :=
  match c with
  | [] => []
  | kn :: c' => [max_entry kn c']
  end.

(** [c.most_common(n)] *)
Definition most_common (n : nat) (c : Counter K) : list (K * nat) :=
  take n (sorted_reverse_by (fun kn => Z.of_nat kn.2) c).
End Counter.

(** * Calendar dates *)

(** A local calendar day; the key ["%Y-%m-%d"] of [events_by_local_day]. *)
Record date : Type := Date { year : Z; month : Z; day : Z }.

Global Instance date_eq_dec : EqDecision date.
Proof. solve_decision. Defined.

Definition is_leap (y : Z) : bool :=
  (y mod 4 =? 0) && (negb (y mod 100 =? 0) || (y mod 400 =? 0)).

Definition days_before_year (y : Z) : Z :=
  let y1 := y - 1 in y1 * 365 + y1 / 4 - y1 / 100 + y1 / 400.

Definition days_in_month (y m : Z) : Z :=
  if m =? 2 then (if is_leap y then 29 else 28)
  else if (m =? 4) || (m =? 6) || (m =? 9) || (m =? 11) then 30
  else 31.

Definition days_before_month (y m : Z) : Z :=
  (if m =? 1 then 0 else if m =? 2 then 31 else if m =? 3 then 59
   else if m =? 4 then 90 else if m =? 5 then 120 else if m =? 6 then 151
   else if m =? 7 then 181 else if m =? 8 then 212 else if m =? 9 then 243
   else if m =? 10 then 273 else if m =? 11 then 304 else 334)
  + (if (2 <? m) && is_leap y then 1 else 0).

(** [date.toordinal()]: 0001-01-01 is day 1. *)
Definition toordinal (d : date) : Z :=
  days_before_year (year d) + days_before_month (year d) (month d) + day d.

(** The calendar dates with a year of four digits: those that
    [strftime("%Y-%m-%d")] prints in ten characters and [strptime] reads back. *)
Definition valid_date (d : date) : Prop :=
  1000 <= year d <= 9999 /\ 1 <= month d <= 12
  /\ 1 <= day d <= days_in_month (year d) (month d).

Global Instance valid_date_dec d : Decision (valid_date d).
Proof. unfold valid_date. apply _. Defined.

(** The order of the ["%Y-%m-%d"] keys as strings, for years of four digits:
    the fields have fixed width and are zero padded, so the strings compare
    field by field. *)
Definition date_key_leb (a b : date) : bool :=
  if year a <? year b then true
  else if year b <? year a then false
  else if month a <? month b then true
  else if month b <? month a then false
  else day a <=? day b.

(** * [datetime] *)

(** [wall] is the wall-clock reading in microseconds since 0001-01-01T00:00;
    [utcoffset] is [None] for a naive datetime. *)
Record datetime : Type := Datetime { wall : Z; utcoffset : option Z }.

Global Instance datetime_eq_dec : EqDecision datetime.
Proof. solve_decision. Defined.

(** [timedelta(days=n)] in microseconds *)
Definition timedelta_days (n : Z) : Z := n * 86400000000.

(** [t - timedelta(days=n)] *)
Definition datetime_sub (t : datetime) (delta : Z) : datetime :=
  {| wall := wall t - delta; utcoffset := utcoffset t |}.

(** [a >= b]: two naive datetimes compare by their readings, two aware ones
    by their instants, and a naive with an aware one raises [TypeError]. *)
Definition datetime_ge (a b : datetime) : outcome bool :=
  match utcoffset a, utcoffset b with
  | None, None => Return (wall b <=? wall a)
  | Some oa, Some ob => Return (wall b - ob <=? wall a - oa)
  | _, _ => Raise TypeError
  end.

(** [datetime.utcnow()] at the reading [now]: a naive datetime. *)
Definition utcnow (now : Z) : datetime := {| wall := now; utcoffset := None |}.

(** * schemas.py *)

Module RepoInventoryItem.
Record t : Type := Make {
  full : string;
  desc : option string;
  topics : list string;
  lang : option string;
  stars : Z;
  forks : Z;
  open_issues : Z;
  pushed_utc : Z;  (* the instant of the last push; aware datetimes order by instant *)
  homepage : option string;
  default_branch : string;
  readme : option string;
  changelog : option string;
  recent_files : option (list string)
}.
End RepoInventoryItem.

Module Inventory.
Record t : Type := Make {
  schema_version : string;
  username : string;
  generated_utc : datetime;
  repo : list RepoInventoryItem.t
}.
End Inventory.

Module ActivitySummary.
Record t : Type := Make {
  events : nat;
  repos : nat;
  pushes : nat;
  pull_requests : nat;
  issues : nat;
  comments : nat;
  releases : nat;
  stars : nat;
  creates : nat;
  deletes : nat
}.
End ActivitySummary.

Module ActivityInsights.
Record t : Type := Make {
  streak_days : nat;
  busiest_local_day : option date;
  top_repos : list string;
  top_event_types : list string
}.
End ActivityInsights.

Module ActivityEvent.
Record t : Type := Make {
  type : string;
  repo_owner : string;
  repo_name : string;
  at_utc : datetime;
  url : string;
  title : string;
  commits : option (list string);
  event_id : string
}.
End ActivityEvent.

Module Activity.
Record t : Type := Make {
  schema_version : string;
  username : string;
  generated_utc : datetime;
  window_start_utc : datetime;
  window_days : Z;
  summary : ActivitySummary.t;
  insights : ActivityInsights.t;
  event : list ActivityEvent.t
}.
End Activity.

(** * The decoded JSON of the REST API *)

(** An entry of [/users/{user}/repos]. *)
Record repo_json : Type := RepoJson {
  archived : bool;                 (* the truth value of [item.get("archived")] *)
  full_name : string;
  description : option string;
  json_topics : list string;       (* [item.get("topics", [])] *)
  language : option string;
  stargazers_count : Z;
  forks_count : Z;
  open_issues_count : Z;
  pushed_at : Z;                   (* the instant that pydantic parses the timestamp to *)
  json_homepage : option string;
  json_default_branch : string
}.

Record commit_json : Type := CommitJson { sha : string; message : string }.

Record pull_request_json : Type := PullRequestJson { pr_title : string; pr_html_url : string }.

Record payload_json : Type := PayloadJson {
  payload_size : option Z;           (* [payload.get("size")] *)
  payload_commits : option (list commit_json);
  ref : option string;
  action : option string;
  pull_request : option pull_request_json
}.

(** An entry of [/users/{user}/events/public]; [created_at] is the result of
    [datetime.fromisoformat(e["created_at"].replace("Z", "+00:00"))], which is
    aware exactly when the text carries an offset or the suffix [Z]. *)
Record event_json : Type := EventJson {
  event_json_id : string;
  event_type : string;
  event_repo_name : string;        (* [e["repo"]["name"]] *)
  created_at : datetime;
  payload : payload_json
}.

(** An entry of a recursive git tree. *)
Record tree_entry_json : Type := TreeEntryJson { path : string; entry_type : option string }.

Record tree_json : Type := TreeJson { truncated : bool; tree : option (list tree_entry_json) }.

(** * github_client.py *)

Record response (A : Type) : Type := Response {
  status_code : Z;
  json : A;                        (* [response.json()], or [response.text] *)
  links_next : option string       (* [response.links["next"]["url"]] when ["next" in response.links] *)
}.

Arguments Response {A} _ _ _.
Arguments status_code {A} _.
Arguments json {A} _.
Arguments links_next {A} _.

(** The HTTP client, by endpoint; a request that cannot be carried out raises. *)
Record CacheClient : Type := {
  http_get_repos : string -> outcome (response (list repo_json));
  http_get_events : string -> outcome (response (list event_json));
  http_get_raw : string -> outcome (response string);
  http_get_commits : string -> outcome (response (list string));   (* the commits' [sha] *)
  http_get_tree : string -> outcome (response tree_json)
}.

Record GitHubClient : Type := {
  username : string;
  client : option CacheClient
}.

Definition API_URL : string := "https://api.github.com".

(** httpx: a response is a success when its status is 2xx. *)
Definition is_success (status : Z) : bool := (200 <=? status) && (status <=? 299).

(** [response.raise_for_status()] *)
Definition raise_for_status {A : Type} (r : response A) : outcome unit :=
  if is_success (status_code r) then Return tt else Raise (HTTPStatusError (status_code r)).

(** The [while "next" in response.links] loop of [_get_paginated]: the list
    [items] as it stands when the loop ends, and how the loop ended. *)
Fixpoint fetch_next_pages {A : Type} (get : string -> outcome (response (list A)))
    (fuel : nat) (resp : response (list A)) (items : list A) : list A * outcome unit :=
  match links_next resp with
  | None => (items, Return tt)
  | Some next_url =>
      match fuel with
      | O => (items, OutOfFuel)
      | S fuel' =>
          match get next_url with
          | Return resp' =>
              match raise_for_status resp' with
              | Return _ => fetch_next_pages get fuel' resp' (items ++ json resp')
              | Raise e => (items, Raise e)
              | OutOfFuel => (items, OutOfFuel)
              end
          | Raise e => (items, Raise e)
          | OutOfFuel => (items, OutOfFuel)
          end
      end
  end.

(** The body of the [try] of [_get_paginated]. *)
Definition fetch_all_pages {A : Type} (get : string -> outcome (response (list A)))
    (fuel : nat) (url : string) : list A * outcome unit :=
  match get url with
  | Return resp =>
      match raise_for_status resp with
      | Return _ => fetch_next_pages get fuel resp ([] ++ json resp)
      | Raise e => ([], Raise e)
      | OutOfFuel => ([], OutOfFuel)
      end
  | Raise e => ([], Raise e)
  | OutOfFuel => ([], OutOfFuel)
  end.

(** [GitHubClient._get_paginated] (github_client.py, lines 45-65): an
    [HTTPStatusError] raised in the [try] is logged and the items gathered so
    far are returned; any other exception propagates. *)
Definition _get_paginated {A : Type} (self : GitHubClient)
    (endpoint : CacheClient -> string -> outcome (response (list A)))
    (fuel : nat) (url : string) : outcome (list A) :=
  match client self with
  | None => Raise RuntimeError
  | Some c =>
      match fetch_all_pages (endpoint c) fuel url with
      | (items, Return _) => Return items
      | (items, Raise (HTTPStatusError _)) => Return items   (* logged *)
      | (_, Raise e) => Raise e
      | (_, OutOfFuel) => OutOfFuel
      end
  end.

Definition repo_of_json (item : repo_json) : RepoInventoryItem.t :=
  {| RepoInventoryItem.full := full_name item;
     RepoInventoryItem.desc := description item;
     RepoInventoryItem.topics := json_topics item;
     RepoInventoryItem.lang := language item;
     RepoInventoryItem.stars := stargazers_count item;
     RepoInventoryItem.forks := forks_count item;
     RepoInventoryItem.open_issues := open_issues_count item;
     RepoInventoryItem.pushed_utc := pushed_at item;
     RepoInventoryItem.homepage := json_homepage item;
     RepoInventoryItem.default_branch := json_default_branch item;
     RepoInventoryItem.readme := None;
     RepoInventoryItem.changelog := None;
     RepoInventoryItem.recent_files := None |}.

(** The [for item in repo_data] loop of [get_public_repos]. *)
Definition collect_repos (repo_data : list repo_json) : list RepoInventoryItem.t :=
  foldl (fun repos item => if archived item then repos else repos ++ [repo_of_json item])
        [] repo_data.

(** [GitHubClient.get_public_repos] (github_client.py, lines 67-93) *)
Definition get_public_repos (self : GitHubClient) (fuel : nat)
    : outcome (list RepoInventoryItem.t) :=
  let url := (API_URL +:+ "/users/" +:+ username self +:+ "/repos?type=public&per_page=100")%string in
  repo_data ← _get_paginated self http_get_repos fuel url;
  Return (sorted_reverse_by RepoInventoryItem.pushed_utc (collect_repos repo_data)).

(** [GitHubClient.get_public_events] (github_client.py, lines 95-102) *)
Definition get_public_events (self : GitHubClient) (fuel : nat) : outcome (list event_json) :=
  match client self with
  | None => Raise RuntimeError
  | Some _ =>
      let url := (API_URL +:+ "/users/" +:+ username self +:+ "/events/public?per_page=100")%string in
      _get_paginated self http_get_events fuel url
  end.

(** [except httpx.HTTPStatusError: return None] *)
Definition none_on_http_error {A : Type} (m : outcome (option A)) : outcome (option A) :=
  match m with
  | Raise (HTTPStatusError _) => Return None
  | _ => m
  end.

(** [GitHubClient.get_file_content] (github_client.py, lines 104-125) *)
Definition get_file_content (self : GitHubClient) (repo_full_name file_path : string)
    : outcome (option string) :=
  match client self with
  | None => Raise RuntimeError
  | Some c =>
      let url := (API_URL +:+ "/repos/" +:+ repo_full_name +:+ "/contents/" +:+ file_path)%string in
      none_on_http_error (
        resp ← http_get_raw c url;
        if status_code resp =? 404 then Return None
        else _ ← raise_for_status resp; Return (Some (json resp)))
  end.

(** [except (httpx.HTTPStatusError, IndexError, KeyError): return None] *)
Definition none_on_lookup_error {A : Type} (m : outcome (option A)) : outcome (option A) :=
  match m with
  | Raise (HTTPStatusError _) | Raise IndexError | Raise KeyError => Return None
  | _ => m
  end.

(** [GitHubClient.get_recent_file_changes] (github_client.py, lines 127-157) *)
Definition get_recent_file_changes (self : GitHubClient) (repo_full_name : string)
    : outcome (option (list string)) :=
  match client self with
  | None => Raise RuntimeError
  | Some c =>
      let commits_url := (API_URL +:+ "/repos/" +:+ repo_full_name +:+ "/commits")%string in
      none_on_lookup_error (
        resp ← http_get_commits c commits_url;
        _ ← raise_for_status resp;
        commit_sha ← match json resp with [] => Raise IndexError | s :: _ => Return s end;
        let tree_url := (API_URL +:+ "/repos/" +:+ repo_full_name +:+ "/git/trees/"
                         +:+ commit_sha +:+ "?recursive=1")%string in
        tree_response ← http_get_tree c tree_url;
        _ ← raise_for_status tree_response;
        let tree_data := json tree_response in
        Return (Some (path <$> filter (fun item => entry_type item = Some "blob"%string)
                                       (default [] (tree tree_data)))))
  end.

(** * Text: [str.strip], [str.splitlines], [str.split] and [re.sub] *)

Abbreviation chars := (list ascii) (only parsing).

(** [str.isspace] and the class [\s] on the code points 0..255. *)
Definition isspace (c : ascii) : bool :=
  let n := nat_of_ascii c in
  ((9 <=? n) && (n <=? 13) || (28 <=? n) && (n <=? 32) || (n =? 133) || (n =? 160))%nat.

(** The line boundaries of [str.splitlines] on the code points 0..255. *)
Definition islinebreak (c : ascii) : bool :=
  let n := nat_of_ascii c in
  ((10 <=? n) && (n <=? 13) || (28 <=? n) && (n <=? 30) || (n =? 133))%nat.

Fixpoint dropwhile {A : Type} (p : A -> bool) (l : list A) : list A :=
  match l with
  | [] => []
  | x :: l' => if p x then dropwhile p l' else l
  end.

Definition lstrip (s : chars) : chars := dropwhile isspace s.
Definition rstrip (s : chars) : chars := reverse (dropwhile isspace (reverse s)).
Definition strip (s : chars) : chars := rstrip (lstrip s).

(** [str.splitlines]: [cur] is the line being read; a carriage return followed
    by a line feed is one boundary, and the text after the last boundary is a
    line only if it is not empty. *)
Fixpoint splitlines_from (cur : chars) (s : chars) : list chars :=
  match s with
  | [] => match cur with [] => [] | _ => [cur] end
  | c :: s' =>
      if islinebreak c then
        match s' with
        | c' :: s'' =>
            if (nat_of_ascii c =? 13)%nat && (nat_of_ascii c' =? 10)%nat
            then cur :: splitlines_from [] s''
            else cur :: splitlines_from [] s'
        | [] => [cur]
        end
      else splitlines_from (cur ++ [c]) s'
  end.

Definition splitlines (s : chars) : list chars := splitlines_from [] s.

(** [s.split(sep)] for a one-character [sep]. *)
Fixpoint split_from (sep : ascii) (cur : chars) (s : chars) : list chars :=
  match s with
  | [] => [cur]
  | c :: s' => if decide (c = sep) then cur :: split_from sep [] s'
               else split_from sep (cur ++ [c]) s'
  end.

Definition split (sep : ascii) (s : chars) : list chars := split_from sep [] s.

(** ** Regular expressions, matched by backtracking as [re] does *)

Inductive regex : Type :=
| Bol                              (* [^] *)
| Cls (p : ascii -> bool)          (* one character of a class *)
| Cat (r1 r2 : regex)              (* [r1 r2] *)
| Opt (r : regex)                  (* [r?], greedy *)
| Star (r : regex).                (* [r*], greedy *)

(** The continuation of a match: given the position reached and the text
    left, the result of matching what follows. *)
Definition cont (R : Type) : Type := nat -> chars -> option R.

(** The loop of [r*]: one more iteration first, the continuation when that
    fails; an iteration that consumes nothing ends the loop.  [n] bounds the
    iterations by the length of the text. *)
Fixpoint star_loop {R : Type} (body : nat -> chars -> cont R -> option R) (k : cont R)
    (n : nat) (pos : nat) (s : chars) : option R :=
  match n with
  | O => k pos s
  | S n' =>
      match body pos s (fun pos' s' => if (pos <? pos')%nat then star_loop body k n' pos' s'
                                       else None) with
      | Some x => Some x
      | None => k pos s
      end
  end.

(** [rmatch r pos s k]: the first way, in the order of a backtracking
    matcher, to match [r] at position [pos], where the text left is [s], such
    that [k] succeeds on what follows. *)
Fixpoint rmatch {R : Type} (r : regex) (pos : nat) (s : chars) (k : cont R) : option R :=
  match r with
  | Bol => if (pos =? 0)%nat then k pos s else None
  | Cls p =>
      match s with
      | c :: s' => if p c then k (S pos) s' else None
      | [] => None
      end
  | Cat r1 r2 => rmatch r1 pos s (fun pos' s' => rmatch r2 pos' s' k)
  | Opt r1 =>
      match rmatch r1 pos s k with
      | Some x => Some x
      | None => k pos s
      end
  | Star r1 => star_loop (rmatch r1) k (length s) pos s
  end.

(** [pattern.match] at position [pos]: the end of the match. *)
Definition at_end : cont nat := fun pos' _ => Some pos'.

Definition match_end (r : regex) (pos : nat) (s : chars) : option nat :=
  rmatch r pos s at_end.

(** [re.sub(r, repl, text)] from position [pos] on, where [s] is the text left
    and [skip] counts the characters of [s] that the last match still covers.
    A match that is empty is replaced and the scan moves one character on. *)
Fixpoint sub_from (r : regex) (repl : chars) (pos skip : nat) (s : chars) : chars :=
  match skip with
  | S skip' =>
      match s with
      | _ :: s' => sub_from r repl (S pos) skip' s'
      | [] => []
      end
  | O =>
      match match_end r pos s with
      | Some pos' =>
          repl ++
          match s with
          | c :: s' =>
              if (pos' =? pos)%nat then c :: sub_from r repl (S pos) 0 s'
              else sub_from r repl (S pos) (pos' - pos - 1) s'
          | [] => []
          end
      | None =>
          match s with
          | c :: s' => c :: sub_from r repl (S pos) 0 s'
          | [] => []
          end
      end
  end.

Definition re_sub (r : regex) (repl : chars) (s : chars) : chars := sub_from r repl 0 0 s.

Definition is_char (a : ascii) : ascii -> bool := fun c => bool_decide (c = a).
Definition one_of (l : chars) : ascii -> bool := fun c => bool_decide (c ∈ l).

(** * builder.py *)

Definition HOT_REPO_COUNT : nat := 3.

(** [^\s*[-*]\s*(\[[ xX]\])?\s*] *)
Definition todo_prefix : regex :=
  Cat Bol
  (Cat (Star (Cls isspace))
  (Cat (Cls (one_of ["-"; "*"]%char))
  (Cat (Star (Cls isspace))
  (Cat (Opt (Cat (Cls (is_char "["%char))
            (Cat (Cls (one_of [" "; "x"; "X"]%char))
                 (Cls (is_char "]"%char)))))
       (Star (Cls isspace)))))).

(** [re.sub(todo_prefix, empty, line).strip()] (builder.py, lines 25-26) *)
Definition normalize_chars (line : chars) : chars := strip (re_sub todo_prefix [] line).

Definition _normalize_todo_line (line : string) : string :=
  string_of_list_ascii (normalize_chars (list_ascii_of_string line)).

(** [str.splitlines] on a [string] *)
Definition str_splitlines (s : string) : list string :=
  string_of_list_ascii <$> splitlines (list_ascii_of_string s).

(** [_parse_todos_from_content] (builder.py, lines 29-36) *)
Definition _parse_todos_from_content (content : string) : list string :=
  foldl (fun todos line =>
           let normalized := _normalize_todo_line line in
           if decide (normalized = ""%string) then todos else todos ++ [normalized])
        [] (str_splitlines content).

(** ** [build_inventory] *)

Definition set_details (repo : RepoInventoryItem.t) (readme changelog : option string)
    (recent_files : option (list string)) : RepoInventoryItem.t :=
  {| RepoInventoryItem.full := RepoInventoryItem.full repo;
     RepoInventoryItem.desc := RepoInventoryItem.desc repo;
     RepoInventoryItem.topics := RepoInventoryItem.topics repo;
     RepoInventoryItem.lang := RepoInventoryItem.lang repo;
     RepoInventoryItem.stars := RepoInventoryItem.stars repo;
     RepoInventoryItem.forks := RepoInventoryItem.forks repo;
     RepoInventoryItem.open_issues := RepoInventoryItem.open_issues repo;
     RepoInventoryItem.pushed_utc := RepoInventoryItem.pushed_utc repo;
     RepoInventoryItem.homepage := RepoInventoryItem.homepage repo;
     RepoInventoryItem.default_branch := RepoInventoryItem.default_branch repo;
     RepoInventoryItem.readme := readme;
     RepoInventoryItem.changelog := changelog;
     RepoInventoryItem.recent_files := recent_files |}.

(** [{repo.full for repo in repos[:HOT_REPO_COUNT]}] *)
Definition hot_repo_names (repos : list RepoInventoryItem.t) : gset string :=
  list_to_set (RepoInventoryItem.full <$> take HOT_REPO_COUNT repos).

(** The three fetches for a hot repository. *)
Definition fetch_details (client : GitHubClient) (repo : RepoInventoryItem.t)
    : outcome RepoInventoryItem.t :=
  readme ← get_file_content client (RepoInventoryItem.full repo) "README.md";
  changelog ← get_file_content client (RepoInventoryItem.full repo) "CHANGELOG.md";
  recent_files ← get_recent_file_changes client (RepoInventoryItem.full repo);
  Return (set_details repo readme changelog recent_files).

(** [build_inventory] (builder.py, lines 41-63); [now] is the reading of the
    clock by [datetime.utcnow()]. *)
Definition build_inventory (client : GitHubClient) (username : string)
    (fuel : nat) (now : Z) : outcome Inventory.t :=
  repos ← get_public_repos client fuel;
  let hot := hot_repo_names repos in
  repos' ← for_each (fun repo => if decide (RepoInventoryItem.full repo ∈ hot)
                                 then fetch_details client repo
                                 else Return repo) repos;
  Return {| Inventory.schema_version := "1";
            Inventory.username := username;
            Inventory.generated_utc := utcnow now;
            Inventory.repo := repos' |}.

(** ** [build_activity] *)

(** A time zone of [pytz], as the code uses it: the calendar date of
    [t.astimezone(tz)], which [strftime("%Y-%m-%d")] prints. *)
Definition tzinfo : Type := datetime -> date.

(** [events_by_local_day] (builder.py, lines 133-137) *)
Definition events_by_local_day (local_tz : tzinfo) (window_events : list event_json)
    : Counter date :=
  foldl (fun c event => counter_incr (local_tz (created_at event)) c) [] window_events.

(** [busiest_day] (builder.py, line 139) *)
Definition busiest_day (by_day : Counter date) : option date :=
  match most_common_1 by_day with
  | kn :: _ => Some kn.1
  | [] => None
  end.

(** [sorted(events_by_local_day.keys())] (builder.py, line 142) *)
Definition active_days (by_day : Counter date) : list date :=
  sorted date_key_leb (counter_keys by_day).

(** The loop [for i in range(len(active_days) - 2, -1, -1)] (builder.py,
    lines 148-154), over the days before the last one, latest first. *)
Fixpoint streak_loop (current_day : date) (before : list date) (streak : nat) : nat :=
  match before with
  | [] => streak
  | prev_day :: before' =>
      if toordinal current_day - toordinal prev_day =? 1
      then streak_loop prev_day before' (S streak)
      else streak
  end.

(** [streak] (builder.py, lines 143-154): [active_days[-1]] is the head of
    the reversed list. *)
Definition streak_of (active_days : list date) : nat :=
  match reverse active_days with
  | [] => 0%nat
  | last_day :: before => streak_loop last_day before 1
  end.

(** [summary] (builder.py, lines 129-130 and 157-168) *)
Definition summary_of (window_events : list event_json) : ActivitySummary.t :=
  let repo_counter := counter_of (event_repo_name <$> window_events) in
  let type_counter := counter_of (event_type <$> window_events) in
  {| ActivitySummary.events := length window_events;
     ActivitySummary.repos := length repo_counter;
     ActivitySummary.pushes := counter_get "PushEvent"%string type_counter;
     ActivitySummary.pull_requests := counter_get "PullRequestEvent"%string type_counter;
     ActivitySummary.issues := counter_get "IssuesEvent"%string type_counter;
     ActivitySummary.comments :=
       (counter_get "IssueCommentEvent"%string type_counter
        + counter_get "CommitCommentEvent"%string type_counter)%nat;
     ActivitySummary.releases := counter_get "ReleaseEvent"%string type_counter;
     ActivitySummary.stars := counter_get "WatchEvent"%string type_counter;
     ActivitySummary.creates := counter_get "CreateEvent"%string type_counter;
     ActivitySummary.deletes := counter_get "DeleteEvent"%string type_counter |}.

(** [f"{name}:{count}"] *)
Definition name_count (kn : string * nat) : string := (kn.1 +:+ ":" +:+ pretty (kn.2 : nat))%string.

(** [insights] (builder.py, lines 170-175) *)
Definition insights_of (local_tz : tzinfo) (window_events : list event_json)
    : ActivityInsights.t :=
  let repo_counter := counter_of (event_repo_name <$> window_events) in
  let type_counter := counter_of (event_type <$> window_events) in
  let by_day := events_by_local_day local_tz window_events in
  {| ActivityInsights.streak_days := streak_of (active_days by_day);
     ActivityInsights.busiest_local_day := busiest_day by_day;
     ActivityInsights.top_repos := name_count <$> most_common 5 repo_counter;
     ActivityInsights.top_event_types := name_count <$> most_common 5 type_counter |}.

(** [repo_owner, repo_name_short = repo_name_full.split('/')] *)
Definition split_owner_name (repo_name_full : string) : outcome (string * string) :=
  match split "/"%char (list_ascii_of_string repo_name_full) with
  | [owner; short] => Return (string_of_list_ascii owner, string_of_list_ascii short)
  | _ => Raise ValueError
  end.

(** [f"{c['sha'][:7]}: {c['message'].splitlines()[0]}"] *)
Definition commit_line (c : commit_json) : outcome string :=
  match str_splitlines (message c) with
  | first_line :: _ =>
      Return (string_of_list_ascii (take 7 (list_ascii_of_string (sha c)))
              +:+ ": " +:+ first_line)%string
  | [] => Raise IndexError
  end.

(** [d[key]] for a key that may be absent. *)
Definition getitem {A : Type} (o : option A) : outcome A :=
  match o with
  | Some a => Return a
  | None => Raise KeyError
  end.

(** The double-quote character of the pull-request title. *)
Definition dquote : string := String (ascii_of_nat 34) EmptyString.

(** The body of the loop that builds [events_list] (builder.py, lines
    178-212). *)
Definition activity_event (event : event_json) : outcome ActivityEvent.t :=
  let repo_name_full := event_repo_name event in
  split_owner_name repo_name_full ≫= λ '(repo_owner, repo_name_short),
  let title := (event_type event +:+ " on " +:+ repo_name_full)%string in
  let url := ("https://github.com/" +:+ repo_name_full)%string in
  (if decide (event_type event = "PushEvent"%string) then
     let commit_count := default 0 (payload_size (payload event)) in
     let plural := if commit_count =? 1 then ""%string else "s"%string in
     let title := ("Pushed " +:+ pretty (commit_count : Z) +:+ " commit" +:+ plural
                   +:+ " to " +:+ repo_name_full)%string in
     commits ← for_each commit_line (default [] (payload_commits (payload event)));
     let url := match ref (payload event) with
                | Some r => ("https://github.com/" +:+ repo_name_full +:+ "/tree/" +:+ r)%string
                | None => url
                end in
     Return (title, Some commits, url)
   else if decide (event_type event = "PullRequestEvent"%string) then
     act ← getitem (action (payload event));
     pr ← getitem (pull_request (payload event));
     let title := ("PR " +:+ act +:+ ": " +:+ dquote +:+ pr_title pr +:+ dquote +:+ " on "
                   +:+ repo_name_full)%string in
     Return (title, None, pr_html_url pr)
   else Return (title, None, url)) ≫= λ '(title, commits, url),
  Return {| ActivityEvent.type := event_type event;
            ActivityEvent.repo_owner := repo_owner;
            ActivityEvent.repo_name := repo_name_short;
            ActivityEvent.at_utc := created_at event;
            ActivityEvent.url := url;
            ActivityEvent.title := title;
            ActivityEvent.commits := commits;
            ActivityEvent.event_id := event_json_id event |}.

(** [window_events] (builder.py, lines 123-126): the events [e] with
    [created_at e >= window_start_utc]; the comparison raises for an aware
    [created_at e], as [window_start_utc] is naive. *)
Definition window_filter (window_start_utc : datetime) (all_events : list event_json)
    : outcome (list event_json) :=
  filter_raising (fun e => datetime_ge (created_at e) window_start_utc) all_events.

Section BuildActivity.
(** [pytz.timezone]: the zone of a name, if there is one. *)
Variable pytz_timezone : string -> option tzinfo.

(** [build_activity] (builder.py, lines 109-222) *)
Definition build_activity (client : GitHubClient) (username tz_name : string)
    (window_days : Z) (fuel : nat) (now : Z) : outcome Activity.t :=
  let now_utc := utcnow now in
  let window_start_utc := datetime_sub now_utc (timedelta_days window_days) in
  local_tz ← match pytz_timezone tz_name with
             | Some tz => Return tz
             | None => Raise UnknownTimeZoneError
             end;
  all_events ← get_public_events client fuel;
  window_events ← window_filter window_start_utc all_events;
  let summary := summary_of window_events in
  let insights := insights_of local_tz window_events in
  events_list ← for_each activity_event window_events;
  Return {| Activity.schema_version := "1";
            Activity.username := username;
            Activity.generated_utc := now_utc;
            Activity.window_start_utc := window_start_utc;
            Activity.window_days := window_days;
            Activity.summary := summary;
            Activity.insights := insights;
            Activity.event := events_list |}.
End BuildActivity.

(** * writers.py *)

(** What [logger] records. *)
Inductive log_record : Type :=
| LogInfoWroteHtml (html_path : string)
| LogErrorSourceNotFound (toml_path : string)
| LogErrorHtmlFailed (html_path : string) (e : exn).

(** The files under the output directory, by path, and the log. *)
Record world : Type := World {
  files : gmap string string;
  log : list log_record
}.

Definition logged (r : log_record) (w : world) : world :=
  {| files := files w; log := log w ++ [r] |}.

(** [path.read_text(encoding="utf-8")] *)
Definition read_text (w : world) (p : string) : outcome string :=
  match files w !! p with
  | Some content => Return content
  | None => Raise FileNotFoundError
  end.

(** [path.write_text(content, encoding="utf-8")] *)
Definition write_text (w : world) (p content : string) : world :=
  {| files := <[p := content]> (files w); log := log w |}.

(** [path.name]: the text after the last ['/']. *)
Definition path_name (p : string) : string :=
  string_of_list_ascii (List.last (split "/"%char (list_ascii_of_string p)) []).

(** A template: [template.render(title=..., content=...)]. *)
Definition template : Type := string -> string -> outcome string.

Section Writers.
(** [jinja_env.get_template]: the templates of the package's [resources]. *)
Variable get_template : string -> outcome template.

(** The body of the [try] of [write_html_wrapper]. *)
Definition render_wrapper (w : world) (toml_path html_path : string) : world * outcome unit :=
  match get_template "wrapper.html.jinja2" with
  | Return tmpl =>
      match read_text w toml_path with
      | Return toml_content =>
          match tmpl (path_name toml_path) toml_content with
          | Return html_content =>
              (logged (LogInfoWroteHtml html_path) (write_text w html_path html_content),
               Return tt)
          | Raise e => (w, Raise e)
          | OutOfFuel => (w, OutOfFuel)
          end
      | Raise e => (w, Raise e)
      | OutOfFuel => (w, OutOfFuel)
      end
  | Raise e => (w, Raise e)
  | OutOfFuel => (w, OutOfFuel)
  end.

(** [write_html_wrapper] (writers.py, lines 41-62): [html_path] is
    [toml_path] with [.html] appended. *)
Definition write_html_wrapper (w : world) (toml_path : string) : world * outcome unit :=
  let html_path := (toml_path +:+ ".html")%string in
  match render_wrapper w toml_path html_path with
  | (w', Raise FileNotFoundError) =>
      (logged (LogErrorSourceNotFound toml_path) w', Return tt)
  | (w', Raise e) =>
      (logged (LogErrorHtmlFailed html_path e) w', Raise e)
  | r => r
  end.
End Writers.

(** * Auxiliary notions

    Days listed latest first, each strictly before the one it follows. *)
Definition latest_first : list date -> Prop :=
  StronglySorted (fun a b => toordinal b < toordinal a).

(** The number of events of a type in a window. *)
Definition count_type (ty : string) (window_events : list event_json) : nat :=
  length (filter (fun e => event_type e = ty) window_events).

(** The event types that have a field of their own in the summary. *)
Definition summary_types : list string :=
  [ "PushEvent"; "PullRequestEvent"; "IssuesEvent"; "IssueCommentEvent";
    "CommitCommentEvent"; "ReleaseEvent"; "WatchEvent"; "CreateEvent"; "DeleteEvent" ]%string.

(** The fields of the summary that count events of given types. *)
Definition type_fields (s : ActivitySummary.t) : list nat :=
  [ ActivitySummary.pushes s; ActivitySummary.pull_requests s; ActivitySummary.issues s;
    ActivitySummary.comments s; ActivitySummary.releases s; ActivitySummary.stars s;
    ActivitySummary.creates s; ActivitySummary.deletes s ].

(** The number of occurrences of a character in a text. *)
Definition count_char (c : ascii) (s : string) : nat :=
  length (filter (fun x => x = c) (list_ascii_of_string s)).

(** The pages that a paginated fetch retrieves before the request for
    [last_url]: each request succeeds and links to the next. *)
Inductive page_chain {A : Type} (get : string -> outcome (response (list A)))
    : string -> list (list A) -> string -> Prop :=
| page_chain_here (url : string) : page_chain get url [] url
| page_chain_next (url next_url last_url : string) (resp : response (list A))
    (pages : list (list A)) :
    get url = Return resp ->
    is_success (status_code resp) = true ->
    links_next resp = Some next_url ->
    page_chain get next_url pages last_url ->
    page_chain get url (json resp :: pages) last_url.

(** ** TODO lines, in the words of the specification

    A TODO line is normalized by stripping the leading markdown list marker
    with its checkbox, and the surrounding whitespace. *)

(** The number of leading characters of a class. *)
Fixpoint span_len (p : ascii -> bool) (s : chars) : nat :=
  match s with
  | c :: s' => if p c then S (span_len p s') else 0%nat
  | [] => 0%nat
  end.

(** The bullet of a list item. *)
Definition is_bullet (c : ascii) : bool := bool_decide (c = "-"%char \/ c = "*"%char).

(** The mark in a checkbox. *)
Definition is_check (c : ascii) : bool :=
  bool_decide (c = " "%char \/ c = "x"%char \/ c = "X"%char).

(** The length of the checkbox that a text starts with. *)
Definition checkbox_len (s : chars) : nat :=
  match s with
  | a :: b :: c :: _ =>
      if bool_decide (a = "["%char) && is_check b && bool_decide (c = "]"%char)
      then 3%nat else 0%nat
  | _ => 0%nat
  end.

Definition strip_checkbox (s : chars) : chars := drop (checkbox_len s) s.

(** The text of a list item: after the whitespace, the bullet, the whitespace,
    the checkbox if there is one, and the whitespace; a line that is no list
    item is left as it is. *)
Definition strip_list_marker (line : chars) : chars :=
  match lstrip line with
  | c :: item => if is_bullet c then lstrip (strip_checkbox (lstrip item)) else line
  | [] => line
  end.

Definition spec_normalize_todo_line (line : string) : string :=
  string_of_list_ascii (strip (strip_list_marker (list_ascii_of_string line))).

(** The TODO lines of a text: its lines, normalized, without the empty ones. *)
Definition spec_parse_todos (content : string) : list string :=
  filter (fun todo => todo <> ""%string) (spec_normalize_todo_line <$> str_splitlines content).

(** What follows the bullet in [todo_prefix], from its last part on. *)
Definition spaces_then_end : cont nat :=
  fun pos s => rmatch (Star (Cls isspace)) pos s at_end.

Definition checkbox_then_end : cont nat :=
  fun pos s =>
    rmatch (Opt (Cat (Cls (is_char "["%char))
                (Cat (Cls (one_of [" "; "x"; "X"]%char)) (Cls (is_char "]"%char)))))
           pos s spaces_then_end.

Definition item_then_end : cont nat :=
  fun pos s => rmatch (Star (Cls isspace)) pos s checkbox_then_end.

Definition bullet_then_end : cont nat :=
  fun pos s => rmatch (Cls (one_of ["-"; "*"]%char)) pos s item_then_end.

(** The length of what [item_then_end] matches: whitespace, the checkbox if
    there is one, whitespace. *)
Definition item_len (s : chars) : nat :=
  (span_len isspace s + checkbox_len (lstrip s)
   + span_len isspace (strip_checkbox (lstrip s)))%nat.

(** The line feed. *)
Definition LF : string := String (ascii_of_nat 10) EmptyString.

(** * Example data *)

(** [date.fromordinal] *)
Definition date_of_ordinal (n : Z) : date :=
  let z := n + 305 in                       (* days since 0000-03-01 *)
  let era := z / 146097 in
  let doe := z mod 146097 in
  let yoe := (doe - doe / 1460 + doe / 36524 - doe / 146096) / 365 in
  let doy := doe - (365 * yoe + yoe / 4 - yoe / 100) in
  let mp := (5 * doy + 2) / 153 in
  let d := doy - (153 * mp + 2) / 5 + 1 in
  let m := if mp <? 10 then mp + 3 else mp - 9 in
  let y := yoe + era * 400 in
  Date (if m <=? 2 then y + 1 else y) m d.

(** The zone UTC, on a machine whose local time is UTC. *)
Definition tz_utc : tzinfo := fun t =>
  date_of_ordinal ((wall t - default 0 (utcoffset t)) / 86400000000 + 1).

(** [pytz.timezone] for the one name ["UTC"]. *)
Definition pytz_utc_only (tz_name : string) : option tzinfo :=
  if decide (tz_name = "UTC"%string) then Some tz_utc else None.

(** Noon of a day, as the naive datetime that a timestamp without an offset
    parses to. *)
Definition naive_noon (d : date) : datetime :=
  {| wall := ((toordinal d - 1) * 24 + 12) * 3600000000; utcoffset := None |}.

(** Noon of a day in UTC, as the aware datetime that a timestamp ending in
    [Z] parses to. *)
Definition utc_noon (d : date) : datetime :=
  {| wall := ((toordinal d - 1) * 24 + 12) * 3600000000; utcoffset := Some 0 |}.

Definition no_payload : payload_json :=
  {| payload_size := None; payload_commits := None; ref := None; action := None;
     pull_request := None |}.

Definition example_event (id type repo : string) (t : datetime) : event_json :=
  {| event_json_id := id; event_type := type; event_repo_name := repo;
     created_at := t; payload := no_payload |}.

(** Events on 2024-01-05, 2024-01-03, 2024-01-02 and 2024-01-01, latest first
    as the API lists them. *)
Definition streak_events : list event_json :=
  [ example_event "4" "PushEvent" "octo/site" (naive_noon (Date 2024 1 5));
    example_event "3" "PushEvent" "octo/site" (naive_noon (Date 2024 1 3));
    example_event "2" "WatchEvent" "octo/docs" (naive_noon (Date 2024 1 2));
    example_event "1" "PushEvent" "octo/site" (naive_noon (Date 2024 1 1)) ].

(** An example window: three pushes, an issue comment, a commit comment and
    an event of a type the summary has no field for. *)
Definition summary_events : list event_json :=
  [ example_event "16" "PushEvent" "octo/site" (naive_noon (Date 2024 1 5));
    example_event "15" "IssueCommentEvent" "octo/site" (naive_noon (Date 2024 1 5));
    example_event "14" "PushEvent" "octo/docs" (naive_noon (Date 2024 1 4));
    example_event "13" "GollumEvent" "octo/docs" (naive_noon (Date 2024 1 4));
    example_event "12" "CommitCommentEvent" "octo/site" (naive_noon (Date 2024 1 3));
    example_event "11" "PushEvent" "octo/site" (naive_noon (Date 2024 1 2)) ].

(** An endpoint that answers every request with one page and no further link. *)
Definition one_page {A : Type} (items : A) : string -> outcome (response A) :=
  fun _ => Return (Response 200 items None).

(** An endpoint that cannot be reached. *)
Definition unreachable {A : Type} : string -> outcome (response A) :=
  fun _ => Raise TransportError.

(** A client of the user [octo] whose public events are [events]. *)
Definition events_client (events : list event_json) : GitHubClient :=
  {| username := "octo";
     client := Some {| http_get_repos := unreachable;
                       http_get_events := one_page events;
                       http_get_raw := unreachable;
                       http_get_commits := unreachable;
                       http_get_tree := unreachable |} |}.

(** The reading of the clock at noon of 2024-01-06. *)
Definition example_now : Z := wall (naive_noon (Date 2024 1 6)).

(** One event, dated three days after [example_now]. *)
Definition future_events : list event_json :=
  [ example_event "21" "PushEvent" "octo/site" (naive_noon (Date 2024 1 9)) ].

(** One event whose timestamp ends in [Z], as the API writes them. *)
Definition aware_events : list event_json :=
  [ example_event "22" "PushEvent" "octo/site" (utc_noon (Date 2024 1 5)) ].

(** A window with an event whose repository name has no ['/']. *)
Definition slashless_events : list event_json :=
  [ example_event "32" "PushEvent" "octo/site" (naive_noon (Date 2024 1 5));
    example_event "31" "WatchEvent" "solo" (naive_noon (Date 2024 1 4)) ].

(** A window with an event whose repository name has two ['/']. *)
Definition nested_events : list event_json :=
  [ example_event "33" "WatchEvent" "octo/site/wiki" (naive_noon (Date 2024 1 5)) ].

Definition example_repo (name : string) (is_archived : bool) (pushed : Z) : repo_json :=
  {| archived := is_archived; full_name := name; description := None; json_topics := [];
     language := Some "Python"%string; stargazers_count := 0; forks_count := 0;
     open_issues_count := 0; pushed_at := pushed; json_homepage := None;
     json_default_branch := "main" |}.

Definition repos_url : string :=
  "https://api.github.com/users/octo/repos?type=public&per_page=100".

(** A listing of repositories in three pages, the last of which no request
    retrieves: the server answers it with status 502. *)
Definition flaky_repos_endpoint (url : string) : outcome (response (list repo_json)) :=
  if decide (url = repos_url) then
    Return (Response 200 [example_repo "octo/alpha" false 10; example_repo "octo/beta" true 40]
                     (Some "page-2"%string))
  else if decide (url = "page-2"%string) then
    Return (Response 200 [example_repo "octo/gamma" false 30; example_repo "octo/delta" false 20]
                     (Some "page-3"%string))
  else Return (Response 502 [] None).

Definition flaky_client : GitHubClient :=
  {| username := "octo";
     client := Some {| http_get_repos := flaky_repos_endpoint;
                       http_get_events := unreachable;
                       http_get_raw := unreachable;
                       http_get_commits := unreachable;
                       http_get_tree := unreachable |} |}.

(** A client of a user with five repositories, one of them archived; only
    [octo/gamma] has a README, no repository has a changelog. *)
Definition inventory_client : GitHubClient :=
  {| username := "octo";
     client := Some
       {| http_get_repos := one_page
            [ example_repo "octo/alpha" false 10; example_repo "octo/beta" true 60;
              example_repo "octo/gamma" false 50; example_repo "octo/delta" false 20;
              example_repo "octo/epsilon" false 40 ];
          http_get_events := one_page [];
          http_get_raw := fun url =>
            if decide (url = "https://api.github.com/repos/octo/gamma/contents/README.md"%string)
            then Return (Response 200 "# gamma"%string None)
            else Return (Response 404 ""%string None);
          http_get_commits := one_page ["0a1b2c3d4e5f"%string];
          http_get_tree := one_page
            {| truncated := false;
               tree := Some [ {| path := "README.md"; entry_type := Some "blob"%string |};
                              {| path := "src"; entry_type := Some "tree"%string |};
                              {| path := "src/main.py"; entry_type := Some "blob"%string |} ] |}
       |} |}.

(** A stand-in for the wrapper template: the title and the content between
    fixed markup. *)
Definition wrapper_template : template := fun title content =>
  Return ("<html><head><title>" +:+ title +:+ "</title></head><body><pre>"
          +:+ content +:+ "</pre></body></html>")%string.


(** The package's templates: the wrapper only. *)
Definition package_templates (name : string) : outcome template :=
  if decide (name = "wrapper.html.jinja2"%string) then Return wrapper_template
  else Raise TemplateError.



(** An output directory with [inventory.toml]. *)
Definition inventory_world : world :=
  {| files := {[ "docs/inventory.toml"%string := "schema_version = 1"%string ]}; log := [] |}.

(** * Further definitions *)

(** [GitHubClient.close] (github_client.py, lines 159-164): afterwards the
    client has no HTTP client. *)
Definition close (self : GitHubClient) : GitHubClient :=
  {| username := username self; client := None |}.

(** A listing of repositories in two pages, the second without a further
    link. *)
Definition two_page_repos_endpoint (url : string) : outcome (response (list repo_json)) :=
  if decide (url = repos_url) then
    Return (Response 200 [example_repo "octo/alpha" false 30; example_repo "octo/beta" false 30]
                     (Some "page-2"%string))
  else Return (Response 200 [example_repo "octo/gamma" false 50; example_repo "octo/delta" false 30]
                        None).

Definition two_page_client : GitHubClient :=
  {| username := "octo";
     client := Some {| http_get_repos := two_page_repos_endpoint;
                       http_get_events := unreachable;
                       http_get_raw := unreachable;
                       http_get_commits := unreachable;
                       http_get_tree := unreachable |} |}.

(** A listing whose second page cannot be requested. *)
Definition broken_link_endpoint (url : string) : outcome (response (list repo_json)) :=
  if decide (url = repos_url) then
    Return (Response 200 [example_repo "octo/alpha" false 30] (Some "page-2"%string))
  else Raise TransportError.

Definition broken_link_client : GitHubClient :=
  {| username := "octo";
     client := Some {| http_get_repos := broken_link_endpoint;
                       http_get_events := unreachable;
                       http_get_raw := unreachable;
                       http_get_commits := unreachable;
                       http_get_tree := unreachable |} |}.

(** The title, the commit lines and the URL that the loop of [events_list]
    computes for an event (builder.py, lines 183-201); [activity_event] is
    this between the split of the name and the construction of the record. *)
Definition event_display (event : event_json)
    : outcome (string * option (list string) * string) :=
  let repo_name_full := event_repo_name event in
  let title := (event_type event +:+ " on " +:+ repo_name_full)%string in
  let url := ("https://github.com/" +:+ repo_name_full)%string in
  if decide (event_type event = "PushEvent"%string) then
    let commit_count := default 0 (payload_size (payload event)) in
    let plural := if commit_count =? 1 then ""%string else "s"%string in
    let title := ("Pushed " +:+ pretty (commit_count : Z) +:+ " commit" +:+ plural
                  +:+ " to " +:+ repo_name_full)%string in
    commits ← for_each commit_line (default [] (payload_commits (payload event)));
    let url := match ref (payload event) with
               | Some r => ("https://github.com/" +:+ repo_name_full +:+ "/tree/" +:+ r)%string
               | None => url
               end in
    Return (title, Some commits, url)
  else if decide (event_type event = "PullRequestEvent"%string) then
    act ← getitem (action (payload event));
    pr ← getitem (pull_request (payload event));
    let title := ("PR " +:+ act +:+ ": " +:+ dquote +:+ pr_title pr +:+ dquote +:+ " on "
                  +:+ repo_name_full)%string in
    Return (title, None, pr_html_url pr)
  else Return (title, None, url).

(** The events that the loop of [events_list] can display: the name has one
    ['/'], every commit of a push has a message, and a pull-request event
    has its action and its pull request. *)
Definition displayable (e : event_json) : Prop :=
  count_char "/" (event_repo_name e) = 1%nat
  /\ (event_type e = "PushEvent"%string ->
      Forall (fun c => message c <> ""%string) (default [] (payload_commits (payload e))))
  /\ (event_type e = "PullRequestEvent"%string ->
      is_Some (action (payload e)) /\ is_Some (pull_request (payload e))).

(** A push of three commits of which the payload lists two. *)
Definition push_event : event_json :=
  {| event_json_id := "41"; event_type := "PushEvent"; event_repo_name := "octo/site";
     created_at := naive_noon (Date 2024 1 5);
     payload := {| payload_size := Some 3;
                   payload_commits :=
                     Some [ {| sha := "0123456789abcdef";
                               message := "Fix the build" +:+ LF +:+ LF +:+ "Details." |};
                            {| sha := "fedcba9";
                               message := "Add docs" |} ];
                   ref := Some "refs/heads/main"%string;
                   action := None; pull_request := None |} |}.

(** A pull request that was opened. *)
Definition pull_request_event : event_json :=
  {| event_json_id := "42"; event_type := "PullRequestEvent"; event_repo_name := "octo/site";
     created_at := naive_noon (Date 2024 1 4);
     payload := {| payload_size := None; payload_commits := None; ref := None;
                   action := Some "opened"%string;
                   pull_request := Some {| pr_title := "Add search";
                                           pr_html_url := "https://github.com/octo/site/pull/7" |}
                |} |}.

(** A pull-request event without its pull request. *)
Definition bare_pull_request_event : event_json :=
  example_event "43" "PullRequestEvent" "octo/site" (naive_noon (Date 2024 1 4)).

(** A window of a push, a pull request and a star. *)
Definition display_events : list event_json :=
  [ push_event; pull_request_event;
    example_event "40" "WatchEvent" "octo/docs" (naive_noon (Date 2024 1 3)) ].

(** A character that ends no line. *)
Definition inline (c : ascii) : Prop := islinebreak c = false.

(** [c['sha'][:7]] *)
Definition short_sha (c : commit_json) : string :=
  string_of_list_ascii (take 7 (list_ascii_of_string (sha c))).

(** * Frequencies *)

(** The number of times that [k] occurs in [l]. *)
Definition occurrences {K : Type} `{EqDecision K} (k : K) (l : list K) : nat :=
  length (filter (fun x => x = k) l).

(** The distinct elements of [l], in the order in which they first occur. *)
Definition first_seen {K : Type} `{EqDecision K} (l : list K) : list K :=
  reverse (remove_dups (reverse l)).

(** [top] ranks the [n] most frequent elements of [l]: distinct elements with
    their numbers of occurrences, the most frequent first, as many as [n]
    allows, none less frequent than an element left out, and elements that
    occur equally often in the order in which they first occur. *)
Definition ranks_top {K : Type} `{EqDecision K} (n : nat) (l : list K) (top : list (K * nat))
    : Prop :=
  NoDup top.*1
  /\ length top = (n `min` length (first_seen l))%nat
  /\ (forall k m, (k, m) ∈ top -> m = occurrences k l /\ (0 < m)%nat)
  /\ StronglySorted (fun a b => (b.2 <= a.2)%nat) top
  /\ (forall k a, k ∈ l -> k ∉ top.*1 -> a ∈ top -> (occurrences k l <= a.2)%nat)
  /\ (forall m, (filter (fun a => a.2 = m) top).*1
                `prefix_of` filter (fun k => occurrences k l = m) (first_seen l)).

(** * [build_todos] *)

Module RepoTodosItem.
Record t : Type := Make {
  full : string;
  todos : option (list string);
  synopsis : option (list string)
}.
End RepoTodosItem.

Module Todos.
Record t : Type := Make {
  schema_version : string;
  username : string;
  generated_utc : datetime;
  repo : list RepoTodosItem.t
}.
End Todos.

(** The truth value of an optional text: [None] and the empty text are false. *)
Definition truthy (content : option string) : bool :=
  match content with
  | Some (String _ _) => true
  | _ => false
  end.

(** [todo_filenames] (builder.py, line 73) *)
Definition todo_filenames : list string :=
  [ "docs/TODO.md"; "TODO.md"; "todo.md"; "docs/ROADMAP.md" ]%string.

(** The loop [for filename in todo_filenames] (builder.py, lines 79-85):
    [todo_content] when the loop ends. *)
Fixpoint find_todo_content (client : GitHubClient) (repo_full : string)
    (filenames : list string) : outcome (option string) :=
  match filenames with
  | [] => Return None
  | filename :: filenames' =>
      content ← get_file_content client repo_full filename;
      if truthy content then Return content
      else find_todo_content client repo_full filenames'
  end.

(** [str.strip] on a [string] *)
Definition str_strip (s : string) : string :=
  string_of_list_ascii (strip (list_ascii_of_string s)).

(** [synopsis_lines] (builder.py, lines 94-97) *)
Definition synopsis_lines (readme_content : string) : list string :=
  take 5 (str_strip
          <$> filter (fun line => str_strip line <> ""%string
                                  /\ String.prefix "#" (str_strip line) = false)
                     (str_splitlines (str_strip readme_content))).

(** The body of the loop [for repo in inventory.repo] (builder.py, lines
    75-100). *)
Definition repo_todos (client : GitHubClient) (repo : RepoInventoryItem.t)
    : outcome RepoTodosItem.t :=
  let full := RepoInventoryItem.full repo in
  todo_content ← find_todo_content client full todo_filenames;
  let todos := if truthy todo_content then _parse_todos_from_content <$> todo_content
               else None in
  readme_content ← (if truthy (RepoInventoryItem.readme repo)
                    then Return (RepoInventoryItem.readme repo)
                    else get_file_content client full "README.md");
  let synopsis := if truthy readme_content then synopsis_lines <$> readme_content else None in
  Return {| RepoTodosItem.full := full;
            RepoTodosItem.todos := todos;
            RepoTodosItem.synopsis := synopsis |}.

(** [build_todos] (builder.py, lines 66-106); [now] is the reading of the
    clock. *)
Definition build_todos (client : GitHubClient) (inventory : Inventory.t) (now : Z)
    : outcome Todos.t :=
  repo_todos_list ← for_each (repo_todos client) (Inventory.repo inventory);
  Return {| Todos.schema_version := "1";
            Todos.username := Inventory.username inventory;
            Todos.generated_utc := utcnow now;
            Todos.repo := repo_todos_list |}.

(** The URL that [get_file_content] requests. *)
Definition file_url (repo_full file_path : string) : string :=
  (API_URL +:+ "/repos/" +:+ repo_full +:+ "/contents/" +:+ file_path)%string.

(** A line of a synopsis: not empty, not a heading, without white space at
    its ends and without a line boundary. *)
Definition synopsis_line (line : string) : Prop :=
  line <> ""%string
  /\ String.prefix "#" line = false
  /\ (forall c rest, list_ascii_of_string line = c :: rest -> isspace c = false)
  /\ (forall c, last (list_ascii_of_string line) = Some c -> isspace c = false)
  /\ Forall inline (list_ascii_of_string line).

(** A client of a user with two repositories: [octo/site] has a [TODO.md], an
    empty [docs/TODO.md] and a README, [octo/docs] has none of them. *)
Definition todos_client : GitHubClient :=
  {| username := "octo";
     client := Some
       {| http_get_repos := one_page [];
          http_get_events := one_page [];
          http_get_raw := fun url =>
            if decide (url = file_url "octo/site" "docs/TODO.md") then
              Return (Response 200 ""%string None)
            else if decide (url = file_url "octo/site" "TODO.md") then
              Return (Response 200 ("- [ ] Fix bug" +:+ LF +:+ "* [x]   Done thing  " +:+ LF)%string
                               None)
            else if decide (url = file_url "octo/site" "docs/ROADMAP.md") then
              Raise TransportError
            else if decide (url = file_url "octo/site" "README.md") then
              Return (Response 200 ("# site" +:+ LF +:+ LF +:+ "  The site of octo.  " +:+ LF
                                    +:+ "## Use" +:+ LF +:+ "Run it." +:+ LF)%string None)
            else Return (Response 404 "Not Found"%string None);
          http_get_commits := one_page [];
          http_get_tree := one_page {| truncated := false; tree := None |} |} |}.

Definition todos_inventory : Inventory.t :=
  {| Inventory.schema_version := "1";
     Inventory.username := "octo";
     Inventory.generated_utc := utcnow 0;
     Inventory.repo := [ repo_of_json (example_repo "octo/site" false 20);
                         repo_of_json (example_repo "octo/docs" false 10) ] |}.

(** * Hot repositories *)

(** One of the first [HOT_REPO_COUNT] entries of the listing bears the name. *)
Definition named_first (repos : list RepoInventoryItem.t) (name : string) : Prop :=
  exists (j : nat) (other : RepoInventoryItem.t),
    (j < HOT_REPO_COUNT)%nat /\ repos !! j = Some other /\ RepoInventoryItem.full other = name.

(** A client whose listing has five entries, the last of which repeats the
    name of the first; the repository of that name has a README. *)
Definition repeated_name_client : GitHubClient :=
  {| username := "octo";
     client := Some
       {| http_get_repos := one_page
            [ example_repo "octo/alpha" false 50; example_repo "octo/beta" false 40;
              example_repo "octo/gamma" false 30; example_repo "octo/delta" false 20;
              example_repo "octo/alpha" false 10 ];
          http_get_events := one_page [];
          http_get_raw := fun url =>
            if decide (url = "https://api.github.com/repos/octo/alpha/contents/README.md"%string)
            then Return (Response 200 "# alpha"%string None)
            else Return (Response 404 ""%string None);
          http_get_commits := one_page [];
          http_get_tree := one_page {| truncated := false; tree := None |} |} |}.

(** * The file system, [write_toml] and cli.py *)

Module Fs.

(** A path as [pathlib] holds it: the root, when the path is absolute, and
    the components. *)
Record Path : Type := MkPath { anchor : string; parts : list string }.

Global Instance Path_eq_dec : EqDecision Path.
Proof. solve_decision. Defined.

(** [p.name]: the last component, empty when there is none. *)
Definition name (p : Path) : string := default ""%string (last (parts p)).

(** [p.parent] *)
Definition parent (p : Path) : Path := MkPath (anchor p) (removelast (parts p)).

(** [p / file], for the name of a file. *)
Definition joinpath (p : Path) (file : string) : Path := MkPath (anchor p) (parts p ++ [file]).

(** [p.with_suffix(p.suffix + ".html")]: the name with [.html] appended;
    [None] stands for the [ValueError] of a path with an empty name. *)
Definition with_html_suffix (p : Path) : option Path :=
  match parts p with
  | [] => None
  | _ :: _ => Some (MkPath (anchor p) (removelast (parts p) ++ [(name p +:+ ".html")%string]))
  end.

(** [str(p)] *)
Definition str (p : Path) : string :=
  match parts p with
  | [] => if decide (anchor p = ""%string) then "."%string else anchor p
  | part :: rest => (anchor p +:+ foldl (fun s q => s +:+ "/" +:+ q) part rest)%string
  end.

(** The operating system, on disks of type [D].  [mkdir] and [write_text]
    give the disk as they leave it and the exception they raise, if any;
    [read_text] gives the text or the exception. *)
Record os (D : Type) : Type := Os {
  mkdir : D -> Path -> bool -> D * option exn;   (* [p.mkdir(parents=b, exist_ok=True)] *)
  write_text : D -> Path -> string -> D * option exn;
  read_text : D -> Path -> exn + string
}.

Arguments Os {D} mkdir write_text read_text.
Arguments mkdir {D} o d p parents.
Arguments write_text {D} o d p content.
Arguments read_text {D} o d p.

(** The disk and the log of [write_html_wrapper]. *)
Record state (D : Type) : Type := State { disk : D; log : list log_record }.

Arguments State {D} disk log.
Arguments disk {D} s.
Arguments log {D} s.

Definition logged {D : Type} (r : log_record) (s : state D) : state D :=
  State (disk s) (log s ++ [r]).

(** An action: from the state before it, the state after it and its result
    or the exception that leaves it. *)
Record io (D A : Type) : Type := IO { run : state D -> state D * outcome A }.

Arguments IO {D A} run.
Arguments run {D A} i s.

Global Instance io_ret {D : Type} : MRet (io D) := fun A a => IO (fun s => (s, Return a)).

Global Instance io_bind {D : Type} : MBind (io D) := fun A B f m =>
  IO (fun s =>
        match run m s with
        | (s', Return a) => run (f a) s'
        | (s', Raise e) => (s', Raise e)
        | (s', OutOfFuel) => (s', OutOfFuel)
        end).

(** An action that leaves the state as it is. *)
Definition lift {D A : Type} (m : outcome A) : io D A := IO (fun s => (s, m)).

(** [for x in l: f x]; the first raise ends the loop. *)
Fixpoint io_for_each {D A : Type} (f : A -> io D unit) (l : list A) : io D unit :=
  match l with
  | [] => mret tt
  | x :: l' => _ ← f x; io_for_each f l'
  end.

(** The arguments of the command line, as [argparse] gives them. *)
Module Namespace.
Record t : Type := Make {
  force : bool;
  username : option string;
  token : option string;
  output_dir : Path
}.
End Namespace.

(** The variables of [os.environ] that [main] reads. *)
Module Environ.
Record t : Type := Make {
  GITHUB_USERNAME : option string;
  GITHUB_TOKEN : option string;
  TZ_NAME : option string
}.
End Environ.

(** The readings of the clock in a run: by the time guard and by the four
    builds. *)
Module Clock.
Record t : Type := Make {
  at_guard : Z;
  at_inventory : Z;
  at_todos : Z;
  at_activity : Z -> Z
}.
End Clock.

(** [a or b] on optional texts *)
Definition or_else (a b : option string) : option string := if truthy a then a else b.

Section Run.
Context {D : Type}.
(** The operating system. *)
Variable os : os D.
(** [pytz.timezone] *)
Variable pytz_timezone : string -> option tzinfo.
(** [datetime.now(local_tz).hour] at a reading of the clock *)
Variable hour : tzinfo -> Z -> Z.
(** [jinja_env.get_template] *)
Variable get_template : string -> outcome template.
(** [CacheClient(headers=...)] for a token: the HTTP client of a run. *)
Variable connect : string -> CacheClient.
(** The serializers of the three models:
    [tomlkit.dumps(data.model_dump(mode='json', exclude_none=True))], which
    gives the text or raises. *)
Variable dumps_inventory : Inventory.t -> exn + string.
Variable dumps_todos : Todos.t -> exn + string.
Variable dumps_activity : Activity.t -> exn + string.
(** The bound on the number of pages of a fetch. *)
Variable fuel : nat.

(** [write_toml] (writers.py, lines 21-38): whatever is raised in the [try]
    is reported to the logger, and the function returns. *)
Definition write_toml {A : Type} (dumps : A -> exn + string) (path : Path) (data : A)
    : io D unit :=
  IO (fun s =>
        match mkdir os (disk s) (parent path) true with
        | (d1, Some _) => (State d1 (log s), Return tt)
        | (d1, None) =>
            match dumps data with
            | inl _ => (State d1 (log s), Return tt)
            | inr toml_content =>
                match write_text os d1 path toml_content with
                | (d2, Some _) => (State d2 (log s), Return tt)
                | (d2, None) => (State d2 (log s), Return tt)
                end
            end
        end).

(** The body of the [try] of [write_html_wrapper]. *)
Definition render_wrapper (s : state D) (toml_path html_path : Path)
    : state D * outcome unit :=
  match get_template "wrapper.html.jinja2" with
  | Return tmpl =>
      match read_text os (disk s) toml_path with
      | inr toml_content =>
          match tmpl (name toml_path) toml_content with
          | Return html_content =>
              match write_text os (disk s) html_path html_content with
              | (d', None) =>
                  (logged (LogInfoWroteHtml (str html_path)) (State d' (log s)), Return tt)
              | (d', Some e) => (State d' (log s), Raise e)
              end
          | Raise e => (s, Raise e)
          | OutOfFuel => (s, OutOfFuel)
          end
      | inl e => (s, Raise e)
      end
  | Raise e => (s, Raise e)
  | OutOfFuel => (s, OutOfFuel)
  end.

(** [write_html_wrapper] (writers.py, lines 41-62): [with_suffix] raises
    before the [try]; in the [try], a [FileNotFoundError] is reported as a
    missing source and any other exception is reported and raised again. *)
Definition write_html_wrapper (toml_path : Path) : io D unit :=
  IO (fun s =>
        match with_html_suffix toml_path with
        | None => (s, Raise ValueError)
        | Some html_path =>
            match render_wrapper s toml_path html_path with
            | (s', Raise FileNotFoundError) =>
                (logged (LogErrorSourceNotFound (str toml_path)) s', Return tt)
            | (s', Raise e) =>
                (logged (LogErrorHtmlFailed (str html_path) e) s', Raise e)
            | r => r
            end
        end).

(** [writers.write_toml(path, data); writers.write_html_wrapper(path)] *)
Definition write_feed {A : Type} (dumps : A -> exn + string) (path : Path) (data : A)
    : io D unit :=
  _ ← write_toml dumps path data;
  write_html_wrapper path.

(** The body of the loop [for days in [7, 30]] of [main]. *)
Definition activity_feed (client : GitHubClient) (username tz_name : string)
    (output_dir : Path) (clock : Clock.t) (days : Z) : io D unit :=
  activity ← lift (build_activity pytz_timezone client username tz_name days fuel
                                  (Clock.at_activity clock days));
  let activity_path := joinpath output_dir ("latest-" +:+ pretty days +:+ "d.toml") in
  write_feed dumps_activity activity_path activity.

(** The body of the [try] of [main] (cli.py, lines 85-109). *)
Definition generate_feeds (username token tz_name : string) (output_dir : Path)
    (clock : Clock.t) : io D unit :=
  let client := Build_GitHubClient username (Some (connect token)) in
  inventory ← lift (build_inventory client username fuel (Clock.at_inventory clock));
  let inventory_path := joinpath output_dir "inventory.toml" in
  _ ← write_feed dumps_inventory inventory_path inventory;
  todos ← lift (build_todos client inventory (Clock.at_todos clock));
  let todos_path := joinpath output_dir "todos.toml" in
  _ ← write_feed dumps_todos todos_path todos;
  io_for_each (activity_feed client username tz_name output_dir clock) [7; 30].

(** [main] (cli.py, lines 27-112): the exit code, or the exception that
    leaves [main].  [output_dir.mkdir(exist_ok=True)] is not in a [try]. *)
Definition main (args : Namespace.t) (environ : Environ.t) (clock : Clock.t) : io D Z :=
  let username := or_else (Namespace.username args) (Environ.GITHUB_USERNAME environ) in
  let token := or_else (Namespace.token args) (Environ.GITHUB_TOKEN environ) in
  let tz_name := default "America/New_York"%string (Environ.TZ_NAME environ) in
  IO (fun s =>
    if negb (truthy username) || negb (truthy token) then (s, Return 1)
    else
      match pytz_timezone tz_name with
      | None => (s, Return 1)
      | Some local_tz =>
          if negb (hour local_tz (Clock.at_guard clock) =? 17) && negb (Namespace.force args)
          then (s, Return 0)
          else
            match mkdir os (disk s) (Namespace.output_dir args) false with
            | (d, Some e) => (State d (log s), Raise e)
            | (d, None) =>
                match run (generate_feeds (default ""%string username) (default ""%string token)
                                          tz_name (Namespace.output_dir args) clock)
                          (State d (log s)) with
                | (s', Return _) => (s', Return 0)
                | (s', Raise _) => (s', Return 1)
                | (s', OutOfFuel) => (s', OutOfFuel)
                end
            end
      end).
End Run.

(** The failures of reading and writing are missing files and directories
    only. *)
Definition only_missing {D : Type} (o : os D) : Prop :=
  (forall d p e, read_text o d p = inl e -> e = FileNotFoundError)
  /\ (forall d p content e, (write_text o d p content).2 = Some e -> e = FileNotFoundError).

(** An obliging file system: every directory can be made and every file
    written, a file reads as it was written last, and a file that cannot be
    read is missing. *)
Definition obliging {D : Type} (o : os D) : Prop :=
  (forall d p parents,
      (mkdir o d p parents).2 = None
      /\ forall q, read_text o (mkdir o d p parents).1 q = read_text o d q)
  /\ (forall d p content,
        (write_text o d p content).2 = None
        /\ read_text o (write_text o d p content).1 p = inr content
        /\ forall q, q <> p -> read_text o (write_text o d p content).1 q = read_text o d q)
  /\ (forall d p e, read_text o d p = inl e -> e = FileNotFoundError).

(** A file system without directories: the files by their paths. *)
Definition plain_os : os (Path -> option string) :=
  Os (fun d _ _ => (d, None))
     (fun d p content => (fun q => if decide (q = p) then Some content else d q, None))
     (fun d p => match d p with
                 | Some content => inr content
                 | None => inl FileNotFoundError
                 end).

(** A file system with directories: a directory is made in a directory
    that exists, or with its parents, and a file is written in a directory
    that exists. *)
Record tree : Type := Tree { dirs : list Path; texts : Path -> option string }.

Definition ancestors (p : Path) : list Path :=
  (fun k => MkPath (anchor p) (take k (parts p))) <$> seq 0 (S (length (parts p))).

Definition strict_os : os tree :=
  Os (fun d p parents =>
        if decide (p ∈ dirs d) then (d, None)
        else if parents then (Tree (ancestors p ++ dirs d) (texts d), None)
        else if decide (parent p ∈ dirs d) then (Tree (p :: dirs d) (texts d), None)
        else (d, Some FileNotFoundError))
     (fun d p content =>
        if decide (parent p ∈ dirs d)
        then (Tree (dirs d) (fun q => if decide (q = p) then Some content else texts d q), None)
        else (d, Some FileNotFoundError))
     (fun d p => match texts d p with
                 | Some content => inr content
                 | None => inl FileNotFoundError
                 end).

(** The working directory, empty. *)
Definition empty_tree : tree := Tree [MkPath "" []] (fun _ => None).
End Fs.

(** The builds of a run, one after the other. *)
Definition run_builds (pytz_timezone : string -> option tzinfo) (client : GitHubClient)
    (username tz_name : string) (fuel : nat) (clock : Fs.Clock.t) : outcome unit :=
  inventory ← build_inventory client username fuel (Fs.Clock.at_inventory clock);
  _ ← build_todos client inventory (Fs.Clock.at_todos clock);
  _ ← build_activity pytz_timezone client username tz_name 7 fuel (Fs.Clock.at_activity clock 7);
  _ ← build_activity pytz_timezone client username tz_name 30 fuel
                     (Fs.Clock.at_activity clock 30);
  Return tt.

(** A template that renders every title and content. *)
Definition renders (get_template : string -> outcome template) (tmpl : template) : Prop :=
  get_template "wrapper.html.jinja2"%string = Return tmpl
  /\ forall title content, exists html, tmpl title content = Return html.

(** The directory [docs] and the directory [out/feeds]. *)
Definition docs : Fs.Path := Fs.MkPath "" ["docs"%string].
Definition out_feeds : Fs.Path := Fs.MkPath "" ["out"; "feeds"]%string.

(** A run with the flag [--force] and the credentials in the environment. *)
Definition forced_args (output_dir : Fs.Path) : Fs.Namespace.t :=
  {| Fs.Namespace.force := true; Fs.Namespace.username := None; Fs.Namespace.token := None;
     Fs.Namespace.output_dir := output_dir |}.

Definition example_environ : Fs.Environ.t :=
  {| Fs.Environ.GITHUB_USERNAME := Some "octo"%string;
     Fs.Environ.GITHUB_TOKEN := Some "secret"%string;
     Fs.Environ.TZ_NAME := Some "UTC"%string |}.

Definition example_clock : Fs.Clock.t :=
  {| Fs.Clock.at_guard := example_now; Fs.Clock.at_inventory := example_now;
     Fs.Clock.at_todos := example_now; Fs.Clock.at_activity := fun _ => example_now |}.

(** The hour of a reading of the clock in UTC. *)
Definition hour_utc (tz : tzinfo) (now : Z) : Z := (now / 3600000000) `mod` 24.

(** The HTTP client of a user with one repository and one event, whose
    timestamp ends in [Z]. *)
Definition aware_cache : CacheClient :=
  {| http_get_repos := one_page [ example_repo "octo/site" false 20 ];
     http_get_events := one_page aware_events;
     http_get_raw := fun _ => Return (Response 404 "Not Found"%string None);
     http_get_commits := one_page [];
     http_get_tree := one_page {| truncated := false; tree := None |} |}.

(** The same user without events. *)
Definition quiet_cache : CacheClient :=
  {| http_get_repos := one_page [ example_repo "octo/site" false 20 ];
     http_get_events := one_page [];
     http_get_raw := fun _ => Return (Response 404 "Not Found"%string None);
     http_get_commits := one_page [];
     http_get_tree := one_page {| truncated := false; tree := None |} |}.

(** Stand-ins for the serializers. *)
Definition dumps_stub {A : Type} (text : string) : A -> exn + string := fun _ => inr text.
Definition dumps_failing {A : Type} : A -> exn + string := fun _ => inl TypeError.

(** * Properties of [sorted] *)

Section SortingFacts.
Context {A : Type} (le : A -> A -> bool).

Let R : relation A := fun x y => le x y = true.

Hypothesis le_total : forall x y, le x y = false -> le y x = true.
Hypothesis le_trans : forall x y z, le x y = true -> le y z = true -> le x z = true.

Lemma insert_sorted_perm (x : A) (l : list A) : insert_sorted le x l ≡ₚ x :: l.
Proof.
  induction l as [|y l IH]; simpl; [done|].
  destruct (le x y); [done|].
  rewrite IH. apply Permutation_swap.
Qed.

Lemma sorted_perm (l : list A) : sorted le l ≡ₚ l.
Proof.
  induction l as [|x l IH]; simpl; [done|].
  rewrite insert_sorted_perm. by f_equiv.
Qed.

Lemma insert_sorted_HdRel (a x : A) (l : list A) :
  R a x -> HdRel R a l -> HdRel R a (insert_sorted le x l).
Proof.
  intros Hax Hal. destruct l as [|y l]; simpl; [by constructor|].
  destruct (le x y); constructor; [done|]. by inversion Hal.
Qed.

Lemma insert_sorted_Sorted (x : A) (l : list A) :
  Sorted R l -> Sorted R (insert_sorted le x l).
Proof.
  induction 1 as [|y l Hl IH Hy]; simpl; [by repeat constructor|].
  destruct (le x y) eqn:Hxy.
  - constructor; [by constructor|]. by constructor.
  - constructor; [done|]. apply insert_sorted_HdRel; [|done]. by apply le_total.
Qed.

Lemma sorted_Sorted (l : list A) : Sorted R (sorted le l).
Proof.
  induction l as [|x l IH]; simpl; [constructor|]. by apply insert_sorted_Sorted.
Qed.

Lemma sorted_StronglySorted (l : list A) : StronglySorted R (sorted le l).
Proof.
  apply Sorted_StronglySorted; [|apply sorted_Sorted].
  intros x y z. apply le_trans.
Qed.
End SortingFacts.

Lemma sorted_reverse_by_perm {A : Type} (key : A -> Z) (l : list A) :
  sorted_reverse_by key l ≡ₚ l.
Proof. apply sorted_perm. Qed.

Lemma StronglySorted_weaken {A : Type} (R1 R2 : relation A) (l : list A) :
  (forall x y, R1 x y -> R2 x y) -> StronglySorted R1 l -> StronglySorted R2 l.
Proof.
  intros HR. induction 1 as [|x l Hl IH Hx]; constructor; [done|].
  eapply Forall_impl; [exact Hx|]. intros y. apply HR.
Qed.

Lemma StronglySorted_lookup {A : Type} (R : relation A) (l : list A) (i j : nat) (x y : A) :
  StronglySorted R l -> (i < j)%nat -> l !! i = Some x -> l !! j = Some y -> R x y.
Proof.
  intros Hs. revert i j. induction Hs as [|z l Hl IH Hz]; intros i j Hij Hi Hj; [done|].
  destruct j as [|j]; [lia|]. destruct i as [|i]; simpl in *.
  - injection Hi as ->. rewrite Forall_forall in Hz. apply Hz.
    by eapply list_elem_of_lookup_2.
  - apply (IH i j); [lia|done|done].
Qed.

Lemma sorted_reverse_by_sorted {A : Type} (key : A -> Z) (l : list A) :
  StronglySorted (fun x y => key y <= key x) (sorted_reverse_by key l).
Proof.
  eapply StronglySorted_weaken; last first.
  - apply (sorted_StronglySorted (fun x y => key y <=? key x)); intros; lia.
  - intros x y Hxy; simpl in Hxy. lia.
Qed.

(** * Properties of [Counter] *)

Section CounterFacts.
Context {K : Type} `{EqDecision K}.
Implicit Types (k : K) (c : Counter K) (l : list K).

Lemma counter_incr_keys k k' c :
  k' ∈ counter_keys (counter_incr k c) <-> k' = k \/ k' ∈ counter_keys c.
Proof.
  unfold counter_keys. induction c as [|[k0 n] c IH]; simpl.
  - rewrite list_elem_of_singleton, elem_of_nil. tauto.
  - destruct (decide (k = k0)) as [->|Hne]; simpl.
    + rewrite !elem_of_cons. tauto.
    + rewrite !elem_of_cons, IH. tauto.
Qed.

Lemma counter_incr_NoDup k c :
  NoDup (counter_keys c) -> NoDup (counter_keys (counter_incr k c)).
Proof.
  unfold counter_keys. induction c as [|[k0 n] c IH]; simpl; intros Hnd.
  - apply NoDup_singleton.
  - apply NoDup_cons in Hnd as [Hk0 Hnd].
    destruct (decide (k = k0)) as [->|Hne]; simpl.
    + by apply NoDup_cons.
    + apply NoDup_cons. split; [|by apply IH].
      intros Hin. apply counter_incr_keys in Hin as [?|?]; [congruence|done].
Qed.

Lemma counter_get_incr k k' c :
  counter_get k' (counter_incr k c)
  = if decide (k' = k) then S (counter_get k' c) else counter_get k' c.
Proof.
  induction c as [|[k0 n] c IH]; simpl.
  - destruct (decide (k' = k)); done.
  - destruct (decide (k = k0)) as [->|Hne]; simpl.
    + destruct (decide (k' = k0)); done.
    + destruct (decide (k' = k0)) as [->|Hne'].
      * destruct (decide (k0 = k)); [congruence|done].
      * apply IH.
Qed.

Lemma counter_incr_nonempty k c : counter_incr k c <> [].
Proof. destruct c as [|[k0 n] c]; simpl; [done|]. by destruct (decide (k = k0)). Qed.

(** The counter after counting the elements of [l] on top of [c]. *)
Lemma foldl_incr_keys l c k :
  k ∈ counter_keys (foldl (fun c k => counter_incr k c) c l)
  <-> k ∈ l \/ k ∈ counter_keys c.
Proof.
  revert c. induction l as [|x l IH]; intros c; simpl.
  - rewrite elem_of_nil. tauto.
  - rewrite IH, counter_incr_keys, elem_of_cons. tauto.
Qed.

Lemma foldl_incr_NoDup l c :
  NoDup (counter_keys c) -> NoDup (counter_keys (foldl (fun c k => counter_incr k c) c l)).
Proof.
  revert c. induction l as [|x l IH]; intros c Hc; simpl; [done|].
  by apply IH, counter_incr_NoDup.
Qed.

Lemma foldl_incr_get l c k :
  counter_get k (foldl (fun c k => counter_incr k c) c l)
  = (counter_get k c + length (filter (fun x => x = k) l))%nat.
Proof.
  revert c. induction l as [|x l IH]; intros c; simpl; [lia|].
  rewrite IH, counter_get_incr, filter_cons.
  destruct (decide (k = x)) as [Heq|Hne].
  - rewrite decide_True by done. simpl. lia.
  - rewrite decide_False by congruence. lia.
Qed.

Lemma counter_of_keys l k : k ∈ counter_keys (counter_of l) <-> k ∈ l.
Proof.
  unfold counter_of. rewrite foldl_incr_keys. unfold counter_keys; simpl.
  rewrite elem_of_nil. tauto.
Qed.

Lemma counter_of_NoDup l : NoDup (counter_keys (counter_of l)).
Proof. apply foldl_incr_NoDup. constructor. Qed.

(** [Counter(l).get(k, 0)] is the number of occurrences of [k] in [l]. *)
Lemma counter_of_get l k :
  counter_get k (counter_of l) = length (filter (fun x => x = k) l).
Proof. unfold counter_of. by rewrite foldl_incr_get. Qed.

Lemma counter_of_nil_iff l : counter_of l = [] <-> l = [].
Proof.
  split; [|by intros ->].
  destruct l as [|x l]; [done|]. intros Hc.
  assert (Hx : x ∈ counter_keys (counter_of (x :: l))) by (apply counter_of_keys; left).
  rewrite Hc in Hx. by apply elem_of_nil in Hx.
Qed.

Lemma max_entry_elem (best : K * nat) c : max_entry best c ∈ best :: c.
Proof.
  revert best. induction c as [|kn c IH]; intros best; simpl; [left|].
  specialize (IH (if (best.2 <? kn.2)%nat then kn else best)).
  apply elem_of_cons in IH as [->|IH].
  - destruct (best.2 <? kn.2)%nat; [right; left|left].
  - by do 2 right.
Qed.

Lemma max_entry_max (best : K * nat) c kn :
  kn ∈ best :: c -> (kn.2 <= (max_entry best c).2)%nat.
Proof.
  revert best kn. induction c as [|kn' c IH]; intros best kn; simpl.
  - intros ->%list_elem_of_singleton. done.
  - intros Hin.
    set (b := if (best.2 <? kn'.2)%nat then kn' else best).
    assert (Hb : (best.2 <= b.2 /\ kn'.2 <= b.2)%nat).
    { unfold b. destruct (Nat.ltb_spec best.2 kn'.2); lia. }
    pose proof (IH b b ltac:(left)) as Hmax.
    apply elem_of_cons in Hin as [->|Hin]; [lia|].
    apply elem_of_cons in Hin as [->|Hin]; [lia|].
    apply IH. by right.
Qed.
End CounterFacts.

(** * Properties of calendar dates *)

Lemma date_key_leb_total (a b : date) : date_key_leb a b = false -> date_key_leb b a = true.
Proof.
  unfold date_key_leb.
  repeat match goal with |- context [?x <? ?y] => destruct (Z.ltb_spec x y) end;
    try done; lia.
Qed.

Lemma date_key_leb_trans (a b c : date) :
  date_key_leb a b = true -> date_key_leb b c = true -> date_key_leb a c = true.
Proof.
  unfold date_key_leb.
  repeat match goal with |- context [?x <? ?y] => destruct (Z.ltb_spec x y) end;
    try done; lia.
Qed.

Lemma date_key_leb_antisym (a b : date) :
  date_key_leb a b = true -> date_key_leb b a = true -> a = b.
Proof.
  unfold date_key_leb. destruct a as [ya ma da], b as [yb mb db]; simpl.
  repeat match goal with |- context [?x <? ?y] => destruct (Z.ltb_spec x y) end;
    try done; try lia.
  intros Hab%Z.leb_le Hba%Z.leb_le. f_equal; lia.
Qed.

Lemma days_before_year_succ (y : Z) :
  days_before_year (y + 1) = days_before_year y + 365 + (if is_leap y then 1 else 0).
Proof.
  unfold days_before_year, is_leap. replace (y + 1 - 1) with y by lia. cbv zeta.
  destruct (Z.eqb_spec (y mod 4) 0), (Z.eqb_spec (y mod 100) 0), (Z.eqb_spec (y mod 400) 0);
    simpl; Z.div_mod_to_equations; lia.
Qed.

Lemma days_before_year_mono (y y' : Z) : y <= y' -> days_before_year y <= days_before_year y'.
Proof. unfold days_before_year. cbv zeta. intros. Z.div_mod_to_equations. lia. Qed.

Lemma month_cases (m : Z) :
  1 <= m <= 12 ->
  m = 1 \/ m = 2 \/ m = 3 \/ m = 4 \/ m = 5 \/ m = 6 \/ m = 7 \/ m = 8 \/ m = 9 \/ m = 10
  \/ m = 11 \/ m = 12.
Proof. lia. Qed.

(** The months of a year follow one another. *)
Lemma days_before_month_succ (y m : Z) :
  1 <= m <= 11 -> days_before_month y (m + 1) = days_before_month y m + days_in_month y m.
Proof.
  intros Hm. assert (Hc : 1 <= m <= 12) by lia. apply month_cases in Hc.
  unfold days_before_month, days_in_month.
  destruct (is_leap y);
    repeat (destruct Hc as [->|Hc]; [simpl; lia|]); subst; lia.
Qed.

Lemma days_before_month_mono (y m m' : Z) :
  1 <= m -> m < m' <= 12 ->
  days_before_month y m + days_in_month y m <= days_before_month y m'.
Proof.
  intros Hm Hm'. assert (Hc : 1 <= m <= 12) by lia. assert (Hc' : 1 <= m' <= 12) by lia.
  apply month_cases in Hc, Hc'.
  unfold days_before_month, days_in_month.
  destruct (is_leap y);
    repeat (destruct Hc as [->|Hc]; [repeat (destruct Hc' as [->|Hc']; [simpl; lia|]); subst; simpl; lia|]);
    subst; repeat (destruct Hc' as [->|Hc']; [simpl; lia|]); subst; simpl; lia.
Qed.

(** The last day of a year is followed by the first day of the next one. *)
Lemma days_in_year (y m : Z) :
  1 <= m <= 12 ->
  days_before_month y m + days_in_month y m <= 365 + (if is_leap y then 1 else 0).
Proof.
  intros Hc. apply month_cases in Hc.
  unfold days_before_month, days_in_month.
  destruct (is_leap y); repeat (destruct Hc as [->|Hc]; [simpl; lia|]); subst; simpl; lia.
Qed.

Lemma days_before_month_nonneg (y m : Z) : 0 <= days_before_month y m.
Proof.
  unfold days_before_month.
  repeat match goal with |- context [if ?b then _ else _] => destruct b end; lia.
Qed.

(** The order of the keys is the order of the days they name. *)
Lemma toordinal_lt (a b : date) :
  valid_date a -> valid_date b ->
  date_key_leb a b = true -> a <> b -> toordinal a < toordinal b.
Proof.
  intros (Hya & Hma & Hda) (Hyb & Hmb & Hdb) Hle Hne.
  unfold toordinal. unfold date_key_leb in Hle.
  destruct (Z.ltb_spec (year a) (year b)) as [Hy|Hy].
  - pose proof (days_before_year_mono (year a + 1) (year b) ltac:(lia)) as Hmono.
    rewrite days_before_year_succ in Hmono.
    pose proof (days_in_year (year a) (month a) Hma).
    pose proof (days_before_month_nonneg (year b) (month b)). lia.
  - destruct (Z.ltb_spec (year b) (year a)) as [Hy'|Hy']; [done|].
    assert (Hyy : year a = year b) by lia.
    destruct (Z.ltb_spec (month a) (month b)) as [Hm|Hm].
    + pose proof (days_before_month_mono (year a) (month a) (month b) ltac:(lia) ltac:(lia)).
      rewrite Hyy in *. lia.
    + destruct (Z.ltb_spec (month b) (month a)) as [Hm'|Hm']; [done|].
      assert (Hmm : month a = month b) by lia.
      apply Z.leb_le in Hle. rewrite Hyy, Hmm.
      assert (day a <> day b).
      { intros Hdd. apply Hne. destruct a, b; simpl in *; congruence. }
      lia.
Qed.

(** * The streak *)

Lemma events_by_local_day_counter (local_tz : tzinfo) (window_events : list event_json) :
  events_by_local_day local_tz window_events
  = counter_of ((fun e => local_tz (created_at e)) <$> window_events).
Proof.
  unfold events_by_local_day, counter_of.
  generalize (@nil (date * nat)). induction window_events as [|e w IH]; intros c; simpl; [done|].
  apply IH.
Qed.

Lemma StronglySorted_reverse {A : Type} (R : relation A) (l : list A) :
  StronglySorted R l -> StronglySorted (flip R) (reverse l).
Proof.
  induction 1 as [|x l Hl IH Hx]; [constructor|].
  rewrite reverse_cons. apply StronglySorted_app. split_and!.
  - intros y z Hy ->%list_elem_of_singleton. rewrite elem_of_reverse in Hy.
    rewrite Forall_forall in Hx. unfold flip. by apply Hx.
  - done.
  - repeat constructor.
Qed.

(** The loop counts the days that follow one another without a gap. *)
Lemma streak_loop_spec (current_day : date) (before : list date) (n : nat) :
  latest_first (current_day :: before) ->
  let r := streak_loop current_day before n in
  (n <= r)%nat
  /\ (forall j : nat, (j <= r - n)%nat ->
        exists d, d ∈ current_day :: before /\ toordinal d = toordinal current_day - Z.of_nat j)
  /\ (forall d, d ∈ current_day :: before ->
        toordinal d <> toordinal current_day - Z.of_nat (r - n) - 1).
Proof.
  revert current_day n. induction before as [|prev_day before IH]; intros cur n Hs; simpl.
  - split_and!; [lia| |].
    + intros j Hj. exists cur. split; [left|]. lia.
    + intros d ->%list_elem_of_singleton. lia.
  - apply StronglySorted_cons in Hs as [Hcur Hs].
    pose proof Hcur as Hcur'. rewrite Forall_forall in Hcur'.
    assert (Hprev : toordinal prev_day < toordinal cur) by (apply Hcur'; left).
    destruct (Z.eqb_spec (toordinal cur - toordinal prev_day) 1) as [Hstep|Hgap].
    + destruct (IH prev_day (S n) Hs) as (Hle & Hrun & Hend).
      set (r := streak_loop prev_day before (S n)) in *.
      split_and!; [lia| |].
      * intros j Hj. destruct j as [|j].
        -- exists cur. split; [left|]. lia.
        -- destruct (Hrun j ltac:(lia)) as (d & Hd & Hord).
           exists d. split; [by right|]. lia.
      * intros d Hd. apply elem_of_cons in Hd as [->|Hd]; [lia|].
        specialize (Hend d Hd). lia.
    + split_and!; [lia| |].
      * intros j Hj. exists cur. split; [left|]. lia.
      * intros d Hd. replace (n - n)%nat with 0%nat by lia.
        apply elem_of_cons in Hd as [->|Hd]; [lia|].
        apply elem_of_cons in Hd as [->|Hd]; [lia|].
        apply StronglySorted_cons in Hs as [Hp _]. rewrite Forall_forall in Hp.
        specialize (Hp d Hd). simpl in Hp. lia.
Qed.

(** The sorted keys of valid days, read backwards, are latest first. *)
Lemma active_days_latest_first (by_day : Counter date) :
  NoDup (counter_keys by_day) ->
  Forall valid_date (counter_keys by_day) ->
  latest_first (reverse (active_days by_day)).
Proof.
  intros Hnd Hvalid. unfold latest_first, active_days.
  set (keys := counter_keys by_day) in *.
  pose proof (sorted_perm date_key_leb keys) as Hperm.
  pose proof (sorted_StronglySorted date_key_leb date_key_leb_total date_key_leb_trans keys)
    as Hsorted.
  assert (Hnd' : NoDup (sorted date_key_leb keys)) by (by rewrite Hperm).
  assert (Hvalid' : Forall valid_date (sorted date_key_leb keys)) by (by rewrite Hperm).
  apply (StronglySorted_reverse (fun a b => toordinal a < toordinal b)).
  revert Hsorted Hnd' Hvalid'. generalize (sorted date_key_leb keys). clear.
  induction 1 as [|x l Hl IH Hx]; intros Hnd Hvalid; [constructor|].
  apply NoDup_cons in Hnd as [Hx' Hnd]. apply Forall_cons in Hvalid as [Hvx Hvalid].
  constructor; [by apply IH|].
  rewrite Forall_forall in *. intros y Hy.
  apply toordinal_lt; [done|by apply Hvalid|by apply Hx|].
  intros ->. done.
Qed.

(** C1: for every non-empty set of local active dates of the window, the
    streak is the length of the run of consecutive calendar dates that ends at
    the most recent active date: every one of the [streak] days ending at the
    latest active day is active, and the day before them is not. *)
Theorem C1_streak_is_trailing_run (local_tz : tzinfo) (window_events : list event_json) :
  window_events <> [] ->
  Forall (fun e => valid_date (local_tz (created_at e))) window_events ->
  let days := (fun e => local_tz (created_at e)) <$> window_events in
  let streak := ActivityInsights.streak_days (insights_of local_tz window_events) in
  exists latest,
    latest ∈ days
    /\ (forall d, d ∈ days -> toordinal d <= toordinal latest)
    /\ (1 <= streak)%nat
    /\ (forall j : nat, (j < streak)%nat ->
          exists d, d ∈ days /\ toordinal d = toordinal latest - Z.of_nat j)
    /\ (forall d, d ∈ days -> toordinal d <> toordinal latest - Z.of_nat streak).
Proof.
  intros Hne Hvalid days streak.
  unfold streak, insights_of; simpl. rewrite events_by_local_day_counter. fold days.
  set (by_day := counter_of days).
  assert (Hkeys : forall d, d ∈ counter_keys by_day <-> d ∈ days) by apply counter_of_keys.
  assert (Hsorted : latest_first (reverse (active_days by_day))).
  { apply active_days_latest_first; [apply counter_of_NoDup|].
    rewrite Forall_forall. intros d Hd%Hkeys.
    apply list_elem_of_fmap in Hd as (e & -> & He).
    rewrite Forall_forall in Hvalid. by apply Hvalid. }
  assert (Hmem : forall d, d ∈ reverse (active_days by_day) <-> d ∈ days).
  { intros d. rewrite elem_of_reverse. unfold active_days.
    rewrite (sorted_perm date_key_leb). apply Hkeys. }
  unfold streak_of.
  destruct (reverse (active_days by_day)) as [|latest before] eqn:Hrev.
  { exfalso. destruct window_events as [|e w]; [done|].
    assert (Hin : local_tz (created_at e) ∈ days) by left.
    apply Hmem in Hin. by apply elem_of_nil in Hin. }
  destruct (streak_loop_spec latest before 1 Hsorted) as (Hle & Hrun & Hend).
  set (r := streak_loop latest before 1) in *.
  exists latest. split_and!.
  - apply Hmem. left.
  - intros d Hd%Hmem. apply elem_of_cons in Hd as [->|Hd]; [lia|].
    apply StronglySorted_cons in Hsorted as [Hall _]. rewrite Forall_forall in Hall.
    specialize (Hall d Hd). simpl in Hall. lia.
  - done.
  - intros j Hj. destruct (Hrun j ltac:(lia)) as (d & Hd & Hord).
    exists d. split; [by apply Hmem|done].
  - intros d Hd%Hmem. specialize (Hend d Hd). lia.
Qed.

Example streak_events_days :
  (fun e => tz_utc (created_at e)) <$> streak_events
  = [Date 2024 1 5; Date 2024 1 3; Date 2024 1 2; Date 2024 1 1].
Proof. vm_compute. reflexivity. Qed.

(** With 2024-01-01, 01-02, 01-03 and 01-05 active, the streak is anchored at
    01-05 and the earlier days do not count. *)
Example streak_events_streak :
  ActivityInsights.streak_days (insights_of tz_utc streak_events) = 1%nat.
Proof. vm_compute. reflexivity. Qed.

Lemma C1_streak_witness :
  streak_events <> []
  /\ Forall (fun e => valid_date (tz_utc (created_at e))) streak_events
  /\ ActivityInsights.streak_days (insights_of tz_utc streak_events) = 1%nat
  /\ exists latest,
      latest ∈ (fun e => tz_utc (created_at e)) <$> streak_events
      /\ (forall d, d ∈ (fun e => tz_utc (created_at e)) <$> streak_events ->
            toordinal d <= toordinal latest)
      /\ (1 <= ActivityInsights.streak_days (insights_of tz_utc streak_events))%nat
      /\ (forall j : nat,
            (j < ActivityInsights.streak_days (insights_of tz_utc streak_events))%nat ->
            exists d, d ∈ (fun e => tz_utc (created_at e)) <$> streak_events
                      /\ toordinal d = toordinal latest - Z.of_nat j)
      /\ (forall d, d ∈ (fun e => tz_utc (created_at e)) <$> streak_events ->
            toordinal d
            <> toordinal latest
               - Z.of_nat (ActivityInsights.streak_days (insights_of tz_utc streak_events))).
Proof.
  assert (Hne : streak_events <> []) by discriminate.
  assert (Hvalid : Forall (fun e => valid_date (tz_utc (created_at e))) streak_events).
  { apply (bool_decide_unpack _). vm_compute. exact I. }
  split; [exact Hne|]. split; [exact Hvalid|]. split; [vm_compute; reflexivity|].
  exact (C1_streak_is_trailing_run tz_utc streak_events Hne Hvalid).
Defined.

(** * The summary *)

Lemma count_fmap_type (ty : string) (window_events : list event_json) :
  length (filter (fun x => x = ty) (event_type <$> window_events))
  = count_type ty window_events.
Proof.
  unfold count_type. induction window_events as [|e w IH]; [done|].
  rewrite fmap_cons, !filter_cons.
  destruct (decide (event_type e = ty)); rewrite ?length_cons; by rewrite IH.
Qed.

Lemma type_counter_get (ty : string) (window_events : list event_json) :
  counter_get ty (counter_of (event_type <$> window_events)) = count_type ty window_events.
Proof. by rewrite counter_of_get, count_fmap_type. Qed.

Lemma count_type_insert (ty : string) (e : event_json) (w1 w2 : list event_json) :
  event_type e <> ty -> count_type ty (w1 ++ e :: w2) = count_type ty (w1 ++ w2).
Proof.
  intros Hne. unfold count_type.
  rewrite !filter_app, filter_cons. by rewrite decide_False by done.
Qed.

(** C7: the summary maps the event types to its fields: each field counts the
    events of its type, [comments] adds the issue comments and the commit
    comments, and an event of any other type is counted in [events] only.  A
    window with 3 pushes, 1 issue comment and 1 commit comment has
    [pushes = 3] and [comments = 2]. *)
Theorem C7_summary_counts (window_events : list event_json) :
  let s := summary_of window_events in
  (ActivitySummary.events s = length window_events
   /\ ActivitySummary.pushes s = count_type "PushEvent" window_events
   /\ ActivitySummary.pull_requests s = count_type "PullRequestEvent" window_events
   /\ ActivitySummary.issues s = count_type "IssuesEvent" window_events
   /\ ActivitySummary.comments s
      = (count_type "IssueCommentEvent" window_events
         + count_type "CommitCommentEvent" window_events)%nat
   /\ ActivitySummary.releases s = count_type "ReleaseEvent" window_events
   /\ ActivitySummary.stars s = count_type "WatchEvent" window_events
   /\ ActivitySummary.creates s = count_type "CreateEvent" window_events
   /\ ActivitySummary.deletes s = count_type "DeleteEvent" window_events)
  /\ (forall (e : event_json) (w1 w2 : list event_json),
        window_events = w1 ++ e :: w2 ->
        event_type e ∉ summary_types ->
        type_fields s = type_fields (summary_of (w1 ++ w2))
        /\ ActivitySummary.events s = S (ActivitySummary.events (summary_of (w1 ++ w2))))
  /\ (count_type "PushEvent" window_events = 3%nat ->
      count_type "IssueCommentEvent" window_events = 1%nat ->
      count_type "CommitCommentEvent" window_events = 1%nat ->
      ActivitySummary.pushes s = 3%nat /\ ActivitySummary.comments s = 2%nat).
Proof.
  intros s.
  assert (Hfields :
    forall w, type_fields (summary_of w)
      = [ count_type "PushEvent" w; count_type "PullRequestEvent" w; count_type "IssuesEvent" w;
          (count_type "IssueCommentEvent" w + count_type "CommitCommentEvent" w)%nat;
          count_type "ReleaseEvent" w; count_type "WatchEvent" w; count_type "CreateEvent" w;
          count_type "DeleteEvent" w ]).
  { intros w. unfold type_fields, summary_of; simpl. by rewrite !type_counter_get. }
  pose proof (Hfields window_events) as Hs. fold s in Hs.
  unfold type_fields in Hs. injection Hs as Hp Hpr Hi Hc Hr Hst Hcr Hd.
  split_and!; try done.
  - intros e w1 w2 -> Hnot. subst s. split.
    + rewrite !Hfields.
      assert (Hne : forall ty, ty ∈ summary_types -> event_type e <> ty).
      { intros ty Hty Heq. apply Hnot. by rewrite Heq. }
      rewrite !count_type_insert; first done;
        apply Hne; unfold summary_types; repeat first [left | right].
    + unfold summary_of; simpl. rewrite !length_app; simpl. lia.
  - intros H3 H1 H1'. subst s. unfold summary_of; simpl.
    rewrite !type_counter_get, H3, H1, H1'. done.
Qed.

Example summary_events_counts :
  let s := summary_of summary_events in
  ActivitySummary.events s = 6%nat
  /\ ActivitySummary.pushes s = 3%nat
  /\ ActivitySummary.comments s = 2%nat
  /\ ActivitySummary.repos s = 2%nat.
Proof. vm_compute. done. Qed.

Lemma C7_summary_witness :
  let s := summary_of summary_events in
  count_type "PushEvent" summary_events = 3%nat
  /\ count_type "IssueCommentEvent" summary_events = 1%nat
  /\ count_type "CommitCommentEvent" summary_events = 1%nat
  /\ ActivitySummary.pushes s = 3%nat /\ ActivitySummary.comments s = 2%nat.
Proof.
  assert (H3 : count_type "PushEvent" summary_events = 3%nat) by (vm_compute; reflexivity).
  assert (H1 : count_type "IssueCommentEvent" summary_events = 1%nat)
    by (vm_compute; reflexivity).
  assert (H1' : count_type "CommitCommentEvent" summary_events = 1%nat)
    by (vm_compute; reflexivity).
  split; [exact H3|]. split; [exact H1|]. split; [exact H1'|].
  exact (proj2 (proj2 (C7_summary_counts summary_events)) H3 H1 H1').
Defined.

(** * [build_activity], stage by stage *)

Lemma for_each_Return {A B : Type} (f : A -> outcome B) (l : list A) (ys : list B) :
  for_each f l = Return ys -> Forall2 (fun x y => f x = Return y) l ys.
Proof.
  revert ys. induction l as [|x l IH]; intros ys; simpl.
  - intros [= <-]. constructor.
  - destruct (f x) as [y| |] eqn:Hfx; simpl; try done.
    destruct (for_each f l) as [ys'| |]; simpl; try done.
    intros [= <-]. constructor; [done|]. by apply IH.
Qed.

Lemma build_activity_inv (pytz_timezone : string -> option tzinfo) (client : GitHubClient)
    (username tz_name : string) (window_days : Z) (fuel : nat) (now : Z) (a : Activity.t) :
  build_activity pytz_timezone client username tz_name window_days fuel now = Return a ->
  exists (local_tz : tzinfo) (all_events window_events : list event_json),
    pytz_timezone tz_name = Some local_tz
    /\ get_public_events client fuel = Return all_events
    /\ window_filter (datetime_sub (utcnow now) (timedelta_days window_days)) all_events
       = Return window_events
    /\ for_each activity_event window_events = Return (Activity.event a)
    /\ Activity.summary a = summary_of window_events
    /\ Activity.insights a = insights_of local_tz window_events.
Proof.
  unfold build_activity.
  destruct (pytz_timezone tz_name) as [local_tz|]; simpl; [|done].
  destruct (get_public_events client fuel) as [all_events| |]; simpl; try done.
  destruct (window_filter _ all_events) as [window_events| |] eqn:Hw; simpl; try done.
  destruct (for_each activity_event window_events) as [events_list| |] eqn:He; simpl; try done.
  intros [= <-]. exists local_tz, all_events, window_events. simpl. split_and!; done.
Qed.

Lemma datetime_ge_naive (t start : datetime) :
  utcoffset start = None ->
  datetime_ge t start
  = match utcoffset t with
    | Some _ => Raise TypeError
    | None => Return (wall start <=? wall t)
    end.
Proof. intros Hnaive. unfold datetime_ge. rewrite Hnaive. by destruct (utcoffset t). Qed.

(** When no comparison raises, the window holds the events at or after its
    start, in their order, and every event was compared against the naive
    start of the window. *)
Lemma window_filter_Return (start : datetime) (all_events window_events : list event_json) :
  utcoffset start = None ->
  window_filter start all_events = Return window_events ->
  Forall (fun e => utcoffset (created_at e) = None) all_events
  /\ window_events = filter (fun e => wall start <= wall (created_at e)) all_events.
Proof.
  intros Hnaive. unfold window_filter. revert window_events.
  induction all_events as [|e l IH]; intros w.
  - intros [= <-]. by split.
  - cbn [filter_raising]. rewrite (datetime_ge_naive _ _ Hnaive).
    destruct (utcoffset (created_at e)) eqn:Hoff; cbn [mbind outcome_bind]; [done|].
    destruct (filter_raising _ l) as [xs| |]; cbn [mbind outcome_bind]; try done.
    destruct (IH xs eq_refl) as [Hall ->].
    intros [= <-]. split; [by constructor|].
    rewrite filter_cons. destruct (Z.leb_spec (wall start) (wall (created_at e)));
      [by rewrite decide_True by done | by rewrite decide_False by lia].
Qed.

Lemma streak_loop_ge (current_day : date) (before : list date) (n : nat) :
  (n <= streak_loop current_day before n)%nat.
Proof.
  revert current_day n. induction before as [|p before IH]; intros cur n; simpl; [done|].
  destruct (_ =? 1); [|done]. specialize (IH p (S n)). lia.
Qed.

Lemma active_days_nil_iff (by_day : Counter date) : active_days by_day = [] <-> by_day = [].
Proof.
  unfold active_days, counter_keys. split.
  - intros Hnil. pose proof (sorted_perm date_key_leb (by_day.*1)) as Hperm.
    rewrite Hnil in Hperm. apply Permutation_nil_l in Hperm.
    symmetry in Hperm. by apply fmap_nil_inv in Hperm.
  - by intros ->.
Qed.

Lemma streak_of_zero_iff (days : list date) : streak_of days = 0%nat <-> days = [].
Proof.
  unfold streak_of. split.
  - destruct (reverse days) as [|d before] eqn:Hrev.
    + intros _. apply (f_equal reverse) in Hrev. by rewrite reverse_involutive in Hrev.
    + intros Hz. pose proof (streak_loop_ge d before 1). lia.
  - by intros ->.
Qed.

Lemma busiest_day_None_iff (by_day : Counter date) : busiest_day by_day = None <-> by_day = [].
Proof. unfold busiest_day, most_common_1. by destruct by_day. Qed.

(** The busiest day is a key of the counter, with the highest count. *)
Lemma busiest_day_Some (by_day : Counter date) (d : date) :
  busiest_day by_day = Some d ->
  exists n, (d, n) ∈ by_day /\ forall kn, kn ∈ by_day -> (kn.2 <= n)%nat.
Proof.
  unfold busiest_day, most_common_1. destruct by_day as [|kn c]; [done|].
  intros [= <-]. exists (max_entry kn c).2. split.
  - rewrite <- surjective_pairing. apply max_entry_elem.
  - intros kn'. apply max_entry_max.
Qed.

(** * The window *)

(** A timestamp with an offset cannot be compared with the naive start of the
    window. *)
Lemma window_filter_aware_raises (start : datetime) (all_events : list event_json) :
  utcoffset start = None ->
  Exists (fun e => utcoffset (created_at e) <> None) all_events ->
  window_filter start all_events = Raise TypeError.
Proof.
  intros Hnaive. unfold window_filter.
  induction all_events as [|e l IH]; intros Hex; [by apply Exists_nil in Hex|].
  cbn [filter_raising]. rewrite (datetime_ge_naive _ _ Hnaive).
  destruct (utcoffset (created_at e)) eqn:Hoff; cbn [mbind outcome_bind]; [done|].
  apply Exists_cons in Hex as [Hex|Hex]; [congruence|].
  by rewrite (IH Hex).
Qed.

Example aware_events_raise :
  build_activity pytz_utc_only (events_client aware_events) "octo" "UTC" 7 1 example_now
  = Raise TypeError.
Proof. vm_compute. reflexivity. Qed.

(** C6, as the code has it: whenever [build_activity] returns, the window
    holds exactly the fetched events whose creation timestamp is at or after
    [window_start = now - window_days], in the order of the fetch; there is
    no upper bound, so an event dated after [now] is in the window too. *)
Theorem C6_window_has_lower_bound_only (pytz_timezone : string -> option tzinfo)
    (client : GitHubClient) (username tz_name : string) (window_days : Z) (fuel : nat)
    (now : Z) (a : Activity.t) :
  build_activity pytz_timezone client username tz_name window_days fuel now = Return a ->
  exists all_events window_events : list event_json,
    get_public_events client fuel = Return all_events
    /\ wall (Activity.window_start_utc a) = now - window_days * 86400000000
    /\ window_events
       = filter (fun e => wall (Activity.window_start_utc a) <= wall (created_at e)) all_events
    /\ for_each activity_event window_events = Return (Activity.event a)
    /\ Activity.summary a = summary_of window_events.
Proof.
  intros Hbuild.
  assert (Hstart : Activity.window_start_utc a
                   = datetime_sub (utcnow now) (timedelta_days window_days)).
  { revert Hbuild. unfold build_activity.
    destruct (pytz_timezone tz_name); cbn [mbind outcome_bind]; [|done].
    destruct (get_public_events client fuel); cbn [mbind outcome_bind]; try done.
    destruct (window_filter _ _); cbn [mbind outcome_bind]; try done.
    destruct (for_each _ _); cbn [mbind outcome_bind]; try done.
    by intros [= <-]. }
  destruct (build_activity_inv _ _ _ _ _ _ _ _ Hbuild)
    as (local_tz & all_events & window_events & _ & Hget & Hwin & Hev & Hsum & _).
  apply window_filter_Return in Hwin as [_ Hwin]; [|done].
  exists all_events, window_events. rewrite Hstart. split_and!; done.
Qed.

Lemma C6_window_witness :
  exists a,
    build_activity pytz_utc_only (events_client streak_events) "octo" "UTC" 2 1 example_now
    = Return a
    /\ ActivityEvent.event_id <$> Activity.event a = ["4"%string]
    /\ exists all_events window_events : list event_json,
        get_public_events (events_client streak_events) 1 = Return all_events
        /\ wall (Activity.window_start_utc a) = example_now - 2 * 86400000000
        /\ window_events
           = filter (fun e => wall (Activity.window_start_utc a) <= wall (created_at e))
                    all_events
        /\ for_each activity_event window_events = Return (Activity.event a)
        /\ Activity.summary a = summary_of window_events.
Proof.
  assert (Hrun : { a | build_activity pytz_utc_only (events_client streak_events)
                         "octo" "UTC" 2 1 example_now = Return a
                       /\ ActivityEvent.event_id <$> Activity.event a = ["4"%string] }).
  { eexists. vm_compute. split; reflexivity. }
  destruct Hrun as [a [Ha Hids]]. exists a. split; [exact Ha|]. split; [exact Hids|].
  exact (C6_window_has_lower_bound_only _ _ _ _ _ _ _ a Ha).
Defined.

(** An event dated after [now] is fetched and is in the window. *)
Lemma C6_future_event_in_window :
  exists a e,
    get_public_events (events_client future_events) 1 = Return [e]
    /\ wall (utcnow example_now) < wall (created_at e)
    /\ build_activity pytz_utc_only (events_client future_events) "octo" "UTC" 7 1 example_now
       = Return a
    /\ ActivitySummary.events (Activity.summary a) = 1%nat
    /\ ActivityEvent.at_utc <$> Activity.event a = [created_at e].
Proof.
  eexists. eexists. vm_compute. split_and!; reflexivity.
Qed.

(** * The insights *)

(** C9: in every snapshot that [build_activity] produces, [streak_days] is 0
    and [busiest_local_day] is [None] exactly when the filtered window has no
    event; when the window has an event, [streak_days] is at least 1 and
    [busiest_local_day] is the local date of some event of the window. *)
Theorem C9_streak_and_busiest_day (pytz_timezone : string -> option tzinfo)
    (client : GitHubClient) (username tz_name : string) (window_days : Z) (fuel : nat)
    (now : Z) (a : Activity.t) :
  build_activity pytz_timezone client username tz_name window_days fuel now = Return a ->
  exists (local_tz : tzinfo) (all_events window_events : list event_json),
    pytz_timezone tz_name = Some local_tz
    /\ get_public_events client fuel = Return all_events
    /\ window_filter (datetime_sub (utcnow now) (timedelta_days window_days)) all_events
       = Return window_events
    /\ length (Activity.event a) = length window_events
    /\ (ActivityInsights.streak_days (Activity.insights a) = 0%nat <-> window_events = [])
    /\ (ActivityInsights.busiest_local_day (Activity.insights a) = None <-> window_events = [])
    /\ (window_events <> [] ->
        (1 <= ActivityInsights.streak_days (Activity.insights a))%nat
        /\ exists d e, ActivityInsights.busiest_local_day (Activity.insights a) = Some d
                       /\ e ∈ window_events /\ local_tz (created_at e) = d).
Proof.
  intros Hbuild.
  destruct (build_activity_inv _ _ _ _ _ _ _ _ Hbuild)
    as (local_tz & all_events & window_events & Htz & Hget & Hwin & Hev & _ & Hins).
  exists local_tz, all_events, window_events. rewrite Hins. unfold insights_of; simpl.
  rewrite events_by_local_day_counter.
  set (days := (fun e => local_tz (created_at e)) <$> window_events).
  assert (Hnil : counter_of days = [] <-> window_events = []).
  { rewrite counter_of_nil_iff. unfold days. split; [apply fmap_nil_inv|by intros ->]. }
  assert (Hstreak : streak_of (active_days (counter_of days)) = 0%nat <-> window_events = []).
  { by rewrite streak_of_zero_iff, active_days_nil_iff. }
  assert (Hbusy : busiest_day (counter_of days) = None <-> window_events = []).
  { by rewrite busiest_day_None_iff. }
  split_and!; try done.
  - apply for_each_Return in Hev. symmetry. by eapply Forall2_length.
  - intros Hne. split.
    + assert (streak_of (active_days (counter_of days)) <> 0%nat) by (by rewrite Hstreak).
      lia.
    + destruct (busiest_day (counter_of days)) as [d|] eqn:Hd;
        [|destruct Hne; by apply Hbusy].
      apply busiest_day_Some in Hd as (n & Hdn & _).
      assert (Hkey : d ∈ counter_keys (counter_of days)).
      { unfold counter_keys. apply list_elem_of_fmap. exists (d, n). by split. }
      apply (proj1 (counter_of_keys days d)) in Hkey. unfold days in Hkey.
      apply list_elem_of_fmap in Hkey as (e & Hde & He). by exists d, e.
Qed.

Example streak_events_busiest_day :
  ActivityInsights.busiest_local_day (insights_of tz_utc streak_events)
  = Some (Date 2024 1 5).
Proof. vm_compute. reflexivity. Qed.

Example empty_window_insights :
  insights_of tz_utc []
  = {| ActivityInsights.streak_days := 0; ActivityInsights.busiest_local_day := None;
       ActivityInsights.top_repos := []; ActivityInsights.top_event_types := [] |}.
Proof. reflexivity. Qed.

Lemma C9_insights_witness :
  exists a,
    build_activity pytz_utc_only (events_client streak_events) "octo" "UTC" 7 1 example_now
    = Return a
    /\ ActivityInsights.streak_days (Activity.insights a) = 1%nat
    /\ ActivityInsights.busiest_local_day (Activity.insights a) = Some (Date 2024 1 5)
    /\ exists (local_tz : tzinfo) (all_events window_events : list event_json),
        pytz_utc_only "UTC" = Some local_tz
        /\ get_public_events (events_client streak_events) 1 = Return all_events
        /\ window_filter (datetime_sub (utcnow example_now) (timedelta_days 7)) all_events
           = Return window_events
        /\ length (Activity.event a) = length window_events
        /\ (ActivityInsights.streak_days (Activity.insights a) = 0%nat <-> window_events = [])
        /\ (ActivityInsights.busiest_local_day (Activity.insights a) = None
            <-> window_events = [])
        /\ (window_events <> [] ->
            (1 <= ActivityInsights.streak_days (Activity.insights a))%nat
            /\ exists d e, ActivityInsights.busiest_local_day (Activity.insights a) = Some d
                           /\ e ∈ window_events /\ local_tz (created_at e) = d).
Proof.
  assert (Hrun : { a | build_activity pytz_utc_only (events_client streak_events)
                         "octo" "UTC" 7 1 example_now = Return a
                       /\ ActivityInsights.streak_days (Activity.insights a) = 1%nat
                       /\ ActivityInsights.busiest_local_day (Activity.insights a)
                          = Some (Date 2024 1 5) }).
  { eexists. vm_compute. split_and!; reflexivity. }
  destruct Hrun as [a (Ha & Hs & Hb)]. exists a.
  split; [exact Ha|]. split; [exact Hs|]. split; [exact Hb|].
  exact (C9_streak_and_busiest_day _ _ _ _ _ _ _ a Ha).
Defined.

(** * The owner and the name of a repository *)

Lemma split_from_length (sep : ascii) (cur s : chars) :
  length (split_from sep cur s) = S (length (filter (fun x => x = sep) s)).
Proof.
  revert cur. induction s as [|c s IH]; intros cur; [done|].
  cbn [split_from]. rewrite filter_cons.
  destruct (decide (c = sep)); rewrite ?length_cons; by rewrite IH.
Qed.

(** The unpacking of [split('/')] succeeds exactly on one ['/']. *)
Lemma split_owner_name_Return_iff (repo_name_full : string) :
  (exists p, split_owner_name repo_name_full = Return p)
  <-> count_char "/" repo_name_full = 1%nat.
Proof.
  unfold split_owner_name, count_char, split.
  pose proof (split_from_length "/" [] (list_ascii_of_string repo_name_full)) as Hlen.
  destruct (split_from "/" [] (list_ascii_of_string repo_name_full))
    as [|owner [|short [|x l]]]; simpl in Hlen; split; try (intros [p Hp]); try done;
    try lia; eauto.
Qed.

Lemma split_owner_name_outcome (repo_name_full : string) :
  (exists p, split_owner_name repo_name_full = Return p)
  \/ split_owner_name repo_name_full = Raise ValueError.
Proof.
  unfold split_owner_name.
  destruct (split "/" (list_ascii_of_string repo_name_full)) as [|owner [|short [|x l]]];
    eauto.
Qed.

Lemma activity_event_Return (event : event_json) (ev : ActivityEvent.t) :
  activity_event event = Return ev -> count_char "/" (event_repo_name event) = 1%nat.
Proof.
  unfold activity_event. intros Hev. apply split_owner_name_Return_iff.
  destruct (split_owner_name (event_repo_name event)) as [p| |]; [by eexists|done|done].
Qed.

Lemma activity_event_ValueError (event : event_json) :
  count_char "/" (event_repo_name event) <> 1%nat -> activity_event event = Raise ValueError.
Proof.
  intros Hne. unfold activity_event.
  destruct (split_owner_name_outcome (event_repo_name event)) as [Hp| ->]; [|done].
  by apply split_owner_name_Return_iff in Hp.
Qed.

Lemma for_each_raises {A B : Type} (f : A -> outcome B) (l : list A) :
  (forall x, f x <> OutOfFuel) ->
  Exists (fun x => forall y, f x <> Return y) l ->
  exists e, for_each f l = Raise e.
Proof.
  intros Hfuel. induction l as [|x l IH]; intros Hex; [by apply Exists_nil in Hex|].
  cbn [for_each]. destruct (f x) as [y|e|] eqn:Hfx; cbn [mbind outcome_bind].
  - apply Exists_cons in Hex as [Hx|Hex]; [by destruct (Hx y)|].
    destruct (IH Hex) as [e ->]. by exists e.
  - by exists e.
  - by destruct (Hfuel x).
Qed.

Lemma for_each_no_fuel {A B : Type} (f : A -> outcome B) (l : list A) :
  (forall x, f x <> OutOfFuel) -> for_each f l <> OutOfFuel.
Proof.
  intros Hfuel. induction l as [|x l IH]; cbn [for_each]; [done|].
  destruct (f x) eqn:Hfx; cbn [mbind outcome_bind]; [|done|by destruct (Hfuel x)].
  by destruct (for_each f l).
Qed.

Lemma commit_line_no_fuel (c : commit_json) : commit_line c <> OutOfFuel.
Proof. unfold commit_line. by destruct (str_splitlines (message c)). Qed.

Lemma activity_event_no_fuel (event : event_json) : activity_event event <> OutOfFuel.
Proof.
  unfold activity_event.
  destruct (split_owner_name_outcome (event_repo_name event)) as [[[owner short] ->]| ->];
    [|done].
  cbn [mbind outcome_bind].
  destruct (decide (event_type event = "PushEvent"%string)).
  - pose proof (for_each_no_fuel commit_line (default [] (payload_commits (payload event)))
                  commit_line_no_fuel).
    by destruct (for_each commit_line _).
  - destruct (decide (event_type event = "PullRequestEvent"%string)); [|done].
    destruct (action (payload event)); [|done].
    by destruct (pull_request (payload event)).
Qed.

(** C10: [build_activity] returns only if the repository name of every event
    of the window has exactly one ['/']; an event of the window whose name has
    none, or more than one, makes the split raise, and then the whole build
    raises instead of leaving that event out. *)
Theorem C10_one_slash_needed :
  (forall (pytz_timezone : string -> option tzinfo) (client : GitHubClient)
          (username tz_name : string) (window_days : Z) (fuel : nat) (now : Z)
          (a : Activity.t),
      build_activity pytz_timezone client username tz_name window_days fuel now = Return a ->
      exists all_events window_events : list event_json,
        get_public_events client fuel = Return all_events
        /\ window_filter (datetime_sub (utcnow now) (timedelta_days window_days)) all_events
           = Return window_events
        /\ Forall (fun e => count_char "/" (event_repo_name e) = 1%nat) window_events)
  /\ (forall (pytz_timezone : string -> option tzinfo) (client : GitHubClient)
             (username tz_name : string) (window_days : Z) (fuel : nat) (now : Z)
             (local_tz : tzinfo) (all_events window_events : list event_json),
        pytz_timezone tz_name = Some local_tz ->
        get_public_events client fuel = Return all_events ->
        window_filter (datetime_sub (utcnow now) (timedelta_days window_days)) all_events
        = Return window_events ->
        Exists (fun e => count_char "/" (event_repo_name e) <> 1%nat) window_events ->
        (exists e, e ∈ window_events /\ activity_event e = Raise ValueError)
        /\ exists exc,
             build_activity pytz_timezone client username tz_name window_days fuel now
             = Raise exc)
  /\ build_activity pytz_utc_only (events_client slashless_events) "octo" "UTC" 7 1 example_now
     = Raise ValueError
  /\ build_activity pytz_utc_only (events_client nested_events) "octo" "UTC" 7 1 example_now
     = Raise ValueError.
Proof.
  split_and!.
  - intros pytz_timezone client username tz_name window_days fuel now a Hbuild.
    destruct (build_activity_inv _ _ _ _ _ _ _ _ Hbuild)
      as (local_tz & all_events & window_events & _ & Hget & Hwin & Hev & _).
    exists all_events, window_events. split_and!; [done..|].
    apply for_each_Return in Hev. rewrite Forall_forall. intros e He.
    apply list_elem_of_lookup in He as [i Hi].
    destruct (Forall2_lookup_l _ _ _ i e Hev Hi) as (ev & _ & Hret).
    by eapply activity_event_Return.
  - intros pytz_timezone client username tz_name window_days fuel now local_tz all_events
      window_events Htz Hget Hwin Hex. split.
    + apply Exists_exists in Hex as (e & He & Hne). exists e. split; [done|].
      by apply activity_event_ValueError.
    + assert (Hraise : exists exc, for_each activity_event window_events = Raise exc).
      { apply for_each_raises; [apply activity_event_no_fuel|].
        eapply Exists_impl; [exact Hex|]. intros e Hne y Hret; simpl in *.
        by apply activity_event_Return in Hret. }
      destruct Hraise as [exc Hexc]. exists exc.
      unfold build_activity. rewrite Htz. cbn [mbind outcome_bind].
      rewrite Hget. cbn [mbind outcome_bind]. rewrite Hwin. cbn [mbind outcome_bind].
      by rewrite Hexc.
  - vm_compute. reflexivity.
  - vm_compute. reflexivity.
Qed.

Lemma C10_one_slash_witness :
  exists a,
    build_activity pytz_utc_only (events_client streak_events) "octo" "UTC" 7 1 example_now
    = Return a
    /\ exists all_events window_events : list event_json,
        get_public_events (events_client streak_events) 1 = Return all_events
        /\ window_filter (datetime_sub (utcnow example_now) (timedelta_days 7)) all_events
           = Return window_events
        /\ Forall (fun e => count_char "/" (event_repo_name e) = 1%nat) window_events.
Proof.
  assert (Hrun : { a | build_activity pytz_utc_only (events_client streak_events)
                         "octo" "UTC" 7 1 example_now = Return a }).
  { eexists. vm_compute. reflexivity. }
  destruct Hrun as [a Ha]. exists a. split; [exact Ha|].
  exact (proj1 C10_one_slash_needed _ _ _ _ _ _ _ a Ha).
Defined.

(** * Pagination *)

Lemma raise_for_status_success {A : Type} (r : response A) :
  is_success (status_code r) = true -> raise_for_status r = Return tt.
Proof. unfold raise_for_status. by intros ->. Qed.

Lemma raise_for_status_error {A : Type} (r : response A) :
  is_success (status_code r) = false ->
  raise_for_status r = Raise (HTTPStatusError (status_code r)).
Proof. unfold raise_for_status. by intros ->. Qed.

(** The loop stops at the first request that is answered with an error
    status, with the items of the pages before it. *)
Lemma fetch_next_pages_error {A : Type} (get : string -> outcome (response (list A)))
    (next_url last_url : string) (pages : list (list A)) (bad : response (list A)) :
  page_chain get next_url pages last_url ->
  get last_url = Return bad ->
  is_success (status_code bad) = false ->
  forall (fuel : nat) (resp : response (list A)) (items : list A),
    (length pages < fuel)%nat ->
    links_next resp = Some next_url ->
    fetch_next_pages get fuel resp items
    = (items ++ concat pages, Raise (HTTPStatusError (status_code bad))).
Proof.
  intros Hchain Hbad Herr.
  induction Hchain as [url|url next last resp' pages Hget Hok Hnext Hchain IH];
    intros fuel resp items Hfuel Hlink.
  - destruct fuel as [|fuel]; [simpl in Hfuel; lia|].
    cbn [fetch_next_pages]. rewrite Hlink, Hbad, (raise_for_status_error _ Herr).
    by rewrite app_nil_r.
  - destruct fuel as [|fuel]; [simpl in Hfuel; lia|].
    cbn [fetch_next_pages]. rewrite Hlink, Hget, (raise_for_status_success _ Hok).
    rewrite (IH Hbad fuel resp' (items ++ json resp')); [|simpl in Hfuel; lia|done].
    by rewrite concat_cons, app_assoc.
Qed.

(** C4: if a page request of a paginated fetch, the first one included, is
    answered with an HTTP error status, the fetch stops paging and returns
    the items of the pages retrieved before it, and does not raise. *)
Theorem C4_partial_result_on_http_error {A : Type} (self : GitHubClient) (c : CacheClient)
    (endpoint : CacheClient -> string -> outcome (response (list A)))
    (url last_url : string) (pages : list (list A)) (bad : response (list A)) (fuel : nat) :
  client self = Some c ->
  page_chain (endpoint c) url pages last_url ->
  endpoint c last_url = Return bad ->
  is_success (status_code bad) = false ->
  (length pages <= fuel)%nat ->
  _get_paginated self endpoint fuel url = Return (concat pages).
Proof.
  intros Hclient Hchain Hbad Herr Hfuel. unfold _get_paginated. rewrite Hclient.
  unfold fetch_all_pages.
  destruct Hchain as [url|url next last resp pages Hget Hok Hnext Hchain].
  - by rewrite Hbad, (raise_for_status_error _ Herr).
  - rewrite Hget, (raise_for_status_success _ Hok).
    rewrite (fetch_next_pages_error _ _ _ _ _ Hchain Hbad Herr); [done| |done].
    simpl in Hfuel. lia.
Qed.

Lemma flaky_repos_chain :
  page_chain flaky_repos_endpoint repos_url
    [ [example_repo "octo/alpha" false 10; example_repo "octo/beta" true 40];
      [example_repo "octo/gamma" false 30; example_repo "octo/delta" false 20] ]
    "page-3".
Proof.
  eapply (page_chain_next _ repos_url "page-2" "page-3" (Response 200 _ _));
    [reflexivity..|].
  eapply (page_chain_next _ "page-2" "page-3" "page-3" (Response 200 _ _));
    [reflexivity..|].
  apply page_chain_here.
Defined.

Lemma C4_partial_result_witness :
  _get_paginated flaky_client http_get_repos 2 repos_url
  = Return [ example_repo "octo/alpha" false 10; example_repo "octo/beta" true 40;
             example_repo "octo/gamma" false 30; example_repo "octo/delta" false 20 ].
Proof.
  exact (C4_partial_result_on_http_error flaky_client _ http_get_repos repos_url "page-3"
           _ (Response 502 [] None) 2 eq_refl flaky_repos_chain eq_refl eq_refl
           (le_n 2)).
Defined.

(** An error status on the first request gives the empty result. *)
Example first_request_error :
  _get_paginated flaky_client http_get_repos 0 "page-3" = Return [].
Proof. reflexivity. Qed.

(** A request that cannot be carried out is not an HTTP status error: it
    propagates. *)
Example transport_error_propagates :
  _get_paginated flaky_client http_get_events 5 "events" = Raise TransportError.
Proof. reflexivity. Qed.

(** * The repository list *)

Lemma collect_repos_filter (repo_data : list repo_json) :
  collect_repos repo_data = repo_of_json <$> filter (fun item => archived item = false) repo_data.
Proof.
  unfold collect_repos.
  assert (Hgen : forall acc,
    foldl (fun repos item => if archived item then repos else repos ++ [repo_of_json item])
          acc repo_data
    = acc ++ (repo_of_json <$> filter (fun item => archived item = false) repo_data)).
  { induction repo_data as [|item l IH]; intros acc.
    - cbn [foldl]. by rewrite filter_nil, fmap_nil, app_nil_r.
    - cbn [foldl]. rewrite IH, filter_cons. destruct (archived item).
      + by rewrite decide_False by done.
      + rewrite decide_True by done. by rewrite fmap_cons, <- app_assoc. }
  apply (Hgen []).
Qed.

Lemma get_public_repos_inv (self : GitHubClient) (fuel : nat)
    (repos : list RepoInventoryItem.t) :
  get_public_repos self fuel = Return repos ->
  exists repo_data : list repo_json,
    _get_paginated self http_get_repos fuel
      (API_URL +:+ "/users/" +:+ username self +:+ "/repos?type=public&per_page=100")
    = Return repo_data
    /\ repos = sorted_reverse_by RepoInventoryItem.pushed_utc (collect_repos repo_data).
Proof.
  unfold get_public_repos. cbv zeta.
  destruct (_get_paginated self http_get_repos fuel _) as [repo_data| |];
    cbn [mbind outcome_bind]; try done.
  intros [= <-]. by exists repo_data.
Qed.

(** C5: every list that [get_public_repos] returns is made of the
    repositories of the fetched items that are not archived, and no others,
    ordered by push time, latest first. *)
Theorem C5_repos_unarchived_and_sorted (self : GitHubClient) (fuel : nat)
    (repos : list RepoInventoryItem.t) :
  get_public_repos self fuel = Return repos ->
  (exists repo_data : list repo_json,
      _get_paginated self http_get_repos fuel
        (API_URL +:+ "/users/" +:+ username self +:+ "/repos?type=public&per_page=100")
      = Return repo_data
      /\ repos ≡ₚ repo_of_json <$> filter (fun item => archived item = false) repo_data
      /\ forall repo, repo ∈ repos ->
           exists item, item ∈ repo_data /\ archived item = false /\ repo = repo_of_json item)
  /\ (forall (i j : nat) (ri rj : RepoInventoryItem.t),
        (i <= j)%nat -> repos !! i = Some ri -> repos !! j = Some rj ->
        RepoInventoryItem.pushed_utc rj <= RepoInventoryItem.pushed_utc ri).
Proof.
  intros Hget. apply get_public_repos_inv in Hget as (repo_data & Hdata & ->). split.
  - exists repo_data. split; [done|].
    assert (Hperm : sorted_reverse_by RepoInventoryItem.pushed_utc (collect_repos repo_data)
                    ≡ₚ repo_of_json <$> filter (fun item => archived item = false) repo_data).
    { by rewrite sorted_reverse_by_perm, collect_repos_filter. }
    split; [done|]. intros repo Hrepo. rewrite Hperm in Hrepo.
    apply list_elem_of_fmap in Hrepo as (item & -> & Hitem).
    apply list_elem_of_filter in Hitem as [Harch Hitem]. by exists item.
  - intros i j ri rj Hij Hi Hj.
    pose proof (sorted_reverse_by_sorted RepoInventoryItem.pushed_utc (collect_repos repo_data))
      as Hsorted.
    destruct (decide (i = j)) as [->|Hne].
    + rewrite Hi in Hj. injection Hj as ->. lia.
    + apply (StronglySorted_lookup _ _ i j ri rj Hsorted); [lia|done|done].
Qed.

Example flaky_client_repos :
  RepoInventoryItem.full <$> default [] (match get_public_repos flaky_client 2 with
                                         | Return repos => Some repos
                                         | _ => None
                                         end)
  = ["octo/gamma"; "octo/delta"; "octo/alpha"]%string.
Proof. vm_compute. reflexivity. Qed.

Lemma C5_repos_witness :
  exists repos,
    get_public_repos flaky_client 2 = Return repos
    /\ RepoInventoryItem.full <$> repos = ["octo/gamma"; "octo/delta"; "octo/alpha"]%string
    /\ (exists repo_data : list repo_json,
          _get_paginated flaky_client http_get_repos 2
            (API_URL +:+ "/users/" +:+ username flaky_client
             +:+ "/repos?type=public&per_page=100")
          = Return repo_data
          /\ repos ≡ₚ repo_of_json <$> filter (fun item => archived item = false) repo_data
          /\ forall repo, repo ∈ repos ->
               exists item, item ∈ repo_data /\ archived item = false
                            /\ repo = repo_of_json item)
    /\ (forall (i j : nat) (ri rj : RepoInventoryItem.t),
          (i <= j)%nat -> repos !! i = Some ri -> repos !! j = Some rj ->
          RepoInventoryItem.pushed_utc rj <= RepoInventoryItem.pushed_utc ri).
Proof.
  assert (Hrun : { repos | get_public_repos flaky_client 2 = Return repos
                           /\ RepoInventoryItem.full <$> repos
                              = ["octo/gamma"; "octo/delta"; "octo/alpha"]%string }).
  { eexists. vm_compute. split; reflexivity. }
  destruct Hrun as [repos [Hget Hnames]]. exists repos.
  split; [exact Hget|]. split; [exact Hnames|].
  exact (C5_repos_unarchived_and_sorted flaky_client 2 repos Hget).
Defined.

(** * The inventory *)

Lemma build_inventory_inv (client : GitHubClient) (username : string) (fuel : nat) (now : Z)
    (inv : Inventory.t) :
  build_inventory client username fuel now = Return inv ->
  exists repos : list RepoInventoryItem.t,
    get_public_repos client fuel = Return repos
    /\ Forall2 (fun repo repo' =>
                  (if decide (RepoInventoryItem.full repo ∈ hot_repo_names repos)
                   then fetch_details client repo else Return repo) = Return repo')
               repos (Inventory.repo inv).
Proof.
  unfold build_inventory.
  destruct (get_public_repos client fuel) as [repos| |]; cbn [mbind outcome_bind]; try done.
  destruct (for_each _ repos) as [repos'| |] eqn:Hfor; cbn [mbind outcome_bind]; try done.
  intros [= <-]. exists repos. split; [done|]. simpl. by apply for_each_Return in Hfor.
Qed.

Lemma fetch_details_Return (client : GitHubClient) (repo repo' : RepoInventoryItem.t) :
  fetch_details client repo = Return repo' ->
  exists readme changelog recent_files,
    get_file_content client (RepoInventoryItem.full repo) "README.md" = Return readme
    /\ get_file_content client (RepoInventoryItem.full repo) "CHANGELOG.md" = Return changelog
    /\ get_recent_file_changes client (RepoInventoryItem.full repo) = Return recent_files
    /\ repo' = set_details repo readme changelog recent_files.
Proof.
  unfold fetch_details.
  destruct (get_file_content client _ "README.md") as [readme| |];
    cbn [mbind outcome_bind]; try done.
  destruct (get_file_content client _ "CHANGELOG.md") as [changelog| |];
    cbn [mbind outcome_bind]; try done.
  destruct (get_recent_file_changes client _) as [recent_files| |];
    cbn [mbind outcome_bind]; try done.
  intros [= <-]. by exists readme, changelog, recent_files.
Qed.

(** Among repositories of distinct names, the hot ones are the first
    [HOT_REPO_COUNT]. *)
Lemma hot_repo_names_lookup (repos : list RepoInventoryItem.t) (i : nat)
    (repo : RepoInventoryItem.t) :
  NoDup (RepoInventoryItem.full <$> repos) ->
  repos !! i = Some repo ->
  RepoInventoryItem.full repo ∈ hot_repo_names repos <-> (i < HOT_REPO_COUNT)%nat.
Proof.
  intros Hnd Hi. unfold hot_repo_names. rewrite elem_of_list_to_set, list_elem_of_fmap. split.
  - intros (repo0 & Hfull & Hin). apply elem_of_take in Hin as (j & Hj & Hlt).
    assert (Hij : i = j).
    { eapply NoDup_lookup; [exact Hnd| |].
      - by rewrite list_lookup_fmap, Hi.
      - by rewrite list_lookup_fmap, Hj, Hfull. }
    by subst.
  - intros Hlt. exists repo. split; [done|]. apply elem_of_take. by exists i.
Qed.

Lemma hot_repo_names_size (repos : list RepoInventoryItem.t) :
  NoDup (RepoInventoryItem.full <$> repos) ->
  size (hot_repo_names repos) = Nat.min HOT_REPO_COUNT (length repos).
Proof.
  intros Hnd. unfold hot_repo_names. rewrite size_list_to_set.
  - by rewrite length_fmap, length_take.
  - rewrite fmap_take. exact (sublist_NoDup _ _ Hnd (sublist_take _ _)).
Qed.

(** What [get_public_repos] returns has no README, changelog or file list. *)
Lemma get_public_repos_bare (self : GitHubClient) (fuel : nat)
    (repos : list RepoInventoryItem.t) :
  get_public_repos self fuel = Return repos ->
  Forall (fun repo => RepoInventoryItem.readme repo = None
                      /\ RepoInventoryItem.changelog repo = None
                      /\ RepoInventoryItem.recent_files repo = None) repos.
Proof.
  intros Hget. apply get_public_repos_inv in Hget as (repo_data & _ & ->).
  rewrite Forall_forall. intros repo Hrepo.
  rewrite sorted_reverse_by_perm, collect_repos_filter in Hrepo.
  by apply list_elem_of_fmap in Hrepo as (item & -> & _).
Qed.

Lemma build_inventory_names (client : GitHubClient) (repos repos' : list RepoInventoryItem.t) :
  Forall2 (fun repo repo' =>
             (if decide (RepoInventoryItem.full repo ∈ hot_repo_names repos)
              then fetch_details client repo else Return repo) = Return repo')
          repos repos' ->
  RepoInventoryItem.full <$> repos' = RepoInventoryItem.full <$> repos.
Proof.
  generalize (hot_repo_names repos). intros hot.
  induction 1 as [|repo repo' l l' Hhead Htail IH]; [done|].
  rewrite !fmap_cons, IH. f_equal.
  destruct (decide (RepoInventoryItem.full repo ∈ hot)).
  - by apply fetch_details_Return in Hhead as (? & ? & ? & _ & _ & _ & ->).
  - by injection Hhead as ->.
Qed.

(** Hotness goes by name: a name is hot when one of the first
    [HOT_REPO_COUNT] entries bears it. *)
Lemma hot_repo_names_named_first (repos : list RepoInventoryItem.t) (name : string) :
  name ∈ hot_repo_names repos <-> named_first repos name.
Proof.
  unfold hot_repo_names, named_first. rewrite elem_of_list_to_set, list_elem_of_fmap. split.
  - intros (other & -> & Hin). apply elem_of_take in Hin as (j & Hj & Hlt). by exists j, other.
  - intros (j & other & Hlt & Hj & <-). exists other. split; [done|].
    apply elem_of_take. by exists j.
Qed.

Lemma size_list_to_set_le (names : list string) :
  (size (list_to_set names : gset string) <= length names)%nat.
Proof.
  induction names as [|name names IH]; [by rewrite list_to_set_nil, size_empty|].
  rewrite list_to_set_cons, size_union_alt, size_singleton. cbn [length].
  apply le_n_S. etrans; [|exact IH]. apply subseteq_size.
  intros x Hx. by apply elem_of_difference in Hx as [Hx _].
Qed.

(** C3, as the code has it: [build_inventory] marks the entries as hot by
    name.  An entry is hot exactly when one of the first [HOT_REPO_COUNT]
    entries bears its full name, so the first
    [min(HOT_REPO_COUNT, total)] entries are hot, and so is every later entry
    that repeats one of their names.  A hot entry carries what the fetches of
    [README.md], of [CHANGELOG.md] and of the recent files return for its
    name; every other entry stays as the client returned it, with none of
    the three.  With pairwise distinct names the hot entries are exactly the
    first [min(HOT_REPO_COUNT, total)] ones. *)
Theorem C3_hot_repos_by_name (client : GitHubClient) (username : string) (fuel : nat)
    (now : Z) (inv : Inventory.t) :
  build_inventory client username fuel now = Return inv ->
  exists repos : list RepoInventoryItem.t,
    get_public_repos client fuel = Return repos
    /\ length (Inventory.repo inv) = length repos
    /\ (size (hot_repo_names repos) <= Nat.min HOT_REPO_COUNT (length repos))%nat
    /\ (NoDup (RepoInventoryItem.full <$> repos) ->
        size (hot_repo_names repos) = Nat.min HOT_REPO_COUNT (length repos))
    /\ forall (i : nat) (repo repo' : RepoInventoryItem.t),
         repos !! i = Some repo ->
         Inventory.repo inv !! i = Some repo' ->
         (RepoInventoryItem.full repo ∈ hot_repo_names repos
          <-> named_first repos (RepoInventoryItem.full repo))
         /\ ((i < Nat.min HOT_REPO_COUNT (length repos))%nat ->
             named_first repos (RepoInventoryItem.full repo))
         /\ (NoDup (RepoInventoryItem.full <$> repos) ->
             named_first repos (RepoInventoryItem.full repo) ->
             (i < Nat.min HOT_REPO_COUNT (length repos))%nat)
         /\ (named_first repos (RepoInventoryItem.full repo) ->
             get_file_content client (RepoInventoryItem.full repo) "README.md"
             = Return (RepoInventoryItem.readme repo')
             /\ get_file_content client (RepoInventoryItem.full repo) "CHANGELOG.md"
                = Return (RepoInventoryItem.changelog repo')
             /\ get_recent_file_changes client (RepoInventoryItem.full repo)
                = Return (RepoInventoryItem.recent_files repo')
             /\ repo' = set_details repo (RepoInventoryItem.readme repo')
                                    (RepoInventoryItem.changelog repo')
                                    (RepoInventoryItem.recent_files repo'))
         /\ (~ named_first repos (RepoInventoryItem.full repo) ->
             repo' = repo
             /\ RepoInventoryItem.readme repo' = None
             /\ RepoInventoryItem.changelog repo' = None
             /\ RepoInventoryItem.recent_files repo' = None).
Proof.
  intros Hbuild.
  destruct (build_inventory_inv _ _ _ _ _ Hbuild) as (repos & Hget & Hall).
  exists repos. split_and!.
  - done.
  - symmetry. by eapply Forall2_length.
  - unfold hot_repo_names. etrans; [apply size_list_to_set_le|].
    by rewrite length_fmap, length_take.
  - apply hot_repo_names_size.
  - intros i repo repo' Hi Hi'.
    assert (Hlt : (i < length repos)%nat) by (by eapply lookup_lt_Some).
    pose proof (Forall2_lookup_lr _ _ _ _ _ _ Hall Hi Hi') as Hpair. simpl in Hpair.
    split_and!.
    + apply hot_repo_names_named_first.
    + intros Hfirst. exists i, repo. split_and!; [lia|done|done].
    + intros Hnd Hhot. apply hot_repo_names_named_first in Hhot.
      apply (hot_repo_names_lookup repos i repo Hnd Hi) in Hhot. lia.
    + intros Hhot. apply hot_repo_names_named_first in Hhot.
      rewrite decide_True in Hpair by done.
      apply fetch_details_Return in Hpair
        as (readme & changelog & recent_files & Hreadme & Hchangelog & Hfiles & ->).
      by cbn [set_details RepoInventoryItem.readme RepoInventoryItem.changelog
              RepoInventoryItem.recent_files RepoInventoryItem.full].
    + intros Hcold. rewrite decide_False in Hpair;
        [|by rewrite hot_repo_names_named_first].
      injection Hpair as <-. split; [done|].
      pose proof (get_public_repos_bare _ _ _ Hget) as Hbare.
      rewrite Forall_forall in Hbare. apply Hbare. by eapply list_elem_of_lookup_2.
Qed.

Example inventory_client_details :
  match build_inventory inventory_client "octo" 1 example_now with
  | Return inv =>
      (fun repo => (RepoInventoryItem.full repo, RepoInventoryItem.readme repo,
                    RepoInventoryItem.changelog repo, RepoInventoryItem.recent_files repo))
      <$> Inventory.repo inv
  | _ => []
  end
  = [ ("octo/gamma", Some "# gamma", None, Some ["README.md"; "src/main.py"]);
      ("octo/epsilon", None, None, Some ["README.md"; "src/main.py"]);
      ("octo/delta", None, None, Some ["README.md"; "src/main.py"]);
      ("octo/alpha", None, None, None) ]%string.
Proof. vm_compute. reflexivity. Qed.

Lemma C3_hot_repos_witness :
  exists inv,
    build_inventory inventory_client "octo" 1 example_now = Return inv
    /\ RepoInventoryItem.full <$> Inventory.repo inv
       = ["octo/gamma"; "octo/epsilon"; "octo/delta"; "octo/alpha"]%string
    /\ exists repos : list RepoInventoryItem.t,
        get_public_repos inventory_client 1 = Return repos
        /\ length (Inventory.repo inv) = length repos
        /\ (size (hot_repo_names repos) <= Nat.min HOT_REPO_COUNT (length repos))%nat
        /\ (NoDup (RepoInventoryItem.full <$> repos) ->
            size (hot_repo_names repos) = Nat.min HOT_REPO_COUNT (length repos))
        /\ forall (i : nat) (repo repo' : RepoInventoryItem.t),
             repos !! i = Some repo ->
             Inventory.repo inv !! i = Some repo' ->
             (RepoInventoryItem.full repo ∈ hot_repo_names repos
              <-> named_first repos (RepoInventoryItem.full repo))
             /\ ((i < Nat.min HOT_REPO_COUNT (length repos))%nat ->
                 named_first repos (RepoInventoryItem.full repo))
             /\ (NoDup (RepoInventoryItem.full <$> repos) ->
                 named_first repos (RepoInventoryItem.full repo) ->
                 (i < Nat.min HOT_REPO_COUNT (length repos))%nat)
             /\ (named_first repos (RepoInventoryItem.full repo) ->
                 get_file_content inventory_client (RepoInventoryItem.full repo) "README.md"
                 = Return (RepoInventoryItem.readme repo')
                 /\ get_file_content inventory_client (RepoInventoryItem.full repo)
                      "CHANGELOG.md"
                    = Return (RepoInventoryItem.changelog repo')
                 /\ get_recent_file_changes inventory_client (RepoInventoryItem.full repo)
                    = Return (RepoInventoryItem.recent_files repo')
                 /\ repo' = set_details repo (RepoInventoryItem.readme repo')
                                        (RepoInventoryItem.changelog repo')
                                        (RepoInventoryItem.recent_files repo'))
             /\ (~ named_first repos (RepoInventoryItem.full repo) ->
                 repo' = repo
                 /\ RepoInventoryItem.readme repo' = None
                 /\ RepoInventoryItem.changelog repo' = None
                 /\ RepoInventoryItem.recent_files repo' = None).
Proof.
  assert (Hrun : { inv | build_inventory inventory_client "octo" 1 example_now = Return inv
                         /\ RepoInventoryItem.full <$> Inventory.repo inv
                            = ["octo/gamma"; "octo/epsilon"; "octo/delta"; "octo/alpha"]%string }).
  { eexists. vm_compute. split; reflexivity. }
  destruct Hrun as [inv [Hbuild Hnames]].
  exists inv. split; [exact Hbuild|]. split; [exact Hnames|].
  exact (C3_hot_repos_by_name inventory_client "octo" 1 example_now inv Hbuild).
Defined.

(** A listing in which the fifth entry repeats the name of the first: it is
    past the first [HOT_REPO_COUNT] entries, and it gets the README all the
    same. *)
Lemma C3_repeated_name_is_hot :
  exists inv repos repo',
    build_inventory repeated_name_client "octo" 1 example_now = Return inv
    /\ get_public_repos repeated_name_client 1 = Return repos
    /\ length repos = 5%nat
    /\ Inventory.repo inv !! 4%nat = Some repo'
    /\ (Nat.min HOT_REPO_COUNT (length repos) <= 4)%nat
    /\ RepoInventoryItem.full repo' = "octo/alpha"%string
    /\ RepoInventoryItem.readme repo' = Some "# alpha"%string.
Proof.
  eexists. eexists. eexists.
  split; [vm_compute; reflexivity|]. split; [vm_compute; reflexivity|].
  split; [reflexivity|]. split; [reflexivity|]. split; [vm_compute; lia|].
  split; reflexivity.
Qed.

(** * The HTML wrapper *)






Example wrapper_written :
  (write_html_wrapper package_templates inventory_world "docs/inventory.toml").2 = Return tt
  /\ files (write_html_wrapper package_templates inventory_world "docs/inventory.toml").1
     !! "docs/inventory.toml.html"%string
     = Some ("<html><head><title>inventory.toml</title></head><body><pre>"
             +:+ "schema_version = 1" +:+ "</pre></body></html>")%string.
Proof. split; vm_compute; reflexivity. Qed.

(** * The regular expression of the TODO lines *)

Lemma span_len_le (p : ascii -> bool) (s : chars) : (span_len p s <= length s)%nat.
Proof. induction s as [|c s IH]; simpl; [done|]. destruct (p c); simpl; lia. Qed.

Lemma dropwhile_drop (p : ascii -> bool) (s : chars) : dropwhile p s = drop (span_len p s) s.
Proof. induction s as [|c s IH]; simpl; [done|]. by destruct (p c). Qed.

Lemma dropwhile_head (p : ascii -> bool) (s : chars) (c : ascii) (rest : chars) :
  dropwhile p s = c :: rest -> p c = false.
Proof.
  induction s as [|a s IH]; simpl; [done|].
  destruct (p a) eqn:Hpa; [done|]. by intros [= <- _].
Qed.

Section Star.
Context {R : Type} (p : ascii -> bool) (k : cont R).

(** The greedy iteration takes all the leading characters of the class; if
    what follows the expression matches there, that is the match. *)
Lemma star_cls_greedy (n pos : nat) (s : chars) (x : R) :
  (length s <= n)%nat ->
  k (pos + span_len p s)%nat (dropwhile p s) = Some x ->
  star_loop (rmatch (Cls p)) k n pos s = Some x.
Proof.
  revert n pos. induction s as [|c s IH]; intros n pos Hn Hk.
  - simpl in Hk. rewrite Nat.add_0_r in Hk. destruct n; simpl; by rewrite ?Hk.
  - destruct n as [|n]; [simpl in Hn; lia|]. simpl in *.
    destruct (p c) eqn:Hpc.
    + destruct (Nat.ltb_spec pos (S pos)); [|lia].
      rewrite (IH n (S pos)); [done|lia|]. by rewrite <- Nat.add_succ_comm in Hk.
    + by rewrite Nat.add_0_r in Hk; rewrite Hk.
Qed.

(** If what follows matches neither after all the leading characters of the
    class nor before any of them, the expression does not match. *)
Lemma star_cls_fail (n pos : nat) (s : chars) :
  (forall pos' c s', p c = true -> k pos' (c :: s') = None) ->
  (forall pos', k pos' (dropwhile p s) = None) ->
  star_loop (rmatch (Cls p)) k n pos s = None.
Proof.
  intros Hback. revert n pos. induction s as [|c s IH]; intros n pos Hk.
  - destruct n; simpl; by rewrite Hk.
  - destruct n as [|n]; simpl in *.
    + destruct (p c) eqn:Hpc; [by apply Hback|apply Hk].
    + destruct (p c) eqn:Hpc.
      * destruct (Nat.ltb_spec pos (S pos)); [|lia].
        rewrite (IH n (S pos) Hk). by apply Hback.
      * apply Hk.
Qed.
End Star.

Lemma rmatch_spaces (pos : nat) (s : chars) :
  rmatch (Star (Cls isspace)) pos s at_end = Some (pos + span_len isspace s)%nat.
Proof. cbn [rmatch]. by apply star_cls_greedy. Qed.

(** The optional checkbox and the whitespace after it. *)
Lemma rmatch_checkbox_spaces (pos : nat) (s : chars) :
  checkbox_then_end pos s
  = Some (pos + checkbox_len s + span_len isspace (strip_checkbox s))%nat.
Proof.
  assert (Hnone : spaces_then_end pos s
                  = Some (pos + 0 + span_len isspace (drop 0 s))%nat).
  { unfold spaces_then_end. by rewrite rmatch_spaces, Nat.add_0_r. }
  unfold checkbox_then_end, strip_checkbox, checkbox_len.
  destruct s as [|a [|b [|c s]]]; cbn [rmatch];
    try (destruct (is_char _ _); exact Hnone); try exact Hnone.
  - destruct (is_char "[" a); [|exact Hnone]. by destruct (one_of _ b).
  - assert (Hcheck : one_of [" "; "x"; "X"]%char b = is_check b).
    { unfold one_of, is_check. apply bool_decide_ext.
      rewrite !elem_of_cons, elem_of_nil. tauto. }
    unfold is_char in *. rewrite Hcheck.
    destruct (bool_decide (a = "["%char)); [|exact Hnone]. simpl.
    destruct (is_check b); [|exact Hnone]. simpl.
    destruct (bool_decide (c = "]"%char)); [|exact Hnone].
    unfold spaces_then_end. rewrite rmatch_spaces. simpl. rewrite drop_0. f_equal. lia.
Qed.

Lemma item_len_drop (s : chars) : drop (item_len s) s = lstrip (strip_checkbox (lstrip s)).
Proof.
  unfold item_len, lstrip, strip_checkbox. rewrite !dropwhile_drop, !drop_drop. done.
Qed.

Lemma rmatch_item (pos : nat) (s : chars) :
  item_then_end pos s = Some (pos + item_len s)%nat.
Proof.
  unfold item_then_end, item_len. cbn [rmatch]. apply star_cls_greedy; [done|].
  rewrite rmatch_checkbox_spaces. unfold lstrip. f_equal. lia.
Qed.

Lemma one_of_bullet (c : ascii) : one_of ["-"; "*"]%char c = is_bullet c.
Proof.
  unfold one_of, is_bullet. apply bool_decide_ext. rewrite !elem_of_cons, elem_of_nil. tauto.
Qed.

Lemma bullet_not_space (c : ascii) : isspace c = true -> is_bullet c = false.
Proof.
  intros Hspace. unfold is_bullet. apply bool_decide_eq_false. intros [->| ->]; discriminate.
Qed.

Lemma rmatch_bullet (pos : nat) (s : chars) :
  bullet_then_end pos s
  = match s with
    | c :: item => if is_bullet c then Some (S pos + item_len item)%nat else None
    | [] => None
    end.
Proof.
  unfold bullet_then_end. cbn [rmatch]. destruct s as [|c item]; [done|].
  rewrite one_of_bullet. destruct (is_bullet c); [|done]. apply rmatch_item.
Qed.

(** At the start of the line the expression matches a list marker. *)
Lemma match_end_todo_prefix_start (s : chars) :
  match_end todo_prefix 0 s
  = match lstrip s with
    | c :: item =>
        if is_bullet c then Some (span_len isspace s + 1 + item_len item)%nat else None
    | [] => None
    end.
Proof.
  change (match_end todo_prefix 0 s)
    with (star_loop (rmatch (Cls isspace)) bullet_then_end (length s) 0 s).
  assert (Hback : forall pos' c s', isspace c = true -> bullet_then_end pos' (c :: s') = None).
  { intros pos' c s' Hc. rewrite rmatch_bullet. by rewrite (bullet_not_space c Hc). }
  unfold lstrip. destruct (dropwhile isspace s) as [|c item] eqn:Hs.
  - apply star_cls_fail; [done|]. intros pos'. by rewrite Hs, rmatch_bullet.
  - destruct (is_bullet c) eqn:Hc.
    + apply star_cls_greedy; [done|]. rewrite Hs, rmatch_bullet, Hc. f_equal. lia.
    + apply star_cls_fail; [done|]. intros pos'. by rewrite Hs, rmatch_bullet, Hc.
Qed.

(** Past the start of the line it does not match. *)
Lemma match_end_todo_prefix_later (pos : nat) (s : chars) :
  (1 <= pos)%nat -> match_end todo_prefix pos s = None.
Proof.
  intros Hpos. unfold match_end, todo_prefix. cbn [rmatch].
  destruct pos; [lia|done].
Qed.

(** Where the expression cannot match any more, the text is copied. *)
Lemma sub_from_copy (r : regex) (repl : chars) :
  (forall pos s, (1 <= pos)%nat -> match_end r pos s = None) ->
  forall (s : chars) (pos skip : nat),
    (1 <= pos)%nat -> sub_from r repl pos skip s = drop skip s.
Proof.
  intros Hnone. induction s as [|c s IH]; intros pos skip Hpos.
  - destruct skip; simpl; [by rewrite Hnone|done].
  - destruct skip as [|skip]; simpl.
    + rewrite Hnone by done. rewrite IH by lia. by rewrite drop_0.
    + apply IH. lia.
Qed.

(** The substitution removes the list marker of a list item and leaves any
    other line as it is. *)
Lemma re_sub_todo_prefix (s : chars) : re_sub todo_prefix [] s = strip_list_marker s.
Proof.
  unfold re_sub, strip_list_marker.
  pose proof (sub_from_copy todo_prefix [] match_end_todo_prefix_later) as Hcopy.
  destruct s as [|a s].
  - cbn [sub_from]. by rewrite match_end_todo_prefix_start.
  - cbn [sub_from]. rewrite match_end_todo_prefix_start.
    destruct (lstrip (a :: s)) as [|c item] eqn:Hs.
    + rewrite Hcopy by lia. by rewrite drop_0.
    + destruct (is_bullet c) eqn:Hc.
      * rewrite app_nil_l.
        destruct (Nat.eqb_spec (span_len isspace (a :: s) + 1 + item_len item) 0); [lia|].
        rewrite Hcopy by lia. rewrite <- item_len_drop.
        assert (Hitem : item = drop (span_len isspace (a :: s) + 1) (a :: s)).
        { rewrite <- drop_drop. unfold lstrip in Hs. rewrite dropwhile_drop in Hs.
          by rewrite Hs. }
        transitivity (drop (item_len item) (drop (span_len isspace (a :: s) + 1) (a :: s)));
          [|by rewrite <- Hitem].
        rewrite drop_drop.
        replace (span_len isspace (a :: s) + 1 + item_len item - 0 - 1)%nat
          with (span_len isspace (a :: s) + item_len item)%nat by lia.
        replace (span_len isspace (a :: s) + 1 + item_len item)%nat
          with (S (span_len isspace (a :: s) + item_len item)) by lia.
        done.
      * rewrite Hcopy by lia. by rewrite drop_0.
Qed.

Lemma strip_head (s : chars) (c : ascii) (rest : chars) :
  strip s = c :: rest -> isspace c = false.
Proof.
  unfold strip, rstrip. set (t := lstrip s).
  rewrite dropwhile_drop, reverse_drop, reverse_involutive, length_reverse.
  intros Htake.
  assert (Ht : head t = Some c).
  { destruct t as [|a t']; [by rewrite take_nil in Htake|].
    destruct (length (a :: t') - span_len isspace (reverse (a :: t')))%nat; [done|].
    simpl in Htake. by injection Htake as -> _. }
  unfold t, lstrip in Ht. destruct (dropwhile isspace s) as [|a t'] eqn:Hd; [done|].
  injection Ht as ->. by eapply dropwhile_head.
Qed.

Lemma strip_last (s : chars) (c : ascii) : last (strip s) = Some c -> isspace c = false.
Proof.
  unfold strip, rstrip. rewrite last_reverse.
  destruct (dropwhile isspace (reverse (lstrip s))) as [|a t] eqn:Hd; [done|].
  intros [= ->]. by eapply dropwhile_head.
Qed.

(** * TODO lines *)

Lemma normalize_todo_line_spec (line : string) :
  _normalize_todo_line line = spec_normalize_todo_line line.
Proof.
  unfold _normalize_todo_line, spec_normalize_todo_line, normalize_chars.
  by rewrite re_sub_todo_prefix.
Qed.

(** The loop keeps the normalized lines that are not empty, in their order. *)
Lemma parse_todos_filter (content : string) :
  _parse_todos_from_content content
  = filter (fun todo => todo <> ""%string) (_normalize_todo_line <$> str_splitlines content).
Proof.
  unfold _parse_todos_from_content. generalize (str_splitlines content). intros lines.
  assert (Hgen : forall todos,
    foldl (fun todos line =>
             let normalized := _normalize_todo_line line in
             if decide (normalized = ""%string) then todos else todos ++ [normalized])
          todos lines
    = todos ++ filter (fun todo => todo <> ""%string) (_normalize_todo_line <$> lines)).
  { induction lines as [|line lines IH]; intros todos.
    - cbn [foldl]. by rewrite fmap_nil, filter_nil, app_nil_r.
    - cbn [foldl]. cbv zeta. rewrite IH, fmap_cons, filter_cons.
      destruct (decide (_normalize_todo_line line = ""%string)) as [Heq|Hne].
      + by rewrite decide_False by (by intros ?).
      + rewrite decide_True by done. by rewrite <- app_assoc. }
  apply (Hgen []).
Qed.

(** C8: TODO normalization strips the leading list marker with its checkbox
    and the surrounding whitespace of every line, and a line that is empty
    after that is dropped; [- [ ] Fix bug] gives [Fix bug] and
    [* [x]   Done thing  ] gives [Done thing]. *)
Theorem C8_todo_normalization :
  (forall line, _normalize_todo_line line = spec_normalize_todo_line line)
  /\ (forall line c rest,
        list_ascii_of_string (_normalize_todo_line line) = c :: rest -> isspace c = false)
  /\ (forall line c,
        last (list_ascii_of_string (_normalize_todo_line line)) = Some c -> isspace c = false)
  /\ (forall content, _parse_todos_from_content content = spec_parse_todos content)
  /\ (forall content, ""%string ∉ _parse_todos_from_content content)
  /\ _normalize_todo_line "- [ ] Fix bug" = "Fix bug"%string
  /\ _normalize_todo_line "* [x]   Done thing  " = "Done thing"%string
  /\ _parse_todos_from_content ("- [ ] Fix bug" +:+ LF +:+ "  - [ ]  " +:+ LF
                                +:+ "* [x]   Done thing  " +:+ LF)
     = ["Fix bug"; "Done thing"]%string.
Proof.
  split_and!.
  - apply normalize_todo_line_spec.
  - intros line c rest. unfold _normalize_todo_line, normalize_chars.
    rewrite list_ascii_of_string_of_list_ascii. apply strip_head.
  - intros line c. unfold _normalize_todo_line, normalize_chars.
    rewrite list_ascii_of_string_of_list_ascii. apply strip_last.
  - intros content. rewrite parse_todos_filter. unfold spec_parse_todos.
    f_equal. apply list_fmap_ext. intros i line _. apply normalize_todo_line_spec.
  - intros content. rewrite parse_todos_filter, list_elem_of_filter. by intros [Hne _].
  - vm_compute. reflexivity.
  - vm_compute. reflexivity.
  - vm_compute. reflexivity.
Qed.

(** A line that is no list item keeps its text. *)
Example plain_line_kept :
  _normalize_todo_line "  Write the docs " = "Write the docs"%string
  /\ _normalize_todo_line "[ ] no bullet" = "[ ] no bullet"%string
  /\ _normalize_todo_line "1. numbered" = "1. numbered"%string.
Proof. split_and!; vm_compute; reflexivity. Qed.

(** * More on the client *)

Lemma fetch_next_pages_done {A : Type} (get : string -> outcome (response (list A)))
    (next_url last_url : string) (pages : list (list A)) (final : response (list A)) :
  page_chain get next_url pages last_url ->
  get last_url = Return final ->
  is_success (status_code final) = true ->
  links_next final = None ->
  forall (fuel : nat) (resp : response (list A)) (items : list A),
    (length pages < fuel)%nat ->
    links_next resp = Some next_url ->
    fetch_next_pages get fuel resp items = (items ++ concat pages ++ json final, Return tt).
Proof.
  intros Hchain Hlast Hok Hend.
  induction Hchain as [url|url next last resp' pages Hget Hok' Hnext Hchain IH];
    intros fuel resp items Hfuel Hlink.
  - destruct fuel as [|fuel]; [simpl in Hfuel; lia|].
    cbn [fetch_next_pages]. rewrite Hlink, Hlast, (raise_for_status_success _ Hok).
    destruct fuel; cbn [fetch_next_pages]; by rewrite Hend.
  - destruct fuel as [|fuel]; [simpl in Hfuel; lia|].
    cbn [fetch_next_pages]. rewrite Hlink, Hget, (raise_for_status_success _ Hok').
    rewrite (IH Hlast fuel resp' (items ++ json resp')); [|simpl in Hfuel; lia|done].
    by rewrite concat_cons, <- !app_assoc.
Qed.

(** X1: when every page request succeeds and the last page carries no
    further link, the paginated fetch returns the items of all the pages, in
    the order of the pages. *)
Theorem get_paginated_all_pages {A : Type} (self : GitHubClient) (c : CacheClient)
    (endpoint : CacheClient -> string -> outcome (response (list A)))
    (url last_url : string) (pages : list (list A)) (final : response (list A)) (fuel : nat) :
  client self = Some c ->
  page_chain (endpoint c) url pages last_url ->
  endpoint c last_url = Return final ->
  is_success (status_code final) = true ->
  links_next final = None ->
  (length pages <= fuel)%nat ->
  _get_paginated self endpoint fuel url = Return (concat pages ++ json final).
Proof.
  intros Hclient Hchain Hlast Hok Hend Hfuel. unfold _get_paginated. rewrite Hclient.
  unfold fetch_all_pages.
  destruct Hchain as [url|url next last resp pages Hget Hok' Hnext Hchain].
  - rewrite Hlast, (raise_for_status_success _ Hok).
    destruct fuel; cbn [fetch_next_pages]; by rewrite Hend.
  - rewrite Hget, (raise_for_status_success _ Hok').
    rewrite (fetch_next_pages_done _ _ _ _ _ Hchain Hlast Hok Hend); [|simpl in Hfuel; lia|done].
    simpl. by rewrite app_assoc.
Qed.

Lemma two_page_chain :
  page_chain two_page_repos_endpoint repos_url
    [ [example_repo "octo/alpha" false 30; example_repo "octo/beta" false 30] ] "page-2".
Proof.
  eapply (page_chain_next _ repos_url "page-2" "page-2" (Response 200 _ _));
    [reflexivity..|].
  apply page_chain_here.
Defined.

Lemma get_paginated_all_pages_witness :
  _get_paginated two_page_client http_get_repos 1 repos_url
  = Return [ example_repo "octo/alpha" false 30; example_repo "octo/beta" false 30;
             example_repo "octo/gamma" false 50; example_repo "octo/delta" false 30 ].
Proof.
  exact (get_paginated_all_pages two_page_client _ http_get_repos repos_url "page-2" _
           (Response 200 [example_repo "octo/gamma" false 50;
                          example_repo "octo/delta" false 30] None)
           1 eq_refl two_page_chain eq_refl eq_refl eq_refl (le_n 1)).
Defined.

Lemma fetch_next_pages_raise {A : Type} (get : string -> outcome (response (list A)))
    (next_url last_url : string) (pages : list (list A)) (e : exn) :
  page_chain get next_url pages last_url ->
  get last_url = Raise e ->
  forall (fuel : nat) (resp : response (list A)) (items : list A),
    (length pages < fuel)%nat ->
    links_next resp = Some next_url ->
    fetch_next_pages get fuel resp items = (items ++ concat pages, Raise e).
Proof.
  intros Hchain Hlast.
  induction Hchain as [url|url next last resp' pages Hget Hok' Hnext Hchain IH];
    intros fuel resp items Hfuel Hlink.
  - destruct fuel as [|fuel]; [simpl in Hfuel; lia|].
    cbn [fetch_next_pages]. rewrite Hlink, Hlast. by rewrite app_nil_r.
  - destruct fuel as [|fuel]; [simpl in Hfuel; lia|].
    cbn [fetch_next_pages]. rewrite Hlink, Hget, (raise_for_status_success _ Hok').
    rewrite (IH Hlast fuel resp' (items ++ json resp')); [|simpl in Hfuel; lia|done].
    by rewrite concat_cons, app_assoc.
Qed.

(** X2: a page request that raises anything but an HTTP status error makes
    the paginated fetch raise it, and the items of the pages retrieved before
    are lost. *)
Theorem get_paginated_other_error_propagates {A : Type} (self : GitHubClient)
    (c : CacheClient) (endpoint : CacheClient -> string -> outcome (response (list A)))
    (url last_url : string) (pages : list (list A)) (e : exn) (fuel : nat) :
  client self = Some c ->
  page_chain (endpoint c) url pages last_url ->
  endpoint c last_url = Raise e ->
  (forall status, e <> HTTPStatusError status) ->
  (length pages <= fuel)%nat ->
  _get_paginated self endpoint fuel url = Raise e.
Proof.
  intros Hclient Hchain Hlast Hne Hfuel. unfold _get_paginated. rewrite Hclient.
  unfold fetch_all_pages.
  destruct Hchain as [url|url next last resp pages Hget Hok' Hnext Hchain].
  - rewrite Hlast. destruct e; try done. by destruct (Hne status).
  - rewrite Hget, (raise_for_status_success _ Hok').
    rewrite (fetch_next_pages_raise _ _ _ _ _ Hchain Hlast); [|simpl in Hfuel; lia|done].
    destruct e; try done. by destruct (Hne status).
Qed.

Lemma broken_link_chain :
  page_chain broken_link_endpoint repos_url [ [example_repo "octo/alpha" false 30] ] "page-2".
Proof.
  eapply (page_chain_next _ repos_url "page-2" "page-2" (Response 200 _ _));
    [reflexivity..|].
  apply page_chain_here.
Defined.

Lemma get_paginated_other_error_witness :
  _get_paginated broken_link_client http_get_repos 1 repos_url = Raise TransportError.
Proof.
  refine (get_paginated_other_error_propagates broken_link_client _ http_get_repos repos_url
            "page-2" _ TransportError 1 eq_refl broken_link_chain eq_refl _ (le_n 1)).
  intros status. discriminate.
Defined.

(** Once the client is closed, each of its fetches raises [RuntimeError],
    and so do the builds that start with a fetch; closing again changes
    nothing. *)
Theorem closed_client_raises (self : GitHubClient) (fuel : nat) (repo file_path name : string)
    (now : Z) :
  get_public_repos (close self) fuel = Raise RuntimeError
  /\ get_public_events (close self) fuel = Raise RuntimeError
  /\ get_file_content (close self) repo file_path = Raise RuntimeError
  /\ get_recent_file_changes (close self) repo = Raise RuntimeError
  /\ build_inventory (close self) name fuel now = Raise RuntimeError
  /\ close (close self) = close self.
Proof. by split_and!. Qed.

Lemma none_on_http_error_never {A : Type} (m : outcome (option A)) (status : Z) :
  none_on_http_error m <> Raise (HTTPStatusError status).
Proof. destruct m as [?|[]|]; done. Qed.

(** X4: [get_file_content] answers a response by its status: 404 is an absent
    file, a success is the text of the file, and any other status is an
    absent file as well; an HTTP status error never leaves the function. *)
Theorem get_file_content_by_status (self : GitHubClient) (repo_full_name file_path : string) :
  (forall (c : CacheClient) (resp : response string),
      client self = Some c ->
      http_get_raw c (API_URL +:+ "/repos/" +:+ repo_full_name +:+ "/contents/" +:+ file_path)
      = Return resp ->
      get_file_content self repo_full_name file_path
      = Return (if status_code resp =? 404 then None
                else if is_success (status_code resp) then Some (json resp) else None))
  /\ (forall status,
        get_file_content self repo_full_name file_path <> Raise (HTTPStatusError status)).
Proof.
  split.
  - intros c resp Hclient Hget. unfold get_file_content. rewrite Hclient. cbv zeta.
    rewrite Hget. cbn [mbind outcome_bind].
    destruct (status_code resp =? 404); [done|].
    unfold raise_for_status. by destruct (is_success (status_code resp)).
  - intros status. unfold get_file_content. destruct (client self); [|done].
    apply none_on_http_error_never.
Qed.

Lemma get_file_content_witness :
  get_file_content inventory_client "octo/gamma" "README.md" = Return (Some "# gamma"%string)
  /\ get_file_content inventory_client "octo/gamma" "CHANGELOG.md" = Return None.
Proof.
  split.
  - exact (proj1 (get_file_content_by_status inventory_client "octo/gamma" "README.md")
             _ (Response 200 "# gamma"%string None) eq_refl eq_refl).
  - exact (proj1 (get_file_content_by_status inventory_client "octo/gamma" "CHANGELOG.md")
             _ (Response 404 ""%string None) eq_refl eq_refl).
Defined.

(** X5: [get_recent_file_changes] lists the paths of the blobs of the tree of
    the first commit, in the order of the tree; an error status of either
    request, or an empty list of commits, gives no list, not an error. *)
Theorem get_recent_file_changes_blobs (self : GitHubClient) (c : CacheClient)
    (repo_full_name : string) (resp : response (list string)) :
  client self = Some c ->
  http_get_commits c (API_URL +:+ "/repos/" +:+ repo_full_name +:+ "/commits") = Return resp ->
  (is_success (status_code resp) = false ->
   get_recent_file_changes self repo_full_name = Return None)
  /\ (is_success (status_code resp) = true -> json resp = [] ->
      get_recent_file_changes self repo_full_name = Return None)
  /\ (forall (commit_sha : string) (others : list string) (tree_response : response tree_json),
        is_success (status_code resp) = true ->
        json resp = commit_sha :: others ->
        http_get_tree c (API_URL +:+ "/repos/" +:+ repo_full_name +:+ "/git/trees/"
                         +:+ commit_sha +:+ "?recursive=1") = Return tree_response ->
        get_recent_file_changes self repo_full_name
        = Return (if is_success (status_code tree_response)
                  then Some (path <$> filter (fun item => entry_type item = Some "blob"%string)
                                             (default [] (tree (json tree_response))))
                  else None)).
Proof.
  intros Hclient Hget. unfold get_recent_file_changes. rewrite Hclient. cbv zeta.
  rewrite Hget. cbn [mbind outcome_bind]. split_and!.
  - intros Herr. by rewrite (raise_for_status_error _ Herr).
  - intros Hok Hnil. rewrite (raise_for_status_success _ Hok). cbn [mbind outcome_bind].
    by rewrite Hnil.
  - intros commit_sha others tree_response Hok Hsha Htree.
    rewrite (raise_for_status_success _ Hok). cbn [mbind outcome_bind]. rewrite Hsha.
    cbn [mbind outcome_bind]. rewrite Htree. cbn [mbind outcome_bind].
    unfold raise_for_status. by destruct (is_success (status_code tree_response)).
Qed.

Lemma get_recent_file_changes_witness :
  get_recent_file_changes inventory_client "octo/gamma"
  = Return (Some ["README.md"; "src/main.py"]%string).
Proof.
  exact (proj2 (proj2 (get_recent_file_changes_blobs inventory_client _ "octo/gamma"
                         (Response 200 ["0a1b2c3d4e5f"%string] None) eq_refl eq_refl))
           "0a1b2c3d4e5f"%string [] (Response 200 _ None) eq_refl eq_refl eq_refl).
Defined.

(** * Stability of [sorted] *)

Lemma insert_sorted_filter_key {A : Type} (key : A -> Z) (t : Z) (x : A) (l : list A) :
  filter (fun r => key r = t) (insert_sorted (fun x y => key y <=? key x) x l)
  = filter (fun r => key r = t) (x :: l).
Proof.
  induction l as [|y l IH]; [done|]. cbn [insert_sorted].
  destruct (Z.leb_spec (key y) (key x)) as [Hle|Hlt]; [done|].
  rewrite !filter_cons, IH, !filter_cons.
  destruct (decide (key y = t)) as [Hy|Hy]; destruct (decide (key x = t)) as [Hx|Hx];
    try done; lia.
Qed.

(** Entries of equal key keep their order. *)
Lemma sorted_reverse_by_stable {A : Type} (key : A -> Z) (t : Z) (l : list A) :
  filter (fun r => key r = t) (sorted_reverse_by key l) = filter (fun r => key r = t) l.
Proof.
  unfold sorted_reverse_by, sorted. induction l as [|x l IH]; [done|].
  cbn [foldr]. by rewrite insert_sorted_filter_key, !filter_cons, IH.
Qed.

(** X6: in the list that [get_public_repos] returns, repositories pushed at
    the same instant keep the order in which the API listed them. *)
Theorem get_public_repos_stable (self : GitHubClient) (fuel : nat)
    (repos : list RepoInventoryItem.t) :
  get_public_repos self fuel = Return repos ->
  exists repo_data : list repo_json,
    _get_paginated self http_get_repos fuel
      (API_URL +:+ "/users/" +:+ username self +:+ "/repos?type=public&per_page=100")
    = Return repo_data
    /\ forall t : Z,
         filter (fun repo => RepoInventoryItem.pushed_utc repo = t) repos
         = repo_of_json
           <$> filter (fun item => pushed_at item = t)
                      (filter (fun item => archived item = false) repo_data).
Proof.
  intros Hget. apply get_public_repos_inv in Hget as (repo_data & Hdata & ->).
  exists repo_data. split; [done|]. intros t.
  rewrite sorted_reverse_by_stable, collect_repos_filter.
  generalize (filter (fun item => archived item = false) repo_data). intros items.
  induction items as [|item items IH]; [done|].
  rewrite fmap_cons, !filter_cons. simpl.
  destruct (decide (pushed_at item = t)); by rewrite IH.
Qed.

Lemma get_public_repos_stable_witness :
  exists repos,
    get_public_repos two_page_client 1 = Return repos
    /\ RepoInventoryItem.full <$> repos
       = ["octo/gamma"; "octo/alpha"; "octo/beta"; "octo/delta"]%string
    /\ exists repo_data : list repo_json,
        _get_paginated two_page_client http_get_repos 1
          (API_URL +:+ "/users/" +:+ username two_page_client
           +:+ "/repos?type=public&per_page=100")
        = Return repo_data
        /\ forall t : Z,
             filter (fun repo => RepoInventoryItem.pushed_utc repo = t) repos
             = repo_of_json
               <$> filter (fun item => pushed_at item = t)
                          (filter (fun item => archived item = false) repo_data).
Proof.
  assert (Hrun : { repos | get_public_repos two_page_client 1 = Return repos
                           /\ RepoInventoryItem.full <$> repos
                              = ["octo/gamma"; "octo/alpha"; "octo/beta"; "octo/delta"]%string }).
  { eexists. vm_compute. split; reflexivity. }
  destruct Hrun as [repos [Hget Hnames]]. exists repos.
  split; [exact Hget|]. split; [exact Hnames|].
  exact (get_public_repos_stable two_page_client 1 repos Hget).
Defined.

(** * The display records *)

Lemma activity_event_display (event : event_json) :
  activity_event event
  = split_owner_name (event_repo_name event) ≫= λ '(repo_owner, repo_name_short),
    event_display event ≫= λ '(title, commits, url),
    Return {| ActivityEvent.type := event_type event;
              ActivityEvent.repo_owner := repo_owner;
              ActivityEvent.repo_name := repo_name_short;
              ActivityEvent.at_utc := created_at event;
              ActivityEvent.url := url;
              ActivityEvent.title := title;
              ActivityEvent.commits := commits;
              ActivityEvent.event_id := event_json_id event |}.
Proof. reflexivity. Qed.

Lemma activity_event_inv (event : event_json) (ev : ActivityEvent.t) :
  activity_event event = Return ev ->
  split_owner_name (event_repo_name event)
  = Return (ActivityEvent.repo_owner ev, ActivityEvent.repo_name ev)
  /\ event_display event
     = Return (ActivityEvent.title ev, ActivityEvent.commits ev, ActivityEvent.url ev)
  /\ ActivityEvent.type ev = event_type event
  /\ ActivityEvent.at_utc ev = created_at event
  /\ ActivityEvent.event_id ev = event_json_id event.
Proof.
  rewrite activity_event_display.
  destruct (split_owner_name (event_repo_name event)) as [[owner short]| |];
    cbn [mbind outcome_bind]; try done.
  destruct (event_display event) as [[[title commits] url]| |];
    cbn [mbind outcome_bind]; try done.
  by intros [= <-].
Qed.

Lemma splitlines_from_nil_iff (cur s : chars) :
  splitlines_from cur s = [] <-> cur = [] /\ s = [].
Proof.
  revert cur. induction s as [|c s IH]; intros cur.
  - simpl. destruct cur; split; try done. by intros [? _].
  - cbn [splitlines_from]. split; [|by intros [_ ?]].
    destruct (islinebreak c).
    + destruct s as [|c' s']; [done|]. by destruct (_ && _).
    + intros H. apply IH in H as [H _]. by destruct cur.
Qed.

(** A text has a first line exactly when it is not empty. *)
Lemma str_splitlines_nil_iff (s : string) : str_splitlines s = [] <-> s = ""%string.
Proof.
  unfold str_splitlines, splitlines. split.
  - intros H%fmap_nil_inv. apply splitlines_from_nil_iff in H as [_ H].
    apply (f_equal string_of_list_ascii) in H.
    by rewrite string_of_list_ascii_of_string in H.
  - by intros ->.
Qed.

Lemma commit_line_Return_iff (c : commit_json) :
  (exists line, commit_line c = Return line) <-> message c <> ""%string.
Proof.
  unfold commit_line. rewrite <- str_splitlines_nil_iff.
  destruct (str_splitlines (message c)); split; try done; eauto. by intros [? ?].
Qed.

Lemma commit_line_outcome (c : commit_json) :
  (exists line, commit_line c = Return line) \/ commit_line c = Raise IndexError.
Proof. unfold commit_line. destruct (str_splitlines (message c)); eauto. Qed.

Lemma for_each_Return_iff {A B : Type} (f : A -> outcome B) (l : list A) :
  (exists ys, for_each f l = Return ys) <-> Forall (fun x => exists y, f x = Return y) l.
Proof.
  induction l as [|x l IH]; cbn [for_each].
  - split; [constructor|by eexists].
  - rewrite Forall_cons, <- IH. split.
    + intros [ys Hys]. destruct (f x) as [y| |]; cbn [mbind outcome_bind] in Hys; try done.
      destruct (for_each f l) as [ys'| |]; cbn [mbind outcome_bind] in Hys; try done.
      split; by eexists.
    + intros [[y ->] [ys ->]]. by eexists.
Qed.

(** The first exception of the loop is the only one it can raise. *)
Lemma for_each_raises_only {A B : Type} (f : A -> outcome B) (l : list A) (e : exn) :
  (forall x, (exists y, f x = Return y) \/ f x = Raise e) ->
  (exists ys, for_each f l = Return ys) \/ for_each f l = Raise e.
Proof.
  intros Hf. induction l as [|x l IH]; cbn [for_each]; [left; by eexists|].
  destruct (Hf x) as [[y ->]| ->]; cbn [mbind outcome_bind]; [|by right].
  destruct IH as [[ys ->]| ->]; cbn [mbind outcome_bind]; [left; by eexists|by right].
Qed.

Lemma event_display_Return_iff (e : event_json) :
  (exists d, event_display e = Return d)
  <-> (event_type e = "PushEvent"%string ->
       Forall (fun c => message c <> ""%string) (default [] (payload_commits (payload e))))
      /\ (event_type e = "PullRequestEvent"%string ->
          is_Some (action (payload e)) /\ is_Some (pull_request (payload e))).
Proof.
  unfold event_display. cbv zeta.
  destruct (decide (event_type e = "PushEvent"%string)) as [Hpush|Hpush].
  - assert (Hcommits : (exists ys, for_each commit_line
                                     (default [] (payload_commits (payload e))) = Return ys)
                       <-> Forall (fun c => message c <> ""%string)
                                  (default [] (payload_commits (payload e)))).
    { rewrite for_each_Return_iff. apply Forall_iff. intros c. apply commit_line_Return_iff. }
    split.
    + intros [d Hd]. split; [|intros Hpr; congruence]. intros _. apply Hcommits.
      destruct (for_each commit_line _) as [ys| |]; cbn [mbind outcome_bind] in Hd;
        try done. by eexists.
    + intros [Hmsg _]. destruct (proj2 Hcommits (Hmsg Hpush)) as [ys ->]. by eexists.
  - destruct (decide (event_type e = "PullRequestEvent"%string)) as [Hpr|Hpr].
    + split.
      * intros [d Hd]. split; [done|]. intros _.
        destruct (action (payload e)); cbn in Hd; [|done].
        destruct (pull_request (payload e)); cbn in Hd; [|done]. by split.
      * intros [_ Hboth]. destruct (Hboth Hpr) as [[act ->] [pr ->]]. by eexists.
    + split; [|by eexists]. by intros _.
Qed.

(** The loop of [events_list] displays an event exactly when its repository
    name has one ['/'], every commit of a push has a message, and a
    pull-request event carries its action and its pull request. *)
Lemma activity_event_Return_iff (e : event_json) :
  (exists ev, activity_event e = Return ev) <-> displayable e.
Proof.
  unfold displayable. rewrite <- split_owner_name_Return_iff, <- event_display_Return_iff.
  rewrite activity_event_display. split.
  - intros [ev Hev].
    destruct (split_owner_name (event_repo_name e)) as [[owner short]| |];
      cbn [mbind outcome_bind] in Hev; try done.
    destruct (event_display e) as [[[title commits] url]| |];
      cbn [mbind outcome_bind] in Hev; try done.
    split; by eexists.
  - intros [[[owner short] ->] [[[title commits] url] ->]]. by eexists.
Qed.

Lemma for_each_commit_line_IndexError (commits : list commit_json) :
  Exists (fun c => message c = ""%string) commits ->
  for_each commit_line commits = Raise IndexError.
Proof.
  intros Hex.
  destruct (for_each_raises_only commit_line commits IndexError commit_line_outcome)
    as [Hret|Hraise]; [|done].
  apply for_each_Return_iff in Hret. rewrite Forall_forall in Hret.
  apply Exists_exists in Hex as (c & Hc & Hempty).
  apply Hret, commit_line_Return_iff in Hc. done.
Qed.

(** X7: what the loop of [events_list] raises for an event it cannot
    display: [ValueError] when the repository name has not exactly one ['/'];
    otherwise [IndexError] for a push with a commit whose message is empty,
    and [KeyError] for a pull-request event without its action or its pull
    request; every other event is displayed. *)
Theorem activity_event_errors (e : event_json) :
  (count_char "/" (event_repo_name e) <> 1%nat -> activity_event e = Raise ValueError)
  /\ (count_char "/" (event_repo_name e) = 1%nat ->
      event_type e = "PushEvent"%string ->
      Exists (fun c => message c = ""%string) (default [] (payload_commits (payload e))) ->
      activity_event e = Raise IndexError)
  /\ (count_char "/" (event_repo_name e) = 1%nat ->
      event_type e = "PullRequestEvent"%string ->
      action (payload e) = None \/ pull_request (payload e) = None ->
      activity_event e = Raise KeyError)
  /\ (displayable e -> exists ev, activity_event e = Return ev).
Proof.
  split_and!.
  - apply activity_event_ValueError.
  - intros Hslash Hpush Hex. rewrite activity_event_display.
    apply split_owner_name_Return_iff in Hslash as [[owner short] ->].
    cbn [mbind outcome_bind]. unfold event_display. cbv zeta.
    rewrite decide_True by done. by rewrite (for_each_commit_line_IndexError _ Hex).
  - intros Hslash Hpr Hmissing. rewrite activity_event_display.
    apply split_owner_name_Return_iff in Hslash as [[owner short] ->].
    cbn [mbind outcome_bind]. unfold event_display. cbv zeta.
    rewrite decide_False by (rewrite Hpr; discriminate). rewrite decide_True by done.
    destruct (action (payload e)); [|done].
    destruct Hmissing as [?| ->]; done.
  - apply activity_event_Return_iff.
Qed.

Lemma activity_event_errors_witness :
  activity_event bare_pull_request_event = Raise KeyError
  /\ exists ev, activity_event push_event = Return ev.
Proof.
  split.
  - refine (proj1 (proj2 (proj2 (activity_event_errors bare_pull_request_event))) _ eq_refl _).
    + vm_compute. reflexivity.
    + left. reflexivity.
  - refine (proj2 (proj2 (proj2 (activity_event_errors push_event))) _).
    split_and!.
    + vm_compute. reflexivity.
    + intros _. repeat constructor; discriminate.
    + discriminate.
Defined.

Lemma window_filter_naive (start : datetime) (all_events : list event_json) :
  utcoffset start = None ->
  Forall (fun e => utcoffset (created_at e) = None) all_events ->
  window_filter start all_events
  = Return (filter (fun e => wall start <= wall (created_at e)) all_events).
Proof.
  intros Hnaive. unfold window_filter. induction 1 as [|e l He Hl IH]; [done|].
  cbn [filter_raising]. rewrite (datetime_ge_naive _ _ Hnaive), He.
  cbn [mbind outcome_bind]. rewrite IH. cbn [mbind outcome_bind].
  rewrite filter_cons. destruct (Z.leb_spec (wall start) (wall (created_at e)));
    [by rewrite decide_True by done | by rewrite decide_False by lia].
Qed.

(** X8: [build_activity] returns a snapshot only if the time zone is known,
    the fetch of the events returns, no fetched timestamp carries an offset,
    and every event of the window can be displayed. *)
Theorem build_activity_returns_only_if (pytz_timezone : string -> option tzinfo)
    (client : GitHubClient) (username tz_name : string) (window_days : Z) (fuel : nat)
    (now : Z) (a : Activity.t) :
  build_activity pytz_timezone client username tz_name window_days fuel now = Return a ->
  exists (local_tz : tzinfo) (all_events : list event_json),
    pytz_timezone tz_name = Some local_tz
    /\ get_public_events client fuel = Return all_events
    /\ Forall (fun e => utcoffset (created_at e) = None) all_events
    /\ Forall displayable
              (filter (fun e => now - window_days * 86400000000 <= wall (created_at e))
                      all_events).
Proof.
  intros Hbuild.
  destruct (build_activity_inv _ _ _ _ _ _ _ _ Hbuild)
    as (local_tz & all_events & window_events & Htz & Hget & Hwin & Hev & _).
  apply window_filter_Return in Hwin as [Hnaive ->]; [|done].
  exists local_tz, all_events. split_and!; try done.
  assert (Hall : exists ys, for_each activity_event
                   (filter (fun e => wall (datetime_sub (utcnow now)
                                                        (timedelta_days window_days))
                                     <= wall (created_at e)) all_events) = Return ys)
    by (by eexists).
  apply for_each_Return_iff in Hall.
  eapply Forall_impl; [exact Hall|]. intros e. apply activity_event_Return_iff.
Qed.

Lemma build_activity_returns_only_if_witness :
  exists a,
    build_activity pytz_utc_only (events_client streak_events) "octo" "UTC" 7 1 example_now
    = Return a
    /\ exists (local_tz : tzinfo) (all_events : list event_json),
         pytz_utc_only "UTC" = Some local_tz
         /\ get_public_events (events_client streak_events) 1 = Return all_events
         /\ Forall (fun e => utcoffset (created_at e) = None) all_events
         /\ Forall displayable
                   (filter (fun e => example_now - 7 * 86400000000 <= wall (created_at e))
                           all_events).
Proof.
  assert (Hrun : { a | build_activity pytz_utc_only (events_client streak_events) "octo" "UTC"
                         7 1 example_now = Return a }).
  { eexists. vm_compute. reflexivity. }
  destruct Hrun as [a Ha]. exists a. split; [exact Ha|].
  exact (build_activity_returns_only_if pytz_utc_only (events_client streak_events) "octo" "UTC"
           7 1 example_now a Ha).
Defined.

Lemma string_of_list_ascii_app (l1 l2 : chars) :
  string_of_list_ascii (l1 ++ l2) = (string_of_list_ascii l1 +:+ string_of_list_ascii l2)%string.
Proof. induction l1 as [|c l1 IH]; simpl; [done|]. by rewrite IH. Qed.

Lemma split_from_one (sep : ascii) (cur s b : chars) :
  split_from sep cur s = [b] -> b = cur ++ s /\ (sep ∉ s).
Proof.
  revert cur. induction s as [|c s IH]; intros cur; cbn [split_from].
  - intros [= <-]. rewrite app_nil_r. split; [done|]. apply not_elem_of_nil.
  - destruct (decide (c = sep)) as [->|Hne].
    + intros [= _ Hnil]. apply (f_equal length) in Hnil.
      rewrite split_from_length in Hnil. done.
    + intros H. apply IH in H as [-> Hnot]. rewrite <- app_assoc. split; [done|].
      rewrite not_elem_of_cons. split; [congruence|done].
Qed.

(** A text that splits in two is the two parts around the separator, which
    is in neither. *)
Lemma split_from_two (sep : ascii) (cur s a b : chars) :
  split_from sep cur s = [a; b] ->
  exists pre, s = pre ++ sep :: b /\ a = cur ++ pre /\ (sep ∉ pre) /\ (sep ∉ b).
Proof.
  revert cur. induction s as [|c s IH]; intros cur; cbn [split_from]; [done|].
  destruct (decide (c = sep)) as [->|Hne].
  - intros [= <- Hb]. apply split_from_one in Hb as [-> Hnot].
    exists []. rewrite app_nil_r. split_and!; try done. apply not_elem_of_nil.
  - intros H. apply IH in H as (pre & -> & -> & Hpre & Hb).
    exists (c :: pre). rewrite <- app_assoc. split_and!; try done.
    rewrite not_elem_of_cons. split; [congruence|done].
Qed.

Lemma count_char_none (sep : ascii) (l : chars) :
  sep ∉ l -> count_char sep (string_of_list_ascii l) = 0%nat.
Proof.
  intros Hnot. unfold count_char. rewrite list_ascii_of_string_of_list_ascii.
  induction l as [|c l IH]; [done|].
  apply not_elem_of_cons in Hnot as [Hne Hnot].
  rewrite filter_cons, decide_False by congruence. by apply IH.
Qed.

(** The owner and the name are the two parts of the full name. *)
Lemma split_owner_name_join (repo_name_full owner short : string) :
  split_owner_name repo_name_full = Return (owner, short) ->
  repo_name_full = (owner +:+ "/" +:+ short)%string
  /\ count_char "/" owner = 0%nat /\ count_char "/" short = 0%nat.
Proof.
  unfold split_owner_name, split.
  destruct (split_from "/" [] (list_ascii_of_string repo_name_full))
    as [|a [|b [|x l]]] eqn:Hsplit; try done.
  intros [= <- <-]. apply split_from_two in Hsplit as (pre & Hs & -> & Hpre & Hb).
  rewrite app_nil_l. split_and!; [|by apply count_char_none..].
  rewrite <- (string_of_list_ascii_of_string repo_name_full), Hs.
  by rewrite string_of_list_ascii_app.
Qed.

(** X9: the display records mirror the window: one record for each event of
    the window, in its order, with the identifier, the type and the
    timestamp of the event, and with the owner and the name that, joined by
    ['/'], give back the full name of the repository. *)
Theorem build_activity_events_mirror_window (pytz_timezone : string -> option tzinfo)
    (client : GitHubClient) (username tz_name : string) (window_days : Z) (fuel : nat)
    (now : Z) (a : Activity.t) :
  build_activity pytz_timezone client username tz_name window_days fuel now = Return a ->
  exists all_events : list event_json,
    get_public_events client fuel = Return all_events
    /\ Forall2 (fun e ev =>
                  ActivityEvent.event_id ev = event_json_id e
                  /\ ActivityEvent.type ev = event_type e
                  /\ ActivityEvent.at_utc ev = created_at e
                  /\ event_repo_name e
                     = (ActivityEvent.repo_owner ev +:+ "/" +:+ ActivityEvent.repo_name ev)%string
                  /\ count_char "/" (ActivityEvent.repo_owner ev) = 0%nat
                  /\ count_char "/" (ActivityEvent.repo_name ev) = 0%nat)
               (filter (fun e => now - window_days * 86400000000 <= wall (created_at e))
                       all_events)
               (Activity.event a).
Proof.
  intros Hbuild.
  destruct (build_activity_inv _ _ _ _ _ _ _ _ Hbuild)
    as (local_tz & all_events & window_events & _ & Hget & Hwin & Hev & _).
  apply window_filter_Return in Hwin as [_ ->]; [|done].
  exists all_events. split; [done|].
  apply for_each_Return in Hev. eapply Forall2_impl; [exact Hev|].
  intros e ev Hret. apply activity_event_inv in Hret as (Hsplit & _ & Htype & Hat & Hid).
  apply split_owner_name_join in Hsplit as (Hname & Howner & Hshort). by split_and!.
Qed.

Lemma build_activity_events_mirror_witness :
  exists a,
    build_activity pytz_utc_only (events_client display_events) "octo" "UTC" 7 1 example_now
    = Return a
    /\ (fun ev => (ActivityEvent.event_id ev, ActivityEvent.repo_owner ev,
                   ActivityEvent.repo_name ev)) <$> Activity.event a
       = [ ("41", "octo", "site"); ("42", "octo", "site"); ("40", "octo", "docs") ]%string
    /\ exists all_events : list event_json,
        get_public_events (events_client display_events) 1 = Return all_events
        /\ Forall2 (fun e ev =>
                      ActivityEvent.event_id ev = event_json_id e
                      /\ ActivityEvent.type ev = event_type e
                      /\ ActivityEvent.at_utc ev = created_at e
                      /\ event_repo_name e
                         = (ActivityEvent.repo_owner ev +:+ "/"
                            +:+ ActivityEvent.repo_name ev)%string
                      /\ count_char "/" (ActivityEvent.repo_owner ev) = 0%nat
                      /\ count_char "/" (ActivityEvent.repo_name ev) = 0%nat)
                   (filter (fun e => example_now - 7 * 86400000000 <= wall (created_at e))
                           all_events)
                   (Activity.event a).
Proof.
  assert (Hrun : { a | build_activity pytz_utc_only (events_client display_events)
                         "octo" "UTC" 7 1 example_now = Return a
                       /\ (fun ev => (ActivityEvent.event_id ev, ActivityEvent.repo_owner ev,
                                      ActivityEvent.repo_name ev)) <$> Activity.event a
                          = [ ("41", "octo", "site"); ("42", "octo", "site");
                              ("40", "octo", "docs") ]%string }).
  { eexists. vm_compute. split; reflexivity. }
  destruct Hrun as [a [Ha Hids]]. exists a. split; [exact Ha|]. split; [exact Hids|].
  exact (build_activity_events_mirror_window _ _ _ _ _ _ _ a Ha).
Defined.

Lemma splitlines_from_inline_bounded (n : nat) (s cur : chars) :
  (length s <= n)%nat -> Forall inline cur -> Forall (Forall inline) (splitlines_from cur s).
Proof.
  revert s cur. induction n as [|n IH]; intros s cur Hlen Hcur.
  - destruct s as [|c s]; [|simpl in Hlen; lia].
    cbn [splitlines_from]. destruct cur; repeat constructor; by inversion Hcur.
  - destruct s as [|c s]; cbn [splitlines_from].
    + destruct cur; repeat constructor; by inversion Hcur.
    + simpl in Hlen. destruct (islinebreak c) eqn:Hc.
      * destruct s as [|c' s']; [by repeat constructor|]. simpl in Hlen.
        destruct (_ && _); (constructor; [done|]); apply IH; try constructor; simpl; lia.
      * apply IH; [lia|]. apply Forall_app. split; [done|]. by repeat constructor.
Qed.

(** No line of [str.splitlines] holds a line boundary. *)
Lemma str_splitlines_inline (s line : string) :
  line ∈ str_splitlines s -> Forall inline (list_ascii_of_string line).
Proof.
  unfold str_splitlines, splitlines. intros Hin.
  apply list_elem_of_fmap in Hin as (l & -> & Hl).
  rewrite list_ascii_of_string_of_list_ascii.
  pose proof (splitlines_from_inline_bounded (length (list_ascii_of_string s))
                (list_ascii_of_string s) [] (le_n _) (Forall_nil_2 _)) as Hall.
  rewrite Forall_forall in Hall. by apply Hall.
Qed.

Lemma commit_line_Return (c : commit_json) (line : string) :
  commit_line c = Return line ->
  exists first,
    head (str_splitlines (message c)) = Some first
    /\ Forall inline (list_ascii_of_string first)
    /\ line = (short_sha c +:+ ": " +:+ first)%string.
Proof.
  unfold commit_line. destruct (str_splitlines (message c)) as [|first rest] eqn:Hlines; [done|].
  intros [= <-]. exists first. split_and!; [done| |done].
  apply (str_splitlines_inline (message c)). rewrite Hlines. left.
Qed.

(** X10: the record of a push has the title [Pushed n commit(s) to X], where
    [n] is the size that the payload states (0 when it states none) and the
    plural is used unless [n] is 1; its URL is the pushed ref when there is
    one, else the repository; and it lists one line for each commit of the
    payload, made of seven characters of the hash and the first line of the
    message. *)
Theorem push_event_display (e : event_json) (ev : ActivityEvent.t) :
  activity_event e = Return ev ->
  event_type e = "PushEvent"%string ->
  ActivityEvent.title ev
  = (let n : Z := default 0 (payload_size (payload e)) in
     let commit := if n =? 1 then " commit to "%string else " commits to "%string in
     ("Pushed " +:+ pretty n +:+ commit +:+ event_repo_name e)%string)
  /\ ActivityEvent.url ev
     = match ref (payload e) with
       | Some r => ("https://github.com/" +:+ event_repo_name e +:+ "/tree/" +:+ r)%string
       | None => ("https://github.com/" +:+ event_repo_name e)%string
       end
  /\ exists lines,
       ActivityEvent.commits ev = Some lines
       /\ Forall2 (fun c line =>
                     exists first,
                       head (str_splitlines (message c)) = Some first
                       /\ Forall inline (list_ascii_of_string first)
                       /\ line = (short_sha c +:+ ": " +:+ first)%string)
                  (default [] (payload_commits (payload e))) lines.
Proof.
  intros Hev Hpush. apply activity_event_inv in Hev as (_ & Hdisplay & _).
  unfold event_display in Hdisplay. cbv zeta in Hdisplay.
  rewrite decide_True in Hdisplay by done.
  destruct (for_each commit_line (default [] (payload_commits (payload e))))
    as [lines| |] eqn:Hlines; cbn [mbind outcome_bind] in Hdisplay; try done.
  injection Hdisplay as Htitle Hcommits Hurl. split_and!.
  - rewrite <- Htitle. cbv zeta. by destruct (default 0 (payload_size (payload e)) =? 1).
  - rewrite <- Hurl. by destruct (ref (payload e)).
  - exists lines. split; [done|]. apply for_each_Return in Hlines.
    eapply Forall2_impl; [exact Hlines|]. intros c line. apply commit_line_Return.
Qed.

Example push_event_record :
  activity_event push_event
  = Return {| ActivityEvent.type := "PushEvent";
              ActivityEvent.repo_owner := "octo";
              ActivityEvent.repo_name := "site";
              ActivityEvent.at_utc := naive_noon (Date 2024 1 5);
              ActivityEvent.url := "https://github.com/octo/site/tree/refs/heads/main";
              ActivityEvent.title := "Pushed 3 commits to octo/site";
              ActivityEvent.commits := Some ["0123456: Fix the build"; "fedcba9: Add docs"]%string;
              ActivityEvent.event_id := "41" |}.
Proof. vm_compute. reflexivity. Qed.

Lemma push_event_display_witness :
  exists ev,
    activity_event push_event = Return ev
    /\ ActivityEvent.title ev = "Pushed 3 commits to octo/site"%string
    /\ ActivityEvent.title ev
       = (let n : Z := default 0 (payload_size (payload push_event)) in
          let commit := if n =? 1 then " commit to "%string else " commits to "%string in
          ("Pushed " +:+ pretty n +:+ commit +:+ event_repo_name push_event)%string)
    /\ ActivityEvent.url ev
       = match ref (payload push_event) with
         | Some r => ("https://github.com/" +:+ event_repo_name push_event
                      +:+ "/tree/" +:+ r)%string
         | None => ("https://github.com/" +:+ event_repo_name push_event)%string
         end
    /\ exists lines,
         ActivityEvent.commits ev = Some lines
         /\ Forall2 (fun c line =>
                       exists first,
                         head (str_splitlines (message c)) = Some first
                         /\ Forall inline (list_ascii_of_string first)
                         /\ line = (short_sha c +:+ ": " +:+ first)%string)
                    (default [] (payload_commits (payload push_event))) lines.
Proof.
  assert (Hrun : { ev | activity_event push_event = Return ev
                        /\ ActivityEvent.title ev = "Pushed 3 commits to octo/site"%string }).
  { eexists. vm_compute. split; reflexivity. }
  destruct Hrun as [ev [Hev Htitle]]. exists ev. split; [exact Hev|]. split; [exact Htitle|].
  exact (push_event_display push_event ev Hev eq_refl).
Defined.

(** X11: the record of a pull-request event has the title
    [PR action: "title" on X] and the URL of the pull request; the record of
    an event of any other type but a push has the title [type on X] and the
    URL of the repository; neither lists commits. *)
Theorem other_event_display (e : event_json) (ev : ActivityEvent.t) :
  activity_event e = Return ev ->
  event_type e <> "PushEvent"%string ->
  ActivityEvent.commits ev = None
  /\ (event_type e = "PullRequestEvent"%string ->
      exists act pr,
        action (payload e) = Some act /\ pull_request (payload e) = Some pr
        /\ ActivityEvent.title ev
           = ("PR " +:+ act +:+ ": " +:+ dquote +:+ pr_title pr +:+ dquote +:+ " on "
              +:+ event_repo_name e)%string
        /\ ActivityEvent.url ev = pr_html_url pr)
  /\ (event_type e <> "PullRequestEvent"%string ->
      ActivityEvent.title ev = (event_type e +:+ " on " +:+ event_repo_name e)%string
      /\ ActivityEvent.url ev = ("https://github.com/" +:+ event_repo_name e)%string).
Proof.
  intros Hev Hpush. apply activity_event_inv in Hev as (_ & Hdisplay & _).
  unfold event_display in Hdisplay. cbv zeta in Hdisplay.
  rewrite decide_False in Hdisplay by done.
  destruct (decide (event_type e = "PullRequestEvent"%string)) as [Hpr|Hpr].
  - destruct (action (payload e)) as [act|]; cbn in Hdisplay; [|done].
    destruct (pull_request (payload e)) as [pr|]; cbn in Hdisplay; [|done].
    injection Hdisplay as Htitle Hcommits Hurl. split_and!; [done| |done].
    intros _. by exists act, pr.
  - injection Hdisplay as Htitle Hcommits Hurl. split_and!; [done|done|]. by intros _.
Qed.

Example pull_request_event_record :
  (fun ev => (ActivityEvent.title ev, ActivityEvent.url ev, ActivityEvent.commits ev))
  <$> match activity_event pull_request_event with Return ev => Some ev | _ => None end
  = Some (("PR opened: " +:+ dquote +:+ "Add search" +:+ dquote +:+ " on octo/site")%string,
          "https://github.com/octo/site/pull/7"%string, None).
Proof. vm_compute. reflexivity. Qed.

Lemma other_event_display_witness :
  exists ev,
    activity_event pull_request_event = Return ev
    /\ ActivityEvent.commits ev = None
    /\ (event_type pull_request_event = "PullRequestEvent"%string ->
        exists act pr,
          action (payload pull_request_event) = Some act
          /\ pull_request (payload pull_request_event) = Some pr
          /\ ActivityEvent.title ev
             = ("PR " +:+ act +:+ ": " +:+ dquote +:+ pr_title pr +:+ dquote +:+ " on "
                +:+ event_repo_name pull_request_event)%string
          /\ ActivityEvent.url ev = pr_html_url pr)
    /\ (event_type pull_request_event <> "PullRequestEvent"%string ->
        ActivityEvent.title ev
        = (event_type pull_request_event +:+ " on "
           +:+ event_repo_name pull_request_event)%string
        /\ ActivityEvent.url ev
           = ("https://github.com/" +:+ event_repo_name pull_request_event)%string).
Proof.
  assert (Hrun : { ev | activity_event pull_request_event = Return ev }).
  { eexists. vm_compute. reflexivity. }
  destruct Hrun as [ev Hev]. exists ev. split; [exact Hev|].
  refine (other_event_display pull_request_event ev Hev _). discriminate.
Defined.

(** * The insights: frequencies *)

Section CounterOrder.
Context {K : Type} `{EqDecision K}.
Implicit Types (k : K) (c : list (K * nat)) (l : list K).

Lemma counter_incr_keys_order k c :
  counter_keys (counter_incr k c)
  = if decide (k ∈ counter_keys c) then counter_keys c else counter_keys c ++ [k].
Proof.
  unfold counter_keys. induction c as [|[k0 n] c IH].
  - cbn [counter_incr fmap list_fmap app].
    destruct (decide (k ∈ [])) as [Hin|Hin]; [by apply elem_of_nil in Hin|done].
  - cbn [counter_incr]. destruct (decide (k = k0)) as [->|Hne].
    + rewrite !fmap_cons. cbn [fst]. rewrite decide_True; [done|left].
    + rewrite !fmap_cons, IH. cbn [fst].
      destruct (decide (k ∈ c.*1)) as [Hin|Hin].
      * rewrite decide_True; [done|by right].
      * rewrite decide_False; [done|]. rewrite elem_of_cons. tauto.
Qed.

Lemma counter_of_snoc l k : counter_of (l ++ [k]) = counter_incr k (counter_of l).
Proof. unfold counter_of. by rewrite foldl_app. Qed.

Lemma first_seen_snoc l k :
  first_seen (l ++ [k]) = if decide (k ∈ l) then first_seen l else first_seen l ++ [k].
Proof.
  unfold first_seen. rewrite reverse_app. change (reverse [k]) with [k].
  cbn [app remove_dups]. unfold decide_rel.
  destruct (list_elem_of_dec k (reverse l)) as [Hin|Hin]; rewrite elem_of_reverse in Hin.
  - by rewrite decide_True.
  - rewrite decide_False by done. by rewrite reverse_cons.
Qed.

(** The keys of a counter are in the order of their first count. *)
Lemma counter_of_first_seen l : counter_keys (counter_of l) = first_seen l.
Proof.
  induction l as [|k l IH] using rev_ind; [done|].
  rewrite counter_of_snoc, counter_incr_keys_order, first_seen_snoc, IH.
  destruct (decide (k ∈ first_seen l)) as [Hin|Hin];
    unfold first_seen in Hin; rewrite elem_of_reverse, elem_of_remove_dups, elem_of_reverse in Hin.
  - by rewrite decide_True.
  - by rewrite decide_False.
Qed.

Lemma counter_get_elem k n c :
  NoDup (counter_keys c) -> (k, n) ∈ c -> counter_get k c = n.
Proof.
  unfold counter_keys. induction c as [|[k0 n0] c IH]; simpl; intros Hnd Hin.
  - by apply elem_of_nil in Hin.
  - apply NoDup_cons in Hnd as [Hk0 Hnd]. apply elem_of_cons in Hin as [[= -> ->]|Hin].
    + by rewrite decide_True.
    + rewrite decide_False; [by apply IH|]. intros ->. apply Hk0.
      apply list_elem_of_fmap. by exists (k0, n).
Qed.

Lemma counter_of_elem l k n :
  (k, n) ∈ counter_of l -> n = occurrences k l /\ k ∈ l.
Proof.
  intros Hin. split.
  - unfold occurrences. rewrite <- counter_of_get. symmetry.
    apply counter_get_elem; [apply counter_of_NoDup|done].
  - apply counter_of_keys. apply list_elem_of_fmap. by exists (k, n).
Qed.

Lemma counter_of_elem_2 l k : k ∈ l -> (k, occurrences k l) ∈ counter_of l.
Proof.
  intros Hin. apply counter_of_keys in Hin. apply list_elem_of_fmap in Hin as ([k' n] & -> & Hin).
  simpl. by destruct (counter_of_elem _ _ _ Hin) as [<- _].
Qed.

Lemma occurrences_pos l k : k ∈ l -> (0 < occurrences k l)%nat.
Proof.
  intros Hin. unfold occurrences.
  assert (Hk : k ∈ filter (fun x => x = k) l) by by apply list_elem_of_filter.
  destruct (filter _ l); [by apply elem_of_nil in Hk|simpl; lia].
Qed.

Lemma filter_count_keys (f : K -> nat) (m : nat) c :
  Forall (fun a => a.2 = f a.1) c ->
  (filter (fun a => a.2 = m) c).*1 = filter (fun k => f k = m) c.*1.
Proof.
  induction 1 as [|a c Ha Hc IH]; [done|].
  rewrite fmap_cons, !filter_cons. rewrite <- Ha.
  destruct (decide (a.2 = m)); [rewrite fmap_cons|]; by rewrite IH.
Qed.

(** [Counter(l).most_common(n)] ranks the [n] most frequent elements of [l]. *)
Lemma most_common_ranks_top (n : nat) l : ranks_top n l (most_common n (counter_of l)).
Proof.
  unfold most_common.
  set (key := fun a : K * nat => Z.of_nat a.2).
  set (c := counter_of l). set (s := sorted_reverse_by key c).
  assert (Hperm : s ≡ₚ c) by apply sorted_reverse_by_perm.
  assert (Hsorted : StronglySorted (fun a b => (b.2 <= a.2)%nat) s).
  { eapply StronglySorted_weaken; [|apply (sorted_reverse_by_sorted key)].
    unfold key. intros a b. simpl. lia. }
  rewrite <- (take_drop n s) in Hsorted. apply StronglySorted_app in Hsorted as (Hcross & Htop & _).
  split_and!.
  - rewrite fmap_take. eapply sublist_NoDup; [|apply sublist_take].
    rewrite Hperm. apply counter_of_NoDup.
  - rewrite length_take, Hperm, <- counter_of_first_seen. unfold counter_keys.
    by rewrite length_fmap.
  - intros k m Hin. apply elem_of_take in Hin as (i & Hin & _).
    apply list_elem_of_lookup_2 in Hin. rewrite Hperm in Hin.
    apply counter_of_elem in Hin as [-> Hk]. split; [done|]. by apply occurrences_pos.
  - done.
  - intros k a Hk Hout Ha.
    assert (Hin : (k, occurrences k l) ∈ s) by (rewrite Hperm; by apply counter_of_elem_2).
    rewrite <- (take_drop n s) in Hin. apply elem_of_app in Hin as [Hin|Hin].
    + exfalso. apply Hout. apply list_elem_of_fmap. by exists (k, occurrences k l).
    + apply (Hcross a (k, occurrences k l) Ha Hin).
  - intros m.
    assert (Hstable : filter (fun a : K * nat => a.2 = m) s = filter (fun a => a.2 = m) c).
    { pose proof (sorted_reverse_by_stable key (Z.of_nat m) c) as Hst. fold s in Hst.
      etrans; [|etrans; [exact Hst|]]; apply list_filter_iff; intros a; unfold key; lia. }
    rewrite <- counter_of_first_seen. unfold counter_keys. fold c.
    rewrite <- (filter_count_keys (fun k => occurrences k l) m c).
    + rewrite <- Hstable. rewrite <- (take_drop n s) at 2. rewrite filter_app, fmap_app.
      by apply prefix_app_r.
    + apply Forall_forall. intros [k m'] Hin. simpl. by apply counter_of_elem in Hin as [-> _].
Qed.

(** [max(c.items(), key=...)] is the first entry with the highest count. *)
Lemma max_entry_first (best : K * nat) c :
  exists pre post,
    best :: c = pre ++ max_entry best c :: post
    /\ Forall (fun a => (a.2 < (max_entry best c).2)%nat) pre
    /\ Forall (fun a => (a.2 <= (max_entry best c).2)%nat) post.
Proof.
  revert best. induction c as [|a c IH]; intros best; cbn [max_entry].
  - exists [], []. by split_and!.
  - destruct (Nat.ltb_spec best.2 a.2) as [Hlt|Hge].
    + destruct (IH a) as (pre & post & Heq & Hpre & Hpost).
      pose proof (max_entry_max a c a ltac:(left)) as Hb.
      exists (best :: pre), post. rewrite <- app_comm_cons, <- Heq. split_and!; [done| |done].
      constructor; [lia|done].
    + destruct (IH best) as (pre & post & Heq & Hpre & Hpost).
      pose proof (max_entry_max best c best ltac:(left)) as Hb.
      destruct pre as [|p pre]; simpl in Heq.
      * injection Heq as Hm Hc. exists [], (a :: post). rewrite <- Hm. simpl.
        split_and!; [by rewrite <- Hc|done|]. constructor; [lia|]. by rewrite Hm.
      * injection Heq as Hp Hc. subst p. exists (best :: a :: pre), post.
        apply Forall_cons in Hpre as [Hbest Hpre]. simpl.
        split_and!; [by rewrite <- Hc| |done]. repeat constructor; [done|lia|done].
Qed.
End CounterOrder.

(** X12: the insights list at most five repositories and at most five event
    types of the window, each with its number of events: the most frequent
    ones, by decreasing number of events, and those with equally many events
    in the order in which the window first shows them. *)
Theorem top_lists_rank_by_count (local_tz : tzinfo) (window_events : list event_json) :
  exists top_repos top_types : list (string * nat),
    ActivityInsights.top_repos (insights_of local_tz window_events) = name_count <$> top_repos
    /\ ActivityInsights.top_event_types (insights_of local_tz window_events)
       = name_count <$> top_types
    /\ ranks_top 5 (event_repo_name <$> window_events) top_repos
    /\ ranks_top 5 (event_type <$> window_events) top_types.
Proof.
  eexists _, _. split_and!; [reflexivity|reflexivity|apply most_common_ranks_top..].
Qed.

Example summary_events_top :
  ActivityInsights.top_repos (insights_of tz_utc summary_events)
  = ["octo/site:4"; "octo/docs:2"]%string
  /\ ActivityInsights.top_event_types (insights_of tz_utc summary_events)
     = ["PushEvent:3"; "IssueCommentEvent:1"; "GollumEvent:1"; "CommitCommentEvent:1"]%string.
Proof. vm_compute. split; reflexivity. Qed.

(** X13: the busiest local day is the day of the window with the most events
    and, among the days with as many, the one that the window shows first. *)
Theorem busiest_day_first_maximum (local_tz : tzinfo) (window_events : list event_json)
    (d : date) :
  ActivityInsights.busiest_local_day (insights_of local_tz window_events) = Some d ->
  let days := (fun e => local_tz (created_at e)) <$> window_events in
  exists earlier later,
    first_seen days = earlier ++ d :: later
    /\ Forall (fun d' => (occurrences d' days < occurrences d days)%nat) earlier
    /\ Forall (fun d' => (occurrences d' days <= occurrences d days)%nat) later.
Proof.
  intros Hbusy days. cbn [insights_of ActivityInsights.busiest_local_day] in Hbusy.
  rewrite events_by_local_day_counter in Hbusy. fold days in Hbusy.
  unfold busiest_day, most_common_1 in Hbusy.
  destruct (counter_of days) as [|best c] eqn:Hc; [done|]. injection Hbusy as <-.
  destruct (max_entry_first best c) as (pre & post & Heq & Hpre & Hpost).
  set (m := max_entry best c) in *.
  assert (Hcount : forall a, a ∈ best :: c -> a.2 = occurrences a.1 days).
  { intros [k n] Hin. rewrite <- Hc in Hin. by apply counter_of_elem in Hin as [-> _]. }
  assert (Hm : m.2 = occurrences m.1 days).
  { apply Hcount. rewrite Heq. apply elem_of_app. right. left. }
  exists pre.*1, post.*1. split_and!.
  - rewrite <- counter_of_first_seen, Hc. unfold counter_keys.
    by rewrite Heq, fmap_app, fmap_cons.
  - apply Forall_fmap. rewrite Forall_forall in Hpre |- *. intros a Ha. simpl.
    rewrite <- Hm, <- (Hcount a); [by apply Hpre|]. rewrite Heq. apply elem_of_app. by left.
  - apply Forall_fmap. rewrite Forall_forall in Hpost |- *. intros a Ha. simpl.
    rewrite <- Hm, <- (Hcount a); [by apply Hpost|]. rewrite Heq. apply elem_of_app.
    right. by right.
Qed.

Lemma busiest_day_first_maximum_witness :
  let days := (fun e => tz_utc (created_at e)) <$> summary_events in
  ActivityInsights.busiest_local_day (insights_of tz_utc summary_events) = Some (Date 2024 1 5)
  /\ occurrences (Date 2024 1 4) days = occurrences (Date 2024 1 5) days
  /\ exists earlier later,
       first_seen days = earlier ++ Date 2024 1 5 :: later
       /\ Forall (fun d' => (occurrences d' days < occurrences (Date 2024 1 5) days)%nat) earlier
       /\ Forall (fun d' => (occurrences d' days <= occurrences (Date 2024 1 5) days)%nat) later.
Proof.
  assert (Hbusy : ActivityInsights.busiest_local_day (insights_of tz_utc summary_events)
                  = Some (Date 2024 1 5)) by (vm_compute; reflexivity).
  intros days. split; [exact Hbusy|]. split; [vm_compute; reflexivity|].
  exact (busiest_day_first_maximum tz_utc summary_events (Date 2024 1 5) Hbusy).
Defined.

(** X14: the summary counts in [repos] the distinct repositories of the
    window: never more than its events, and none exactly when the window is
    empty. *)
Theorem summary_repos_distinct (window_events : list event_json) :
  let s := summary_of window_events in
  ActivitySummary.repos s = length (first_seen (event_repo_name <$> window_events))
  /\ ActivitySummary.repos s = size (list_to_set (event_repo_name <$> window_events) : gset string)
  /\ (ActivitySummary.repos s <= ActivitySummary.events s)%nat
  /\ (ActivitySummary.repos s = 0%nat <-> window_events = []).
Proof.
  cbn [summary_of ActivitySummary.repos ActivitySummary.events].
  set (names := event_repo_name <$> window_events).
  assert (Hlen : length (counter_of names) = length (first_seen names)).
  { rewrite <- counter_of_first_seen. unfold counter_keys. by rewrite length_fmap. }
  assert (Hnd : NoDup (first_seen names)).
  { rewrite <- counter_of_first_seen. apply counter_of_NoDup. }
  assert (Hperm : first_seen names ≡ₚ remove_dups names).
  { apply NoDup_Permutation; [done|apply NoDup_remove_dups|].
    intros x. unfold first_seen.
    by rewrite elem_of_reverse, !elem_of_remove_dups, elem_of_reverse. }
  split_and!.
  - done.
  - rewrite Hlen, Hperm.
    rewrite <- (size_list_to_set (C := gset string) (remove_dups names))
      by apply NoDup_remove_dups.
    f_equal. apply set_eq. intros x. by rewrite !elem_of_list_to_set, elem_of_remove_dups.
  - rewrite Hlen, <- (length_fmap event_repo_name window_events). fold names.
    apply submseteq_length, NoDup_submseteq; [done|].
    intros x. rewrite Hperm. apply elem_of_remove_dups.
  - rewrite Hlen. rewrite <- Hlen. rewrite length_zero_iff_nil, counter_of_nil_iff.
    unfold names. split; [apply fmap_nil_inv|by intros ->].
Qed.

(** * [build_todos] *)

Lemma get_file_content_response (self : GitHubClient) (c : CacheClient)
    (repo_full file_path : string) (resp : response string) :
  client self = Some c ->
  http_get_raw c (file_url repo_full file_path) = Return resp ->
  get_file_content self repo_full file_path
  = Return (if status_code resp =? 404 then None
            else if is_success (status_code resp) then Some (json resp) else None).
Proof.
  intros Hclient Hget. unfold get_file_content. rewrite Hclient. cbv zeta.
  unfold file_url in Hget. rewrite Hget. cbn [mbind outcome_bind].
  destruct (status_code resp =? 404); [done|].
  unfold raise_for_status. by destruct (is_success (status_code resp)).
Qed.

Lemma find_todo_content_truthy (client : GitHubClient) (repo_full : string)
    (filenames : list string) (content : option string) :
  find_todo_content client repo_full filenames = Return content ->
  content = None \/ truthy content = true.
Proof.
  induction filenames as [|f fs IH]; cbn [find_todo_content].
  - intros [= <-]. by left.
  - destruct (get_file_content client repo_full f) as [c| |]; cbn [mbind outcome_bind]; try done.
    destruct (truthy c) eqn:Hc; [|done]. intros [= <-]. by right.
Qed.

(** The loop stops at the first file with a text that is not empty. *)
Lemma find_todo_content_first (client : GitHubClient) (repo_full : string)
    (skipped later : list string) (filename : string) (content : option string) :
  Forall (fun f => exists c, get_file_content client repo_full f = Return c /\ truthy c = false)
         skipped ->
  get_file_content client repo_full filename = Return content ->
  truthy content = true ->
  find_todo_content client repo_full (skipped ++ filename :: later) = Return content.
Proof.
  intros Hskipped Hget Htruthy. induction Hskipped as [|f fs (c & Hc & Hfalse) _ IH].
  - cbn [app find_todo_content]. rewrite Hget. cbn [mbind outcome_bind]. by rewrite Htruthy.
  - cbn [app find_todo_content]. rewrite Hc. cbn [mbind outcome_bind]. by rewrite Hfalse.
Qed.

Lemma find_todo_content_none (client : GitHubClient) (repo_full : string)
    (filenames : list string) :
  Forall (fun f => exists c, get_file_content client repo_full f = Return c /\ truthy c = false)
         filenames ->
  find_todo_content client repo_full filenames = Return None.
Proof.
  induction 1 as [|f fs (c & Hc & Hfalse) _ IH]; [done|].
  cbn [find_todo_content]. rewrite Hc. cbn [mbind outcome_bind]. by rewrite Hfalse.
Qed.

Lemma repo_todos_inv (client : GitHubClient) (repo : RepoInventoryItem.t)
    (item : RepoTodosItem.t) :
  repo_todos client repo = Return item ->
  exists todo_content readme_content,
    find_todo_content client (RepoInventoryItem.full repo) todo_filenames = Return todo_content
    /\ (if truthy (RepoInventoryItem.readme repo)
        then readme_content = RepoInventoryItem.readme repo
        else get_file_content client (RepoInventoryItem.full repo) "README.md"
             = Return readme_content)
    /\ RepoTodosItem.full item = RepoInventoryItem.full repo
    /\ RepoTodosItem.todos item
       = (if truthy todo_content then _parse_todos_from_content <$> todo_content else None)
    /\ RepoTodosItem.synopsis item
       = (if truthy readme_content then synopsis_lines <$> readme_content else None).
Proof.
  unfold repo_todos. cbv zeta.
  destruct (find_todo_content _ _ _) as [todo_content| |]; cbn [mbind outcome_bind]; try done.
  destruct (truthy (RepoInventoryItem.readme repo)) eqn:Hreadme.
  - cbn [mbind outcome_bind]. intros [= <-]. by exists todo_content, (RepoInventoryItem.readme repo).
  - destruct (get_file_content _ _ _) as [readme_content| |] eqn:Hget;
      cbn [mbind outcome_bind]; try done.
    intros [= <-]. by exists todo_content, readme_content.
Qed.

(** X15: requests that are answered, with whatever status, never fail the
    TODO build: it returns one record for each repository of the inventory,
    in the order of the inventory and under its name, also for a repository
    that has neither a TODO file nor a README. *)
Theorem build_todos_one_record_per_repo (self : GitHubClient) (c : CacheClient)
    (inventory : Inventory.t) (now : Z) :
  client self = Some c ->
  (forall url, exists resp, http_get_raw c url = Return resp) ->
  exists t,
    build_todos self inventory now = Return t
    /\ Todos.username t = Inventory.username inventory
    /\ Todos.generated_utc t = utcnow now
    /\ RepoTodosItem.full <$> Todos.repo t = RepoInventoryItem.full <$> Inventory.repo inventory.
Proof.
  intros Hclient Hanswered.
  assert (Hfile : forall repo_full file_path,
             exists content, get_file_content self repo_full file_path = Return content).
  { intros repo_full file_path. destruct (Hanswered (file_url repo_full file_path)) as [resp Hresp].
    eexists. by apply (get_file_content_response self c). }
  assert (Hfind : forall repo_full filenames,
             exists content, find_todo_content self repo_full filenames = Return content).
  { intros repo_full filenames. induction filenames as [|f fs [content IH]]; [by eexists|].
    cbn [find_todo_content]. destruct (Hfile repo_full f) as [cf ->]. cbn [mbind outcome_bind].
    destruct (truthy cf); by eexists. }
  assert (Hrepo : forall repo, exists item,
             repo_todos self repo = Return item
             /\ RepoTodosItem.full item = RepoInventoryItem.full repo).
  { intros repo. unfold repo_todos. cbv zeta.
    destruct (Hfind (RepoInventoryItem.full repo) todo_filenames) as [todo_content ->].
    cbn [mbind outcome_bind].
    destruct (truthy (RepoInventoryItem.readme repo)).
    - cbn [mbind outcome_bind]. by eexists.
    - destruct (Hfile (RepoInventoryItem.full repo) "README.md"%string) as [readme ->].
      cbn [mbind outcome_bind]. by eexists. }
  unfold build_todos.
  assert (Hall : exists items,
             for_each (repo_todos self) (Inventory.repo inventory) = Return items
             /\ RepoTodosItem.full <$> items = RepoInventoryItem.full <$> Inventory.repo inventory).
  { induction (Inventory.repo inventory) as [|repo repos (items & Hitems & Hnames)].
    - by exists [].
    - destruct (Hrepo repo) as (item & Hitem & Hname). exists (item :: items).
      cbn [for_each]. rewrite Hitem, Hitems. cbn [mbind outcome_bind].
      split; [done|]. by rewrite !fmap_cons, Hname, Hnames. }
  destruct Hall as (items & -> & Hnames). cbn [mbind outcome_bind]. by eexists.
Qed.

Lemma build_todos_one_record_witness :
  exists t,
    build_todos inventory_client todos_inventory 0 = Return t
    /\ Todos.username t = Inventory.username todos_inventory
    /\ Todos.generated_utc t = utcnow 0
    /\ RepoTodosItem.full <$> Todos.repo t
       = RepoInventoryItem.full <$> Inventory.repo todos_inventory.
Proof.
  refine (build_todos_one_record_per_repo inventory_client _ todos_inventory 0 eq_refl _).
  intros url. cbn [http_get_raw]. destruct (decide _); eexists; reflexivity.
Defined.

(** X16: the TODO items of a repository are read from the first of
    [docs/TODO.md], [TODO.md], [todo.md] and [docs/ROADMAP.md] that has a
    text, whatever the files after it hold; an absent or empty file is
    passed over, and a repository where none has a text gets no TODO list. *)
Theorem todo_file_preference (client : GitHubClient) (repo : RepoInventoryItem.t)
    (item : RepoTodosItem.t) :
  repo_todos client repo = Return item ->
  let absent f :=
    exists c, get_file_content client (RepoInventoryItem.full repo) f = Return c
              /\ truthy c = false in
  (forall skipped filename later s,
      todo_filenames = skipped ++ filename :: later ->
      Forall absent skipped ->
      get_file_content client (RepoInventoryItem.full repo) filename = Return (Some s) ->
      s <> ""%string ->
      RepoTodosItem.todos item = Some (_parse_todos_from_content s))
  /\ (Forall absent todo_filenames -> RepoTodosItem.todos item = None)
  /\ (RepoTodosItem.todos item = None
      \/ exists filename s,
           filename ∈ todo_filenames
           /\ get_file_content client (RepoInventoryItem.full repo) filename = Return (Some s)
           /\ s <> ""%string
           /\ RepoTodosItem.todos item = Some (_parse_todos_from_content s)).
Proof.
  intros Hitem absent.
  apply repo_todos_inv in Hitem as (todo_content & _ & Hfind & _ & _ & Htodos & _).
  split_and!.
  - intros skipped filename later s Hnames Hskipped Hget Hs.
    rewrite Hnames in Hfind.
    rewrite (find_todo_content_first client _ skipped later filename (Some s)) in Hfind;
      [|done|done|by destruct s].
    injection Hfind as <-. rewrite Htodos. by destruct s.
  - intros Habsent. rewrite (find_todo_content_none client _ _ Habsent) in Hfind.
    injection Hfind as <-. by rewrite Htodos.
  - rewrite Htodos. clear Htodos. revert Hfind. generalize todo_filenames.
    intros filenames. induction filenames as [|f fs IH]; cbn [find_todo_content].
    + intros [= <-]. by left.
    + destruct (get_file_content client _ f) as [c| |] eqn:Hget; cbn [mbind outcome_bind];
        try done.
      destruct (truthy c) eqn:Hc.
      * intros [= <-]. rewrite Hc. right. destruct c as [[|a s]|]; try done.
        exists f, (String a s). split_and!; [left|done|done|done].
      * intros Hfind. destruct (IH Hfind) as [Hnone|(filename & s & Hin & Hrest)]; [by left|].
        right. exists filename, s. split; [by right|done].
Qed.

Lemma todo_file_preference_witness :
  exists item,
    repo_todos todos_client (repo_of_json (example_repo "octo/site" false 20)) = Return item
    /\ RepoTodosItem.todos item = Some ["Fix bug"; "Done thing"]%string.
Proof.
  assert (Hrun : { item | repo_todos todos_client (repo_of_json (example_repo "octo/site" false 20))
                          = Return item }).
  { eexists. vm_compute. reflexivity. }
  destruct Hrun as [item Hitem]. exists item. split; [exact Hitem|].
  refine (proj1 (todo_file_preference todos_client _ item Hitem)
            ["docs/TODO.md"%string] "TODO.md"%string ["todo.md"; "docs/ROADMAP.md"]%string
            ("- [ ] Fix bug" +:+ LF +:+ "* [x]   Done thing  " +:+ LF)%string
            eq_refl _ _ _).
  - constructor; [|constructor]. exists (Some ""%string). split; vm_compute; reflexivity.
  - vm_compute. reflexivity.
  - discriminate.
Defined.

Lemma fmap_filter_comm {A B : Type} (f : A -> B) (P : B -> Prop) (Q : A -> Prop)
    `{forall y, Decision (P y)} `{forall x, Decision (Q x)} (l : list A) :
  (forall x, Q x <-> P (f x)) ->
  f <$> filter Q l = filter P (f <$> l).
Proof.
  intros HPQ. induction l as [|x l IH]; [done|]. rewrite fmap_cons, !filter_cons.
  destruct (decide (Q x)) as [HQ|HQ]; destruct (decide (P (f x))) as [HP|HP].
  - by rewrite fmap_cons, IH.
  - by apply HPQ in HQ.
  - by apply HPQ in HP.
  - done.
Qed.

Lemma strip_inline (s : chars) : Forall inline s -> Forall inline (strip s).
Proof.
  intros Hs. unfold strip, rstrip, lstrip. rewrite !dropwhile_drop.
  apply Forall_reverse, Forall_drop, Forall_reverse, Forall_drop, Hs.
Qed.

Lemma synopsis_lines_spec (readme_content : string) :
  synopsis_lines readme_content
  = take 5 (filter (fun line => line <> ""%string /\ String.prefix "#" line = false)
                   (str_strip <$> str_splitlines (str_strip readme_content))).
Proof.
  unfold synopsis_lines. f_equal. by apply fmap_filter_comm.
Qed.

Lemma synopsis_lines_shape (readme_content : string) :
  Forall synopsis_line (synopsis_lines readme_content).
Proof.
  rewrite synopsis_lines_spec. apply Forall_take, Forall_forall. intros line Hin.
  apply list_elem_of_filter in Hin as [[Hne Hhash] Hin].
  apply list_elem_of_fmap in Hin as (raw & -> & Hraw).
  unfold synopsis_line. split_and!; [done|done|..];
    unfold str_strip; rewrite list_ascii_of_string_of_list_ascii.
  - apply strip_head.
  - apply strip_last.
  - by apply strip_inline, (str_splitlines_inline (str_strip readme_content)).
Qed.

(** X17: the synopsis of a repository is drawn from the README that the
    inventory holds or, when it holds none, from the README that the client
    finds: its first five lines that are neither blank nor headings, each
    without the white space at its ends.  A repository without a README, or
    with an empty one, has no synopsis. *)
Theorem synopsis_of_readme (client : GitHubClient) (repo : RepoInventoryItem.t)
    (item : RepoTodosItem.t) :
  repo_todos client repo = Return item ->
  exists readme_content,
    (if truthy (RepoInventoryItem.readme repo)
     then readme_content = RepoInventoryItem.readme repo
     else get_file_content client (RepoInventoryItem.full repo) "README.md"
          = Return readme_content)
    /\ match RepoTodosItem.synopsis item with
       | None => readme_content = None \/ readme_content = Some ""%string
       | Some lines =>
           exists s,
             readme_content = Some s /\ s <> ""%string
             /\ lines = take 5 (filter (fun line => line <> ""%string
                                                    /\ String.prefix "#" line = false)
                                       (str_strip <$> str_splitlines (str_strip s)))
             /\ (length lines <= 5)%nat
             /\ Forall synopsis_line lines
       end.
Proof.
  intros Hitem.
  apply repo_todos_inv in Hitem as (_ & readme_content & _ & Hreadme & _ & _ & Hsynopsis).
  exists readme_content. split; [done|]. rewrite Hsynopsis.
  destruct readme_content as [[|a s]|]; cbn [truthy fmap option_fmap option_map].
  - by right.
  - exists (String a s). split_and!; [done|done|apply synopsis_lines_spec| |].
    + unfold synopsis_lines. rewrite length_take. lia.
    + apply synopsis_lines_shape.
  - by left.
Qed.

Lemma synopsis_of_readme_witness :
  exists item,
    repo_todos todos_client (repo_of_json (example_repo "octo/site" false 20)) = Return item
    /\ RepoTodosItem.synopsis item = Some ["The site of octo."; "Run it."]%string
    /\ exists readme_content,
         (if truthy (RepoInventoryItem.readme (repo_of_json (example_repo "octo/site" false 20)))
          then readme_content
               = RepoInventoryItem.readme (repo_of_json (example_repo "octo/site" false 20))
          else get_file_content todos_client
                 (RepoInventoryItem.full (repo_of_json (example_repo "octo/site" false 20)))
                 "README.md"
               = Return readme_content)
         /\ match RepoTodosItem.synopsis item with
            | None => readme_content = None \/ readme_content = Some ""%string
            | Some lines =>
                exists s,
                  readme_content = Some s /\ s <> ""%string
                  /\ lines = take 5 (filter (fun line => line <> ""%string
                                                         /\ String.prefix "#" line = false)
                                            (str_strip <$> str_splitlines (str_strip s)))
                  /\ (length lines <= 5)%nat
                  /\ Forall synopsis_line lines
            end.
Proof.
  assert (Hrun : { item | repo_todos todos_client (repo_of_json (example_repo "octo/site" false 20))
                          = Return item
                          /\ RepoTodosItem.synopsis item
                             = Some ["The site of octo."; "Run it."]%string }).
  { eexists. vm_compute. split; reflexivity. }
  destruct Hrun as [item [Hitem Hsynopsis]]. exists item.
  split; [exact Hitem|]. split; [exact Hsynopsis|].
  exact (synopsis_of_readme todos_client _ item Hitem).
Defined.

(** * The inventory keeps the listing *)

Lemma StronglySorted_Forall2_key {A : Type} (key : A -> Z) (P : A -> A -> Prop)
    (l l' : list A) :
  Forall2 P l l' ->
  (forall x x', P x x' -> key x' = key x) ->
  StronglySorted (fun a b => key b <= key a) l ->
  StronglySorted (fun a b => key b <= key a) l'.
Proof.
  intros HF HP. induction HF as [|x x' l l' Hx HF IH]; intros Hs; [constructor|].
  apply StronglySorted_inv in Hs as [Hs Hall]. constructor; [by apply IH|].
  rewrite (HP _ _ Hx). clear -HF HP Hall.
  induction HF as [|y y' l l' Hy HF IH]; [constructor|].
  apply Forall_cons in Hall as [Hle Hall]. constructor; [|by apply IH].
  by rewrite (HP _ _ Hy).
Qed.

Lemma set_details_same (repo : RepoInventoryItem.t) :
  repo = set_details repo (RepoInventoryItem.readme repo) (RepoInventoryItem.changelog repo)
                     (RepoInventoryItem.recent_files repo).
Proof. by destruct repo. Qed.

(** X23: the inventory keeps the listing of [get_public_repos]: the same
    repositories in the same order, each with the fields of the listing and
    at most the README, the changelog and the file list set anew; so the
    inventory, too, lists the repositories by push time, latest first.  It
    carries the user name given and the reading of the clock. *)
Theorem inventory_keeps_listing (client : GitHubClient) (username : string) (fuel : nat)
    (now : Z) (inv : Inventory.t) :
  build_inventory client username fuel now = Return inv ->
  Inventory.username inv = username
  /\ Inventory.generated_utc inv = utcnow now
  /\ exists repos : list RepoInventoryItem.t,
       get_public_repos client fuel = Return repos
       /\ Forall2 (fun repo repo' =>
                     exists readme changelog recent_files,
                       repo' = set_details repo readme changelog recent_files)
                  repos (Inventory.repo inv)
       /\ StronglySorted (fun a b => RepoInventoryItem.pushed_utc b
                                     <= RepoInventoryItem.pushed_utc a)
                         (Inventory.repo inv).
Proof.
  intros Hbuild.
  assert (Hhead : Inventory.username inv = username /\ Inventory.generated_utc inv = utcnow now).
  { revert Hbuild. unfold build_inventory.
    destruct (get_public_repos client fuel) as [repos| |]; cbn [mbind outcome_bind]; try done.
    destruct (for_each _ repos) as [repos'| |]; cbn [mbind outcome_bind]; try done.
    by intros [= <-]. }
  destruct Hhead as [Huser Hnow]. split; [done|]. split; [done|].
  apply build_inventory_inv in Hbuild as (repos & Hrepos & Hall). exists repos.
  assert (Hsame : Forall2 (fun repo repo' =>
                             exists readme changelog recent_files,
                               repo' = set_details repo readme changelog recent_files)
                          repos (Inventory.repo inv)).
  { eapply Forall2_impl; [exact Hall|]. intros repo repo' Hrepo. cbv beta in Hrepo.
    destruct (decide (RepoInventoryItem.full repo ∈ hot_repo_names repos)).
    - apply fetch_details_Return in Hrepo as (readme & changelog & recent_files & _ & _ & _ & ->).
      by exists readme, changelog, recent_files.
    - injection Hrepo as <-. eexists _, _, _. apply set_details_same. }
  split; [done|]. split; [done|].
  apply (StronglySorted_Forall2_key RepoInventoryItem.pushed_utc _ repos _ Hsame).
  - by intros repo repo' (readme & changelog & recent_files & ->).
  - apply get_public_repos_inv in Hrepos as (repo_data & _ & ->).
    apply sorted_reverse_by_sorted.
Qed.

Lemma inventory_keeps_listing_witness :
  exists inv,
    build_inventory inventory_client "octo" 1 example_now = Return inv
    /\ RepoInventoryItem.full <$> Inventory.repo inv
       = ["octo/gamma"; "octo/epsilon"; "octo/delta"; "octo/alpha"]%string
    /\ StronglySorted (fun a b => RepoInventoryItem.pushed_utc b
                                  <= RepoInventoryItem.pushed_utc a)
                      (Inventory.repo inv).
Proof.
  assert (Hrun : { inv | build_inventory inventory_client "octo" 1 example_now = Return inv
                         /\ RepoInventoryItem.full <$> Inventory.repo inv
                            = ["octo/gamma"; "octo/epsilon"; "octo/delta"; "octo/alpha"]%string }).
  { eexists. vm_compute. split; reflexivity. }
  destruct Hrun as [inv [Hinv Hnames]]. exists inv. split; [exact Hinv|]. split; [exact Hnames|].
  destruct (inventory_keeps_listing inventory_client "octo" 1 example_now inv Hinv)
    as (_ & _ & repos & _ & _ & Hsorted).
  exact Hsorted.
Defined.

(** * Timestamps with an offset *)

(** X3: a fetched event whose timestamp carries a UTC offset, inside the
    window or not, makes [build_activity] raise [TypeError]: the start of the
    window is a naive [utcnow()], and the comparison of the two raises. *)
Theorem aware_timestamp_fails_activity (pytz_timezone : string -> option tzinfo)
    (client : GitHubClient) (username tz_name : string) (window_days : Z) (fuel : nat)
    (now : Z) (local_tz : tzinfo) (all_events : list event_json) :
  pytz_timezone tz_name = Some local_tz ->
  get_public_events client fuel = Return all_events ->
  Exists (fun e => utcoffset (created_at e) <> None) all_events ->
  build_activity pytz_timezone client username tz_name window_days fuel now = Raise TypeError.
Proof.
  intros Htz Hfetch Haware. unfold build_activity. cbv zeta.
  rewrite Htz, Hfetch. cbn [mbind outcome_bind].
  by rewrite window_filter_aware_raises.
Qed.

Lemma aware_timestamp_fails_activity_witness :
  build_activity pytz_utc_only (events_client aware_events) "octo" "UTC" 7 1 example_now
  = Raise TypeError.
Proof.
  apply (aware_timestamp_fails_activity pytz_utc_only (events_client aware_events) "octo" "UTC"
           7 1 example_now tz_utc aware_events eq_refl eq_refl).
  apply Exists_cons_hd. discriminate.
Defined.

(** * Nested windows *)

Lemma for_each_sublist {A B : Type} (f : A -> outcome B) (l1 l2 : list A) (r1 r2 : list B) :
  l1 `sublist_of` l2 ->
  for_each f l1 = Return r1 -> for_each f l2 = Return r2 -> r1 `sublist_of` r2.
Proof.
  intros Hsub. revert r1 r2.
  induction Hsub as [|x l1 l2 Hsub IH|x l1 l2 Hsub IH]; intros r1 r2; cbn [for_each].
  - intros [= <-] _. apply sublist_nil_l.
  - destruct (f x) as [y| |]; cbn [mbind outcome_bind]; try done.
    destruct (for_each f l1) as [r1'| |]; cbn [mbind outcome_bind]; try done.
    destruct (for_each f l2) as [r2'| |]; cbn [mbind outcome_bind]; try done.
    intros [= <-] [= <-]. apply sublist_skip. by apply IH.
  - intros Hr1. destruct (f x) as [y| |]; cbn [mbind outcome_bind]; try done.
    destruct (for_each f l2) as [r2'| |]; cbn [mbind outcome_bind]; try done.
    intros [= <-]. apply sublist_cons. by apply IH.
Qed.

Lemma counter_of_length_sublist {K : Type} `{EqDecision K} (l1 l2 : list K) :
  l1 `sublist_of` l2 -> (length (counter_of l1) <= length (counter_of l2))%nat.
Proof.
  intros Hsub.
  rewrite <- (length_fmap fst (counter_of l1)), <- (length_fmap fst (counter_of l2)).
  apply submseteq_length, NoDup_submseteq; [apply counter_of_NoDup|].
  intros k Hk. apply (proj2 (counter_of_keys l2 k)).
  apply (proj1 (counter_of_keys l1 k)) in Hk. exact (elem_of_sublist _ _ _ Hk Hsub).
Qed.

(** X24: for the same answers of the API, a window that starts later holds a
    part of the events of a window that starts earlier, as the 7-day window
    does within the 30-day window: its display records are among those of
    the wider window, in the same order, and its summary counts no more
    events and no more repositories. *)
Theorem later_window_is_nested (pytz_timezone : string -> option tzinfo)
    (client : GitHubClient) (username tz_name : string) (days1 days2 : Z) (fuel : nat)
    (now1 now2 : Z) (a1 a2 : Activity.t) :
  now2 - timedelta_days days2 <= now1 - timedelta_days days1 ->
  build_activity pytz_timezone client username tz_name days1 fuel now1 = Return a1 ->
  build_activity pytz_timezone client username tz_name days2 fuel now2 = Return a2 ->
  Activity.event a1 `sublist_of` Activity.event a2
  /\ (ActivitySummary.events (Activity.summary a1)
      <= ActivitySummary.events (Activity.summary a2))%nat
  /\ (ActivitySummary.repos (Activity.summary a1)
      <= ActivitySummary.repos (Activity.summary a2))%nat.
Proof.
  intros Hstart Ha1 Ha2.
  apply build_activity_inv in Ha1 as (tz1 & all1 & w1 & _ & Hfetch1 & Hw1 & Hev1 & Hsum1 & _).
  apply build_activity_inv in Ha2 as (tz2 & all2 & w2 & _ & Hfetch2 & Hw2 & Hev2 & Hsum2 & _).
  rewrite Hfetch1 in Hfetch2. injection Hfetch2 as <-.
  apply window_filter_Return in Hw1 as [_ ->]; [|done].
  apply window_filter_Return in Hw2 as [_ ->]; [|done].
  cbn [datetime_sub utcnow wall] in *.
  set (w1 := filter _ all1) in *. set (w2 := filter _ all1) in Hev2, Hsum2.
  assert (Hsub : w1 `sublist_of` w2).
  { unfold w1, w2. clear -Hstart. induction all1 as [|e l IH]; [done|].
    rewrite !filter_cons.
    destruct (decide (now1 - timedelta_days days1 <= wall (created_at e))).
    - rewrite decide_True by lia. by apply sublist_skip.
    - destruct (decide (now2 - timedelta_days days2 <= wall (created_at e)));
        [by apply sublist_cons|done]. }
  rewrite Hsum1, Hsum2. cbn [summary_of ActivitySummary.events ActivitySummary.repos].
  split_and!.
  - by apply (for_each_sublist activity_event w1 w2).
  - by apply sublist_length.
  - apply counter_of_length_sublist. by apply fmap_sublist.
Qed.

Lemma later_window_is_nested_witness :
  exists a1 a2,
    build_activity pytz_utc_only (events_client streak_events) "octo" "UTC" 2 1 example_now
    = Return a1
    /\ build_activity pytz_utc_only (events_client streak_events) "octo" "UTC" 7 1 example_now
       = Return a2
    /\ ActivitySummary.events (Activity.summary a1) = 1%nat
    /\ ActivitySummary.events (Activity.summary a2) = 4%nat
    /\ Activity.event a1 `sublist_of` Activity.event a2.
Proof.
  assert (H1 : { a1 | build_activity pytz_utc_only (events_client streak_events) "octo" "UTC"
                        2 1 example_now = Return a1
                      /\ ActivitySummary.events (Activity.summary a1) = 1%nat }).
  { eexists. vm_compute. split; reflexivity. }
  assert (H2 : { a2 | build_activity pytz_utc_only (events_client streak_events) "octo" "UTC"
                        7 1 example_now = Return a2
                      /\ ActivitySummary.events (Activity.summary a2) = 4%nat }).
  { eexists. vm_compute. split; reflexivity. }
  destruct H1 as [a1 [Ha1 Hn1]]. destruct H2 as [a2 [Ha2 Hn2]].
  exists a1, a2. split; [exact Ha1|]. split; [exact Ha2|]. split; [exact Hn1|].
  split; [exact Hn2|].
  refine (proj1 (later_window_is_nested pytz_utc_only (events_client streak_events) "octo" "UTC"
                   2 7 1 example_now example_now a1 a2 _ Ha1 Ha2)).
  vm_compute. discriminate.
Defined.

(** * The file system, [write_toml] and cli.py *)

Lemma append_ne_self (p suffix : string) : suffix <> ""%string -> (p +:+ suffix)%string <> p.
Proof.
  intros Hne Heq. apply Hne. clear Hne. induction p as [|c p IH]; [done|].
  injection Heq as Heq. by apply IH.
Qed.

Lemma removelast_snoc {A : Type} (l : list A) (x : A) : removelast (l ++ [x]) = l.
Proof.
  induction l as [|y l IH]; [done|]. cbn [app removelast].
  destruct (l ++ [x]) eqn:Happ; [by destruct l|]. by rewrite <- IH.
Qed.

Lemma name_joinpath (output_dir : Fs.Path) (file : string) :
  Fs.name (Fs.joinpath output_dir file) = file.
Proof. unfold Fs.name, Fs.joinpath. cbn [Fs.parts]. by rewrite last_snoc. Qed.

Lemma parent_joinpath (output_dir : Fs.Path) (file : string) :
  Fs.parent (Fs.joinpath output_dir file) = output_dir.
Proof.
  unfold Fs.parent, Fs.joinpath. cbn [Fs.parts Fs.anchor]. rewrite removelast_snoc.
  by destruct output_dir.
Qed.

Lemma with_html_suffix_joinpath (output_dir : Fs.Path) (file : string) :
  Fs.with_html_suffix (Fs.joinpath output_dir file)
  = Some (Fs.joinpath output_dir (file +:+ ".html")).
Proof.
  unfold Fs.with_html_suffix, Fs.name, Fs.joinpath. cbn [Fs.parts Fs.anchor].
  rewrite last_snoc, removelast_snoc. cbn [default].
  destruct (Fs.parts output_dir ++ [file]) as [|part rest] eqn:Hparts; [|done].
  by destruct (Fs.parts output_dir).
Qed.

Lemma joinpath_inj (output_dir : Fs.Path) (a b : string) :
  Fs.joinpath output_dir a = Fs.joinpath output_dir b -> a = b.
Proof. unfold Fs.joinpath. intros [= Heq]. apply app_inv_head in Heq. by injection Heq. Qed.

(** The wrapper is not the source. *)
Lemma with_html_suffix_ne (path html_path : Fs.Path) :
  Fs.with_html_suffix path = Some html_path -> html_path <> path.
Proof.
  unfold Fs.with_html_suffix, Fs.name. destruct path as [root components].
  cbn [Fs.parts Fs.anchor]. destruct components as [|part rest] using rev_ind; [done|].
  destruct (rest ++ [part]) as [|c cs] eqn:Hparts; [by destruct rest|]. rewrite <- Hparts.
  rewrite last_snoc, removelast_snoc. cbn [default]. intros [= <-] [= Heq].
  apply app_inv_head in Heq. injection Heq as Heq. by apply append_ne_self in Heq.
Qed.

Ltac paths_differ :=
  let Heq := fresh in
  intros Heq; apply joinpath_inj in Heq; discriminate Heq.

Lemma run_bind {D A B : Type} (m : Fs.io D A) (f : A -> Fs.io D B) (s : Fs.state D) :
  Fs.run (m ≫= f) s
  = match Fs.run m s with
    | (s', Return a) => Fs.run (f a) s'
    | (s', Raise e) => (s', Raise e)
    | (s', OutOfFuel) => (s', OutOfFuel)
    end.
Proof. reflexivity. Qed.

Lemma plain_os_obliging : Fs.obliging Fs.plain_os.
Proof.
  split_and!.
  - done.
  - intros d p content. cbn. split_and!; [done|by rewrite decide_True|].
    intros q Hq. by rewrite decide_False.
  - intros d p e. cbn. destruct (d p); [done|]. by intros [= <-].
Qed.

Lemma strict_os_only_missing : Fs.only_missing Fs.strict_os.
Proof.
  split.
  - intros d p e. cbn. destruct (Fs.texts d p); [done|]. by intros [= <-].
  - intros d p content e. cbn. destruct (decide _); [done|]. by intros [= <-].
Qed.

Lemma obliging_only_missing {D : Type} (os : Fs.os D) : Fs.obliging os -> Fs.only_missing os.
Proof.
  intros (_ & Hwrite & Hread). split; [exact Hread|].
  intros d p content e He. destruct (Hwrite d p content) as [Hnone _]. congruence.
Qed.

Section RunFacts.
Context {D : Type} (os : Fs.os D) (pytz_timezone : string -> option tzinfo)
  (hour : tzinfo -> Z -> Z) (get_template : string -> outcome template)
  (connect : string -> CacheClient)
  (dumps_inventory : Inventory.t -> exn + string) (dumps_todos : Todos.t -> exn + string)
  (dumps_activity : Activity.t -> exn + string) (fuel : nat).

(** [write_toml] returns, whatever the operating system and the serializer
    do. *)
Lemma write_toml_returns {A : Type} (dumps : A -> exn + string) (path : Fs.Path) (data : A)
    (s : Fs.state D) :
  exists s1,
    Fs.run (Fs.write_toml os dumps path data) s = (s1, Return tt) /\ Fs.log s1 = Fs.log s.
Proof.
  unfold Fs.write_toml. cbn [Fs.run].
  destruct (Fs.mkdir os _ _ _) as [d1 [e|]]; [by eexists|].
  destruct (dumps data) as [e|toml]; [by eexists|].
  destruct (Fs.write_text os d1 path toml) as [d2 [e|]]; by eexists.
Qed.

(** With a template that renders and no failure but missing files, the
    wrapper of a path with a name returns. *)
Lemma write_html_wrapper_returns (tmpl : template) (path html_path : Fs.Path)
    (s : Fs.state D) :
  renders get_template tmpl ->
  Fs.only_missing os ->
  Fs.with_html_suffix path = Some html_path ->
  exists s', Fs.run (Fs.write_html_wrapper os get_template path) s = (s', Return tt).
Proof.
  intros [Htmpl Htotal] [Hread Hwrite] Hhtml.
  unfold Fs.write_html_wrapper, Fs.render_wrapper. cbn [Fs.run]. rewrite Hhtml, Htmpl.
  destruct (Fs.read_text os (Fs.disk s) path) as [e|content] eqn:Hr.
  - rewrite (Hread _ _ _ Hr). by eexists.
  - destruct (Htotal (Fs.name path) content) as [html ->].
    destruct (Fs.write_text os (Fs.disk s) html_path html) as [d' [e|]] eqn:Hw; [|by eexists].
    assert (He : e = FileNotFoundError) by (apply (Hwrite (Fs.disk s) html_path html); by rewrite Hw).
    subst e. by eexists.
Qed.

Lemma write_feed_returns {A : Type} (dumps : A -> exn + string) (tmpl : template)
    (output_dir : Fs.Path) (file : string) (data : A) (s : Fs.state D) :
  renders get_template tmpl ->
  Fs.only_missing os ->
  exists s',
    Fs.run (Fs.write_feed os get_template dumps (Fs.joinpath output_dir file) data) s
    = (s', Return tt).
Proof.
  intros Hrenders Hmissing. unfold Fs.write_feed. rewrite run_bind.
  destruct (write_toml_returns dumps (Fs.joinpath output_dir file) data s) as (s1 & -> & _).
  apply (write_html_wrapper_returns tmpl _ _ s1 Hrenders Hmissing
           (with_html_suffix_joinpath output_dir file)).
Qed.

(** The run of [generate_feeds], build by build. *)
Lemma generate_feeds_run (username token tz_name : string) (output_dir : Fs.Path)
    (clock : Fs.Clock.t) (tmpl : template) (s : Fs.state D) :
  renders get_template tmpl ->
  Fs.only_missing os ->
  let client := Build_GitHubClient username (Some (connect token)) in
  let feed {A : Type} (dumps : A -> exn + string) (file : string) (data : A)
           (s0 : Fs.state D) :=
    (Fs.run (Fs.write_feed os get_template dumps (Fs.joinpath output_dir file) data) s0).1 in
  Fs.run (Fs.generate_feeds os pytz_timezone get_template connect dumps_inventory dumps_todos
                            dumps_activity fuel username token tz_name output_dir clock) s
  = match build_inventory client username fuel (Fs.Clock.at_inventory clock) with
    | Return inventory =>
        let s1 := feed dumps_inventory "inventory.toml"%string inventory s in
        match build_todos client inventory (Fs.Clock.at_todos clock) with
        | Return todos =>
            let s2 := feed dumps_todos "todos.toml"%string todos s1 in
            match build_activity pytz_timezone client username tz_name 7 fuel
                                 (Fs.Clock.at_activity clock 7) with
            | Return week =>
                let s3 := feed dumps_activity "latest-7d.toml"%string week s2 in
                match build_activity pytz_timezone client username tz_name 30 fuel
                                     (Fs.Clock.at_activity clock 30) with
                | Return month =>
                    (feed dumps_activity "latest-30d.toml"%string month s3, Return tt)
                | Raise e => (s3, Raise e)
                | OutOfFuel => (s3, OutOfFuel)
                end
            | Raise e => (s2, Raise e)
            | OutOfFuel => (s2, OutOfFuel)
            end
        | Raise e => (s1, Raise e)
        | OutOfFuel => (s1, OutOfFuel)
        end
    | Raise e => (s, Raise e)
    | OutOfFuel => (s, OutOfFuel)
    end.
Proof.
  intros Hrenders Hmissing client feed.
  assert (Hfeed : forall (A : Type) (dumps : A -> exn + string) file data s0,
             Fs.run (Fs.write_feed os get_template dumps (Fs.joinpath output_dir file) data) s0
             = (feed A dumps file data s0, Return tt)).
  { intros A dumps file data s0.
    destruct (write_feed_returns dumps tmpl output_dir file data s0 Hrenders Hmissing)
      as (s' & Hs').
    unfold feed. by rewrite Hs'. }
  unfold Fs.generate_feeds. cbv zeta. fold client. rewrite run_bind. cbn [Fs.lift Fs.run].
  destruct (build_inventory client username fuel _) as [inventory| |]; [|done..].
  rewrite run_bind, Hfeed, run_bind. cbn [Fs.lift Fs.run].
  destruct (build_todos client inventory _) as [todos| |]; [|done..].
  rewrite run_bind, Hfeed. cbn [Fs.io_for_each]. rewrite run_bind.
  unfold Fs.activity_feed at 1. rewrite run_bind. cbn [Fs.lift Fs.run].
  destruct (build_activity pytz_timezone client username tz_name 7 fuel _) as [week| |];
    [|done..].
  change (Fs.joinpath output_dir ("latest-" +:+ pretty 7 +:+ "d.toml"))
    with (Fs.joinpath output_dir "latest-7d.toml").
  rewrite Hfeed, run_bind. unfold Fs.activity_feed at 1. rewrite run_bind.
  cbn [Fs.lift Fs.run].
  destruct (build_activity pytz_timezone client username tz_name 30 fuel _) as [month| |];
    [|done..].
  change (Fs.joinpath output_dir ("latest-" +:+ pretty 30 +:+ "d.toml"))
    with (Fs.joinpath output_dir "latest-30d.toml").
  by rewrite Hfeed.
Qed.

(** The run of [main] once its guards are passed. *)
Lemma main_run (args : Fs.Namespace.t) (environ : Fs.Environ.t) (clock : Fs.Clock.t)
    (username token : string) (local_tz : tzinfo) (s : Fs.state D) :
  Fs.or_else (Fs.Namespace.username args) (Fs.Environ.GITHUB_USERNAME environ)
  = Some username ->
  username <> ""%string ->
  Fs.or_else (Fs.Namespace.token args) (Fs.Environ.GITHUB_TOKEN environ) = Some token ->
  token <> ""%string ->
  pytz_timezone (default "America/New_York"%string (Fs.Environ.TZ_NAME environ))
  = Some local_tz ->
  hour local_tz (Fs.Clock.at_guard clock) = 17 \/ Fs.Namespace.force args = true ->
  Fs.run (Fs.main os pytz_timezone hour get_template connect dumps_inventory dumps_todos
                  dumps_activity fuel args environ clock) s
  = match Fs.mkdir os (Fs.disk s) (Fs.Namespace.output_dir args) false with
    | (d, Some e) => (Fs.State d (Fs.log s), Raise e)
    | (d, None) =>
        match Fs.run (Fs.generate_feeds os pytz_timezone get_template connect dumps_inventory
                        dumps_todos dumps_activity fuel username token
                        (default "America/New_York"%string (Fs.Environ.TZ_NAME environ))
                        (Fs.Namespace.output_dir args) clock) (Fs.State d (Fs.log s)) with
        | (s', Return _) => (s', Return 0)
        | (s', Raise _) => (s', Return 1)
        | (s', OutOfFuel) => (s', OutOfFuel)
        end
    end.
Proof.
  intros Huser Hu Htoken Ht Htz Hgo. unfold Fs.main. cbv zeta. cbn [Fs.run].
  rewrite Huser, Htoken, Htz. destruct username; [done|]. destruct token; [done|].
  cbn [truthy negb orb default].
  destruct Hgo as [-> | ->]; [rewrite Z.eqb_refl|rewrite andb_false_r]; done.
Qed.

(** On an obliging file system, a feed that is serialized is written with
    its wrapper, and no other file reads differently. *)
Lemma write_feed_obliging {A : Type} (dumps : A -> exn + string) (tmpl : template)
    (output_dir : Fs.Path) (file : string) (data : A) (s : Fs.state D) (toml : string) :
  renders get_template tmpl ->
  Fs.obliging os ->
  dumps data = inr toml ->
  let s' := (Fs.run (Fs.write_feed os get_template dumps (Fs.joinpath output_dir file) data)
                    s).1 in
  Fs.read_text os (Fs.disk s') (Fs.joinpath output_dir file) = inr toml
  /\ (exists html,
         tmpl file toml = Return html
         /\ Fs.read_text os (Fs.disk s') (Fs.joinpath output_dir (file +:+ ".html"))
            = inr html)
  /\ (forall q,
         q <> Fs.joinpath output_dir file ->
         q <> Fs.joinpath output_dir (file +:+ ".html") ->
         Fs.read_text os (Fs.disk s') q = Fs.read_text os (Fs.disk s) q).
Proof.
  intros [Htmpl Htotal] (Hmkdir & Hwrite & _) Hdumps s'.
  set (path := Fs.joinpath output_dir file) in *.
  set (html_path := Fs.joinpath output_dir (file +:+ ".html")).
  assert (Hne : html_path <> path).
  { apply with_html_suffix_ne. apply with_html_suffix_joinpath. }
  destruct (Hmkdir (Fs.disk s) (Fs.parent path) true) as [Hmade Hkept].
  destruct (Fs.mkdir os (Fs.disk s) (Fs.parent path) true) as [d1 made] eqn:Hm.
  cbn [fst snd] in Hmade, Hkept. subst made.
  destruct (Hwrite d1 path toml) as (Hwritten & Hback & Hothers).
  destruct (Fs.write_text os d1 path toml) as [d2 written] eqn:Hw.
  cbn [fst snd] in Hwritten, Hback, Hothers. subst written.
  destruct (Htotal file toml) as [html Hhtml].
  destruct (Hwrite d2 html_path html) as (Hwritten' & Hback' & Hothers').
  destruct (Fs.write_text os d2 html_path html) as [d3 written'] eqn:Hw'.
  cbn [fst snd] in Hwritten', Hback', Hothers'. subst written'.
  assert (Hrun : Fs.run (Fs.write_feed os get_template dumps path data) s
                 = (Fs.logged (LogInfoWroteHtml (Fs.str html_path)) (Fs.State d3 (Fs.log s)),
                    Return tt)).
  { unfold Fs.write_feed. rewrite run_bind. unfold Fs.write_toml. cbn [Fs.run].
    rewrite Hm, Hdumps, Hw.
    unfold Fs.write_html_wrapper, Fs.render_wrapper. cbn [Fs.run Fs.disk Fs.log].
    unfold path at 1. rewrite with_html_suffix_joinpath. fold path html_path.
    rewrite Htmpl, Hback. unfold path at 1. rewrite name_joinpath, Hhtml, Hw'. done. }
  unfold s'. rewrite Hrun. cbn [fst Fs.logged Fs.disk]. split_and!.
  - rewrite Hothers' by done. exact Hback.
  - by exists html.
  - intros q Hq Hq'. by rewrite Hothers', Hothers, Hkept.
Qed.

(** X18: [write_toml] followed by [write_html_wrapper].  [write_toml] never
    raises, whatever the operating system and the serializer do, and writes
    no file when the model cannot be serialized.  The wrapper of a path with
    an empty name raises [ValueError].  For a path with a name: when the
    directory is made, the model serialized and the file written and read
    back, the wrapper is written from the text just written; a source that
    is missing when the wrapper reads it is logged and the call returns; a
    model that cannot be serialized leaves an earlier file to be wrapped;
    and any other failure of the read is logged and raised. *)
Theorem write_toml_then_wrapper {A : Type} (dumps : A -> exn + string)
    (path html_path : Fs.Path) (data : A) (s : Fs.state D) :
  let feed := Fs.run (Fs.write_feed os get_template dumps path data) s in
  (exists s1,
      Fs.run (Fs.write_toml os dumps path data) s = (s1, Return tt)
      /\ Fs.log s1 = Fs.log s
      /\ (forall e, dumps data = inl e ->
                    Fs.disk s1 = (Fs.mkdir os (Fs.disk s) (Fs.parent path) true).1))
  /\ (Fs.with_html_suffix path = None -> feed.2 = Raise ValueError)
  /\ (Fs.with_html_suffix path = Some html_path ->
      (forall d1 toml d2 tmpl html d3,
          Fs.mkdir os (Fs.disk s) (Fs.parent path) true = (d1, None) ->
          dumps data = inr toml ->
          Fs.write_text os d1 path toml = (d2, None) ->
          get_template "wrapper.html.jinja2"%string = Return tmpl ->
          Fs.read_text os d2 path = inr toml ->
          tmpl (Fs.name path) toml = Return html ->
          Fs.write_text os d2 html_path html = (d3, None) ->
          feed = (Fs.State d3 (Fs.log s ++ [LogInfoWroteHtml (Fs.str html_path)]), Return tt))
      /\ (forall s1 tmpl,
            Fs.run (Fs.write_toml os dumps path data) s = (s1, Return tt) ->
            get_template "wrapper.html.jinja2"%string = Return tmpl ->
            Fs.read_text os (Fs.disk s1) path = inl FileNotFoundError ->
            feed = (Fs.logged (LogErrorSourceNotFound (Fs.str path)) s1, Return tt))
      /\ (forall d1 e stale tmpl html d3,
            Fs.mkdir os (Fs.disk s) (Fs.parent path) true = (d1, None) ->
            dumps data = inl e ->
            get_template "wrapper.html.jinja2"%string = Return tmpl ->
            Fs.read_text os d1 path = inr stale ->
            tmpl (Fs.name path) stale = Return html ->
            Fs.write_text os d1 html_path html = (d3, None) ->
            feed = (Fs.State d3 (Fs.log s ++ [LogInfoWroteHtml (Fs.str html_path)]),
                    Return tt))
      /\ (forall s1 tmpl e,
            Fs.run (Fs.write_toml os dumps path data) s = (s1, Return tt) ->
            get_template "wrapper.html.jinja2"%string = Return tmpl ->
            Fs.read_text os (Fs.disk s1) path = inl e ->
            e <> FileNotFoundError ->
            feed = (Fs.logged (LogErrorHtmlFailed (Fs.str html_path) e) s1, Raise e))).
Proof.
  intros feed. unfold feed. clear feed. split_and!.
  - unfold Fs.write_toml. cbn [Fs.run].
    destruct (Fs.mkdir os _ _ _) as [d1 [e|]]; [eexists; split_and!; done|].
    destruct (dumps data) as [e|toml]; [eexists; split_and!; done|].
    destruct (Fs.write_text os d1 path toml) as [d2 [e|]]; eexists; split_and!; done.
  - intros Hnone. unfold Fs.write_feed. rewrite run_bind.
    destruct (write_toml_returns dumps path data s) as (s1 & -> & _).
    unfold Fs.write_html_wrapper. cbn [Fs.run]. by rewrite Hnone.
  - intros Hhtml. split_and!.
    + intros d1 toml d2 tmpl html d3 Hm Hdumps Hw Htmpl Hback Hrender Hw'.
      unfold Fs.write_feed. rewrite run_bind. unfold Fs.write_toml. cbn [Fs.run].
      rewrite Hm, Hdumps, Hw.
      unfold Fs.write_html_wrapper, Fs.render_wrapper. cbn [Fs.run Fs.disk Fs.log].
      by rewrite Hhtml, Htmpl, Hback, Hrender, Hw'.
    + intros s1 tmpl Hs1 Htmpl Hread. unfold Fs.write_feed. rewrite run_bind, Hs1.
      unfold Fs.write_html_wrapper, Fs.render_wrapper. cbn [Fs.run].
      by rewrite Hhtml, Htmpl, Hread.
    + intros d1 e stale tmpl html d3 Hm Hdumps Htmpl Hread Hrender Hw'.
      unfold Fs.write_feed. rewrite run_bind. unfold Fs.write_toml. cbn [Fs.run].
      rewrite Hm, Hdumps.
      unfold Fs.write_html_wrapper, Fs.render_wrapper. cbn [Fs.run Fs.disk Fs.log].
      by rewrite Hhtml, Htmpl, Hread, Hrender, Hw'.
    + intros s1 tmpl e Hs1 Htmpl Hread He. unfold Fs.write_feed. rewrite run_bind, Hs1.
      unfold Fs.write_html_wrapper, Fs.render_wrapper. cbn [Fs.run].
      rewrite Hhtml, Htmpl, Hread. by destruct e.
Qed.

(** X19: the guards of [main], in their order.  Without a user name or a
    token the exit code is 1, at any hour and with [--force]; with them and
    an unknown time zone it is 1 as well; with a known time zone, outside the
    hour 17 and without [--force], the run is skipped with exit code 0.  In
    the three cases the output directory is left as it was. *)
Theorem main_guards (args : Fs.Namespace.t) (environ : Fs.Environ.t) (clock : Fs.Clock.t)
    (s : Fs.state D) :
  let username :=
    Fs.or_else (Fs.Namespace.username args) (Fs.Environ.GITHUB_USERNAME environ) in
  let token := Fs.or_else (Fs.Namespace.token args) (Fs.Environ.GITHUB_TOKEN environ) in
  let tz_name := default "America/New_York"%string (Fs.Environ.TZ_NAME environ) in
  let exit := Fs.run (Fs.main os pytz_timezone hour get_template connect dumps_inventory
                              dumps_todos dumps_activity fuel args environ clock) s in
  (truthy username = false \/ truthy token = false -> exit = (s, Return 1))
  /\ (truthy username = true -> truthy token = true -> pytz_timezone tz_name = None ->
      exit = (s, Return 1))
  /\ (forall local_tz,
        truthy username = true -> truthy token = true ->
        pytz_timezone tz_name = Some local_tz ->
        hour local_tz (Fs.Clock.at_guard clock) <> 17 -> Fs.Namespace.force args = false ->
        exit = (s, Return 0)).
Proof.
  intros username token tz_name exit. unfold exit, Fs.main. cbv zeta. cbn [Fs.run].
  fold username token tz_name. split_and!.
  - intros [-> | ->]; [done|]. by rewrite orb_true_r.
  - intros -> -> ->. done.
  - intros local_tz -> -> -> Hhour ->. cbn [negb orb andb].
    destruct (Z.eqb_spec (hour local_tz (Fs.Clock.at_guard clock)) 17); done.
Qed.

(** X20: once the guards are passed, [main] makes the output directory
    outside any [try]: when that raises, the exception leaves [main] and
    there is no exit code.  When the directory is made, with a template that
    renders and no failure of reading and writing but missing files and
    directories, the exit code follows the four builds alone: it is 0 when
    the inventory, the TODOs and the two activity feeds are built, and 1 when
    one of the builds raises, whether or not the models can be serialized and
    the files written. *)
Theorem main_exit_code (args : Fs.Namespace.t) (environ : Fs.Environ.t) (clock : Fs.Clock.t)
    (username token : string) (local_tz : tzinfo) (tmpl : template) (s : Fs.state D) :
  Fs.or_else (Fs.Namespace.username args) (Fs.Environ.GITHUB_USERNAME environ)
  = Some username ->
  username <> ""%string ->
  Fs.or_else (Fs.Namespace.token args) (Fs.Environ.GITHUB_TOKEN environ) = Some token ->
  token <> ""%string ->
  pytz_timezone (default "America/New_York"%string (Fs.Environ.TZ_NAME environ))
  = Some local_tz ->
  hour local_tz (Fs.Clock.at_guard clock) = 17 \/ Fs.Namespace.force args = true ->
  renders get_template tmpl ->
  Fs.only_missing os ->
  let client := Build_GitHubClient username (Some (connect token)) in
  let tz_name := default "America/New_York"%string (Fs.Environ.TZ_NAME environ) in
  let exit := Fs.run (Fs.main os pytz_timezone hour get_template connect dumps_inventory
                              dumps_todos dumps_activity fuel args environ clock) s in
  match Fs.mkdir os (Fs.disk s) (Fs.Namespace.output_dir args) false with
  | (d, Some e) => exit = (Fs.State d (Fs.log s), Raise e)
  | (d, None) =>
      (forall inventory todos week month,
          build_inventory client username fuel (Fs.Clock.at_inventory clock)
          = Return inventory ->
          build_todos client inventory (Fs.Clock.at_todos clock) = Return todos ->
          build_activity pytz_timezone client username tz_name 7 fuel
                         (Fs.Clock.at_activity clock 7) = Return week ->
          build_activity pytz_timezone client username tz_name 30 fuel
                         (Fs.Clock.at_activity clock 30) = Return month ->
          exit.2 = Return 0)
      /\ (forall e, run_builds pytz_timezone client username tz_name fuel clock = Raise e ->
                    exit.2 = Return 1)
  end.
Proof.
  intros Huser Hu Htoken Ht Htz Hgo Hrenders Hmissing client tz_name exit.
  unfold exit. clear exit.
  rewrite (main_run args environ clock username token local_tz s Huser Hu Htoken Ht Htz Hgo).
  destruct (Fs.mkdir os (Fs.disk s) (Fs.Namespace.output_dir args) false) as [d [e|]];
    [done|].
  rewrite (generate_feeds_run username token _ (Fs.Namespace.output_dir args) clock tmpl _
             Hrenders Hmissing).
  cbv zeta. fold client tz_name. unfold run_builds. split.
  - intros inventory todos week month -> -> -> ->. done.
  - destruct (build_inventory client username fuel _) as [inventory| |];
      cbn [mbind outcome_bind snd]; [|by intros e0 [= <-]|done].
    destruct (build_todos client inventory _) as [todos| |]; cbn [mbind outcome_bind snd];
      [|by intros e0 [= <-]|done].
    destruct (build_activity pytz_timezone client username tz_name 7 fuel _) as [week| |];
      cbn [mbind outcome_bind snd]; [|by intros e0 [= <-]|done].
    destruct (build_activity pytz_timezone client username tz_name 30 fuel _) as [month| |];
      cbn [mbind outcome_bind snd]; [done|by intros e0 [= <-]|done].
Qed.

(** X21: on an obliging file system, when the inventory and the TODOs are
    built and serialized and the build of the 7-day activity feed raises,
    [main] ends with exit code 1 and leaves the feeds of the inventory and of
    the TODOs, with their wrappers, in the output directory; no other file
    reads differently. *)
Theorem failed_activity_keeps_earlier_feeds (args : Fs.Namespace.t) (environ : Fs.Environ.t)
    (clock : Fs.Clock.t) (username token : string) (local_tz : tzinfo) (tmpl : template)
    (s : Fs.state D) (inventory : Inventory.t) (todos : Todos.t)
    (inventory_toml todos_toml : string) (e : exn) :
  Fs.or_else (Fs.Namespace.username args) (Fs.Environ.GITHUB_USERNAME environ)
  = Some username ->
  username <> ""%string ->
  Fs.or_else (Fs.Namespace.token args) (Fs.Environ.GITHUB_TOKEN environ) = Some token ->
  token <> ""%string ->
  pytz_timezone (default "America/New_York"%string (Fs.Environ.TZ_NAME environ))
  = Some local_tz ->
  hour local_tz (Fs.Clock.at_guard clock) = 17 \/ Fs.Namespace.force args = true ->
  renders get_template tmpl ->
  Fs.obliging os ->
  let client := Build_GitHubClient username (Some (connect token)) in
  let tz_name := default "America/New_York"%string (Fs.Environ.TZ_NAME environ) in
  let file := Fs.joinpath (Fs.Namespace.output_dir args) in
  build_inventory client username fuel (Fs.Clock.at_inventory clock) = Return inventory ->
  dumps_inventory inventory = inr inventory_toml ->
  build_todos client inventory (Fs.Clock.at_todos clock) = Return todos ->
  dumps_todos todos = inr todos_toml ->
  build_activity pytz_timezone client username tz_name 7 fuel (Fs.Clock.at_activity clock 7)
  = Raise e ->
  exists s',
    Fs.run (Fs.main os pytz_timezone hour get_template connect dumps_inventory dumps_todos
                    dumps_activity fuel args environ clock) s = (s', Return 1)
    /\ Fs.read_text os (Fs.disk s') (file "inventory.toml"%string) = inr inventory_toml
    /\ (exists html, tmpl "inventory.toml"%string inventory_toml = Return html
                     /\ Fs.read_text os (Fs.disk s') (file "inventory.toml.html"%string)
                        = inr html)
    /\ Fs.read_text os (Fs.disk s') (file "todos.toml"%string) = inr todos_toml
    /\ (exists html, tmpl "todos.toml"%string todos_toml = Return html
                     /\ Fs.read_text os (Fs.disk s') (file "todos.toml.html"%string)
                        = inr html)
    /\ (forall q,
          q ∉ [ file "inventory.toml"; file "inventory.toml.html";
                file "todos.toml"; file "todos.toml.html" ]%string ->
          Fs.read_text os (Fs.disk s') q = Fs.read_text os (Fs.disk s) q).
Proof.
  intros Huser Hu Htoken Ht Htz Hgo Hrenders Hobliging client tz_name file
    Hinventory Hdi Htodos Hdt Hweek.
  rewrite (main_run args environ clock username token local_tz s Huser Hu Htoken Ht Htz Hgo).
  destruct (proj1 Hobliging (Fs.disk s) (Fs.Namespace.output_dir args) false)
    as [Hmade Hkept].
  destruct (Fs.mkdir os (Fs.disk s) (Fs.Namespace.output_dir args) false) as [d0 made].
  cbn [fst snd] in Hmade, Hkept. subst made.
  rewrite (generate_feeds_run username token _ (Fs.Namespace.output_dir args) clock tmpl _
             Hrenders (obliging_only_missing os Hobliging)).
  cbv zeta. fold client tz_name. rewrite Hinventory, Htodos, Hweek.
  set (s0 := Fs.State d0 (Fs.log s)).
  destruct (write_feed_obliging dumps_inventory tmpl (Fs.Namespace.output_dir args)
              "inventory.toml" inventory s0 inventory_toml Hrenders Hobliging Hdi)
    as (Hi & (html_i & Hhtml_i & Hiw) & Hframe1).
  set (s1 := (Fs.run (Fs.write_feed os get_template dumps_inventory _ inventory) s0).1) in *.
  destruct (write_feed_obliging dumps_todos tmpl (Fs.Namespace.output_dir args)
              "todos.toml" todos s1 todos_toml Hrenders Hobliging Hdt)
    as (Htd & (html_t & Hhtml_t & Htw) & Hframe2).
  set (s2 := (Fs.run (Fs.write_feed os get_template dumps_todos _ todos) s1).1) in *.
  exists s2. split; [done|]. unfold file. split_and!.
  - rewrite Hframe2 by paths_differ. done.
  - exists html_i. split; [done|]. rewrite Hframe2 by paths_differ. done.
  - done.
  - by exists html_t.
  - intros q Hq. rewrite !not_elem_of_cons in Hq. destruct Hq as (? & ? & ? & ? & _).
    rewrite Hframe2, Hframe1 by done. apply Hkept.
Qed.

(** X22: on an obliging file system, when the four builds return and the
    four models are serialized, [main] ends with exit code 0 and the output
    directory holds the four feeds, each with the wrapper rendered from it;
    no other file reads differently. *)
Theorem main_writes_all_feeds (args : Fs.Namespace.t) (environ : Fs.Environ.t)
    (clock : Fs.Clock.t) (username token : string) (local_tz : tzinfo) (tmpl : template)
    (s : Fs.state D) (inventory : Inventory.t) (todos : Todos.t) (week month : Activity.t)
    (inventory_toml todos_toml week_toml month_toml : string) :
  Fs.or_else (Fs.Namespace.username args) (Fs.Environ.GITHUB_USERNAME environ)
  = Some username ->
  username <> ""%string ->
  Fs.or_else (Fs.Namespace.token args) (Fs.Environ.GITHUB_TOKEN environ) = Some token ->
  token <> ""%string ->
  pytz_timezone (default "America/New_York"%string (Fs.Environ.TZ_NAME environ))
  = Some local_tz ->
  hour local_tz (Fs.Clock.at_guard clock) = 17 \/ Fs.Namespace.force args = true ->
  renders get_template tmpl ->
  Fs.obliging os ->
  let client := Build_GitHubClient username (Some (connect token)) in
  let tz_name := default "America/New_York"%string (Fs.Environ.TZ_NAME environ) in
  let feeds :=
    [ ("inventory.toml", inventory_toml); ("todos.toml", todos_toml);
      ("latest-7d.toml", week_toml); ("latest-30d.toml", month_toml) ]%string in
  let file := Fs.joinpath (Fs.Namespace.output_dir args) in
  build_inventory client username fuel (Fs.Clock.at_inventory clock) = Return inventory ->
  dumps_inventory inventory = inr inventory_toml ->
  build_todos client inventory (Fs.Clock.at_todos clock) = Return todos ->
  dumps_todos todos = inr todos_toml ->
  build_activity pytz_timezone client username tz_name 7 fuel (Fs.Clock.at_activity clock 7)
  = Return week ->
  dumps_activity week = inr week_toml ->
  build_activity pytz_timezone client username tz_name 30 fuel (Fs.Clock.at_activity clock 30)
  = Return month ->
  dumps_activity month = inr month_toml ->
  exists s',
    Fs.run (Fs.main os pytz_timezone hour get_template connect dumps_inventory dumps_todos
                    dumps_activity fuel args environ clock) s = (s', Return 0)
    /\ Forall (fun feed =>
                 Fs.read_text os (Fs.disk s') (file feed.1) = inr feed.2
                 /\ exists html,
                      tmpl feed.1 feed.2 = Return html
                      /\ Fs.read_text os (Fs.disk s') (file (feed.1 +:+ ".html")) = inr html)
              feeds
    /\ (forall q,
          q ∉ file <$> feeds.*1 ->
          q ∉ (fun feed => file (feed.1 +:+ ".html")) <$> feeds ->
          Fs.read_text os (Fs.disk s') q = Fs.read_text os (Fs.disk s) q).
Proof.
  intros Huser Hu Htoken Ht Htz Hgo Hrenders Hobliging client tz_name feeds file
    Hinventory Hdi Htodos Hdt Hweek Hdw Hmonth Hdm.
  rewrite (main_run args environ clock username token local_tz s Huser Hu Htoken Ht Htz Hgo).
  destruct (proj1 Hobliging (Fs.disk s) (Fs.Namespace.output_dir args) false)
    as [Hmade Hkept].
  destruct (Fs.mkdir os (Fs.disk s) (Fs.Namespace.output_dir args) false) as [d0 made].
  cbn [fst snd] in Hmade, Hkept. subst made.
  rewrite (generate_feeds_run username token _ (Fs.Namespace.output_dir args) clock tmpl _
             Hrenders (obliging_only_missing os Hobliging)).
  cbv zeta. fold client tz_name. rewrite Hinventory, Htodos, Hweek, Hmonth.
  set (out := Fs.Namespace.output_dir args) in *.
  set (s0 := Fs.State d0 (Fs.log s)).
  destruct (write_feed_obliging dumps_inventory tmpl out "inventory.toml" inventory s0
              inventory_toml Hrenders Hobliging Hdi) as (Hi & (html_i & Hhtml_i & Hiw) & Hframe1).
  set (s1 := (Fs.run (Fs.write_feed os get_template dumps_inventory _ inventory) s0).1) in *.
  destruct (write_feed_obliging dumps_todos tmpl out "todos.toml" todos s1
              todos_toml Hrenders Hobliging Hdt) as (Htd & (html_t & Hhtml_t & Htw) & Hframe2).
  set (s2 := (Fs.run (Fs.write_feed os get_template dumps_todos _ todos) s1).1) in *.
  destruct (write_feed_obliging dumps_activity tmpl out "latest-7d.toml" week s2
              week_toml Hrenders Hobliging Hdw) as (Hwk & (html_w & Hhtml_w & Hww) & Hframe3).
  set (s3 := (Fs.run (Fs.write_feed os get_template dumps_activity _ week) s2).1) in *.
  destruct (write_feed_obliging dumps_activity tmpl out "latest-30d.toml" month s3
              month_toml Hrenders Hobliging Hdm) as (Hmo & (html_m & Hhtml_m & Hmw) & Hframe4).
  set (s4 := (Fs.run (Fs.write_feed os get_template dumps_activity _ month) s3).1) in *.
  exists s4. split; [done|]. unfold file. split.
  - unfold feeds. repeat apply Forall_cons_2; [| | | |apply Forall_nil_2]; cbn [fst snd]; split.
    + rewrite Hframe4, Hframe3, Hframe2 by paths_differ. done.
    + exists html_i. split; [done|]. rewrite Hframe4, Hframe3, Hframe2 by paths_differ. done.
    + rewrite Hframe4, Hframe3 by paths_differ. done.
    + exists html_t. split; [done|]. rewrite Hframe4, Hframe3 by paths_differ. done.
    + rewrite Hframe4 by paths_differ. done.
    + exists html_w. split; [done|]. rewrite Hframe4 by paths_differ. done.
    + done.
    + by exists html_m.
  - intros q Hq Hq'. unfold feeds in Hq, Hq'. cbn [fmap list_fmap fst] in Hq, Hq'.
    rewrite !not_elem_of_cons in Hq. rewrite !not_elem_of_cons in Hq'.
    destruct Hq as (? & ? & ? & ? & _). destruct Hq' as (? & ? & ? & ? & _).
    rewrite Hframe4, Hframe3, Hframe2, Hframe1 by done. apply Hkept.
Qed.
End RunFacts.

Lemma package_templates_render : renders package_templates wrapper_template.
Proof. split; [reflexivity|]. intros title content. eexists. reflexivity. Qed.

(** In an empty working directory, [write_toml] makes [docs] and writes the
    file, and the wrapper is rendered from it. *)
Example feed_written :
  let s' := (Fs.run (Fs.write_feed Fs.strict_os package_templates
                                    (dumps_stub "schema_version = 1")
                                    (Fs.joinpath docs "inventory.toml") tt)
                    (Fs.State Fs.empty_tree [])) in
  s'.2 = Return tt
  /\ Fs.log s'.1 = [LogInfoWroteHtml "docs/inventory.toml.html"]
  /\ Fs.read_text Fs.strict_os (Fs.disk s'.1) (Fs.joinpath docs "inventory.toml")
     = inr "schema_version = 1"%string
  /\ Fs.read_text Fs.strict_os (Fs.disk s'.1) (Fs.joinpath docs "inventory.toml.html")
     = inr ("<html><head><title>inventory.toml</title></head><body><pre>"
            +:+ "schema_version = 1" +:+ "</pre></body></html>")%string.
Proof. vm_compute. split_and!; reflexivity. Qed.

(** A model that is not serialized, in an empty directory: nothing is
    written, the missing source is logged, and the caller is not told.  The
    wrapper of the working directory itself raises [ValueError]. *)
Example failed_dump_is_silent :
  let s' := (Fs.run (Fs.write_feed Fs.strict_os package_templates (dumps_failing (A := unit))
                                    (Fs.joinpath docs "inventory.toml") tt)
                    (Fs.State Fs.empty_tree [])) in
  s'.2 = Return tt
  /\ Fs.log s'.1 = [LogErrorSourceNotFound "docs/inventory.toml"]
  /\ Fs.read_text Fs.strict_os (Fs.disk s'.1) (Fs.joinpath docs "inventory.toml")
     = inl FileNotFoundError
  /\ (Fs.run (Fs.write_html_wrapper Fs.strict_os package_templates (Fs.MkPath "" []))
             (Fs.State Fs.empty_tree [])).2
     = Raise ValueError.
Proof. vm_compute. split_and!; reflexivity. Qed.

(** Without a token the run fails, with [--force] as well; outside the hour
    17 and without [--force] it is skipped. *)
Example main_guards_examples :
  Fs.run (Fs.main Fs.strict_os pytz_utc_only hour_utc package_templates (fun _ => quiet_cache)
                  (dumps_stub "inventory") (dumps_stub "todos") (dumps_stub "activity") 1
                  (forced_args docs)
                  {| Fs.Environ.GITHUB_USERNAME := Some "octo"%string;
                     Fs.Environ.GITHUB_TOKEN := None;
                     Fs.Environ.TZ_NAME := Some "UTC"%string |}
                  example_clock) (Fs.State Fs.empty_tree [])
  = (Fs.State Fs.empty_tree [], Return 1)
  /\ Fs.run (Fs.main Fs.strict_os pytz_utc_only hour_utc package_templates
                     (fun _ => quiet_cache)
                     (dumps_stub "inventory") (dumps_stub "todos") (dumps_stub "activity") 1
                     {| Fs.Namespace.force := false; Fs.Namespace.username := None;
                        Fs.Namespace.token := None; Fs.Namespace.output_dir := docs |}
                     example_environ example_clock) (Fs.State Fs.empty_tree [])
     = (Fs.State Fs.empty_tree [], Return 0).
Proof. split; vm_compute; reflexivity. Qed.

Lemma main_exit_code_witness :
  Fs.run (Fs.main Fs.strict_os pytz_utc_only hour_utc package_templates (fun _ => quiet_cache)
                  (dumps_stub "inventory") (dumps_stub "todos") (dumps_stub "activity") 1
                  (forced_args out_feeds) example_environ example_clock)
         (Fs.State Fs.empty_tree [])
  = (Fs.State Fs.empty_tree [], Raise FileNotFoundError)
  /\ (Fs.run (Fs.main Fs.strict_os pytz_utc_only hour_utc package_templates
                      (fun _ => aware_cache)
                      (dumps_stub "inventory") (dumps_stub "todos") (dumps_stub "activity") 1
                      (forced_args docs) example_environ example_clock)
             (Fs.State Fs.empty_tree [])).2
     = Return 1
  /\ (Fs.run (Fs.main Fs.strict_os pytz_utc_only hour_utc package_templates
                      (fun _ => quiet_cache) dumps_failing dumps_failing dumps_failing 1
                      (forced_args docs) example_environ example_clock)
             (Fs.State Fs.empty_tree [])).2
     = Return 0.
Proof.
  split_and!.
  - exact (main_exit_code Fs.strict_os pytz_utc_only hour_utc package_templates
             (fun _ => quiet_cache)
             (dumps_stub "inventory") (dumps_stub "todos") (dumps_stub "activity") 1
             (forced_args out_feeds) example_environ example_clock "octo" "secret" tz_utc
             wrapper_template (Fs.State Fs.empty_tree []) eq_refl ltac:(discriminate) eq_refl
             ltac:(discriminate) eq_refl (or_intror eq_refl) package_templates_render
             strict_os_only_missing).
  - refine (proj2 (main_exit_code Fs.strict_os pytz_utc_only hour_utc package_templates
             (fun _ => aware_cache)
             (dumps_stub "inventory") (dumps_stub "todos") (dumps_stub "activity") 1
             (forced_args docs) example_environ example_clock "octo" "secret" tz_utc
             wrapper_template (Fs.State Fs.empty_tree []) eq_refl ltac:(discriminate) eq_refl
             ltac:(discriminate) eq_refl (or_intror eq_refl) package_templates_render
             strict_os_only_missing) TypeError _).
    vm_compute. reflexivity.
  - set (client := Build_GitHubClient "octo" (Some quiet_cache)).
    assert (Hinventory : { inventory | build_inventory client "octo" 1 example_now
                                       = Return inventory }).
    { eexists. vm_compute. reflexivity. }
    destruct Hinventory as [inventory Hinventory].
    assert (Htodos : { todos | build_todos client inventory example_now = Return todos }).
    { assert (Hrun : { todos | (inventory ← build_inventory client "octo" 1 example_now;
                                build_todos client inventory example_now) = Return todos }).
      { eexists. vm_compute. reflexivity. }
      destruct Hrun as [todos Hrun]. exists todos. by rewrite Hinventory in Hrun. }
    destruct Htodos as [todos Htodos].
    assert (Hweek : { week | build_activity pytz_utc_only client "octo" "UTC" 7 1 example_now
                             = Return week }).
    { eexists. vm_compute. reflexivity. }
    destruct Hweek as [week Hweek].
    assert (Hmonth : { month | build_activity pytz_utc_only client "octo" "UTC" 30 1
                                 example_now = Return month }).
    { eexists. vm_compute. reflexivity. }
    destruct Hmonth as [month Hmonth].
    exact (proj1 (main_exit_code Fs.strict_os pytz_utc_only hour_utc package_templates
             (fun _ => quiet_cache) dumps_failing dumps_failing dumps_failing 1
             (forced_args docs) example_environ example_clock "octo" "secret" tz_utc
             wrapper_template (Fs.State Fs.empty_tree []) eq_refl ltac:(discriminate) eq_refl
             ltac:(discriminate) eq_refl (or_intror eq_refl) package_templates_render
             strict_os_only_missing) inventory todos week month Hinventory Htodos Hweek Hmonth).
Defined.

Lemma failed_activity_keeps_earlier_feeds_witness :
  exists s',
    Fs.run (Fs.main Fs.plain_os pytz_utc_only hour_utc package_templates (fun _ => aware_cache)
                    (dumps_stub "inventory") (dumps_stub "todos") (dumps_stub "activity") 1
                    (forced_args docs) example_environ example_clock)
           (Fs.State (fun _ => None) [])
    = (s', Return 1)
    /\ Fs.read_text Fs.plain_os (Fs.disk s') (Fs.joinpath docs "inventory.toml")
       = inr "inventory"%string
    /\ Fs.read_text Fs.plain_os (Fs.disk s') (Fs.joinpath docs "todos.toml")
       = inr "todos"%string
    /\ Fs.read_text Fs.plain_os (Fs.disk s') (Fs.joinpath docs "latest-7d.toml")
       = inl FileNotFoundError.
Proof.
  set (client := Build_GitHubClient "octo" (Some aware_cache)).
  assert (Hinventory : { inventory | build_inventory client "octo" 1 example_now
                                     = Return inventory }).
  { eexists. vm_compute. reflexivity. }
  destruct Hinventory as [inventory Hinventory].
  assert (Htodos : { todos | build_todos client inventory example_now = Return todos }).
  { assert (Hrun : { todos | (inventory ← build_inventory client "octo" 1 example_now;
                              build_todos client inventory example_now) = Return todos }).
    { eexists. vm_compute. reflexivity. }
    destruct Hrun as [todos Hrun]. exists todos. by rewrite Hinventory in Hrun. }
  destruct Htodos as [todos Htodos].
  destruct (failed_activity_keeps_earlier_feeds Fs.plain_os pytz_utc_only hour_utc
              package_templates (fun _ => aware_cache) (dumps_stub "inventory")
              (dumps_stub "todos") (dumps_stub "activity") 1 (forced_args docs)
              example_environ example_clock "octo" "secret" tz_utc wrapper_template
              (Fs.State (fun _ => None) []) inventory todos "inventory" "todos" TypeError
              eq_refl ltac:(discriminate) eq_refl ltac:(discriminate) eq_refl
              (or_intror eq_refl) package_templates_render plain_os_obliging
              Hinventory eq_refl Htodos eq_refl eq_refl)
    as (s' & Hrun & Hi & _ & Ht & _ & Hframe).
  exists s'. split; [exact Hrun|]. split; [exact Hi|]. split; [exact Ht|].
  rewrite Hframe; [reflexivity|].
  apply (bool_decide_unpack _). vm_compute. exact I.
Defined.

Lemma main_writes_all_feeds_witness :
  exists s',
    Fs.run (Fs.main Fs.plain_os pytz_utc_only hour_utc package_templates (fun _ => quiet_cache)
                    (dumps_stub "inventory") (dumps_stub "todos") (dumps_stub "activity") 1
                    (forced_args docs) example_environ example_clock)
           (Fs.State (fun _ => None) [])
    = (s', Return 0)
    /\ Fs.read_text Fs.plain_os (Fs.disk s') (Fs.joinpath docs "inventory.toml")
       = inr "inventory"%string
    /\ Fs.read_text Fs.plain_os (Fs.disk s') (Fs.joinpath docs "latest-30d.toml")
       = inr "activity"%string
    /\ Fs.read_text Fs.plain_os (Fs.disk s') (Fs.joinpath docs "hints.toml")
       = inl FileNotFoundError.
Proof.
  set (client := Build_GitHubClient "octo" (Some quiet_cache)).
  assert (Hinventory : { inventory | build_inventory client "octo" 1 example_now
                                     = Return inventory }).
  { eexists. vm_compute. reflexivity. }
  destruct Hinventory as [inventory Hinventory].
  assert (Htodos : { todos | build_todos client inventory example_now = Return todos }).
  { assert (Hrun : { todos | (inventory ← build_inventory client "octo" 1 example_now;
                              build_todos client inventory example_now) = Return todos }).
    { eexists. vm_compute. reflexivity. }
    destruct Hrun as [todos Hrun]. exists todos. by rewrite Hinventory in Hrun. }
  destruct Htodos as [todos Htodos].
  assert (Hweek : { week | build_activity pytz_utc_only client "octo" "UTC" 7 1 example_now
                           = Return week }).
  { eexists. vm_compute. reflexivity. }
  destruct Hweek as [week Hweek].
  assert (Hmonth : { month | build_activity pytz_utc_only client "octo" "UTC" 30 1 example_now
                             = Return month }).
  { eexists. vm_compute. reflexivity. }
  destruct Hmonth as [month Hmonth].
  destruct (main_writes_all_feeds Fs.plain_os pytz_utc_only hour_utc package_templates
              (fun _ => quiet_cache) (dumps_stub "inventory") (dumps_stub "todos")
              (dumps_stub "activity") 1 (forced_args docs) example_environ example_clock
              "octo" "secret" tz_utc wrapper_template (Fs.State (fun _ => None) [])
              inventory todos week month "inventory" "todos" "activity" "activity"
              eq_refl ltac:(discriminate) eq_refl ltac:(discriminate) eq_refl
              (or_intror eq_refl) package_templates_render plain_os_obliging
              Hinventory eq_refl Htodos eq_refl Hweek eq_refl Hmonth eq_refl)
    as (s' & Hrun & Hfeeds & Hframe).
  exists s'. split; [exact Hrun|].
  apply Forall_cons in Hfeeds as [[Hi _] Hfeeds].
  apply Forall_cons in Hfeeds as [_ Hfeeds].
  apply Forall_cons in Hfeeds as [_ Hfeeds].
  apply Forall_cons in Hfeeds as [[Hm _] _].
  split; [exact Hi|]. split; [exact Hm|].
  rewrite Hframe; [reflexivity| |]; apply (bool_decide_unpack _); vm_compute; exact I.
Defined.
